(** * The browser-side URL request of CEF: registry, identifiers and the
      per-request state machine

    Shallow embedding of [libcef/browser/net_service/browser_urlrequest_impl.cc].

    - [RequestManager] is a [std::map<int32_t, RequestInfo>]: a [gmap Z _].
    - [CefBrowserURLRequest::Context] is a record; every method is a function
      on the [World] (the context, the process-wide registry, the identifier
      counter, the two task queues and the calls made on the client).
    - A [DCHECK] that fails, and a call through a null pointer, end the
      run: methods return [Res], whose [Crashed] stands for both.
    - The client is an observer: every call made on it is appended to
      [client_calls], and it does not call back into the request from inside
      a callback.  The methods of the context run on the originating
      sequence, so their [DCHECK(CalledOnValidThread())] holds and is not
      modelled; the public methods of [CefBrowserURLRequest] take what
      [CalledOnValidThread()] answers as an argument. *)

From Stdlib Require Import ZArith String Ascii List Bool Lia.
From stdpp Require Import base option list gmap.

Local Open Scope Z_scope.

(** ** Results of fallible code *)

Inductive Res (A : Type) : Type :=
| Ok (a : A)
| Crashed.
Arguments Ok {A} a.
Arguments Crashed {A}.

Definition bind {A B : Type} (m : Res A) (k : A -> Res B) : Res B :=
  match m with
  | Ok a => k a
  | Crashed => Crashed
  end.

(** [DCHECK(b)]. *)
Definition DCHECK (b : bool) : Res unit := if b then Ok tt else Crashed.

Notation "'do' x <- m ; k" := (bind m (fun x => k))
  (at level 10, x name, m at level 100, k at level 200).
Notation "'check' b ; k" := (bind (DCHECK b) (fun _ => k))
  (at level 10, b at level 100, k at level 200).

(** ** Machine integers *)

Definition to_int32 (z : Z) : Z := (z + 2 ^ 31) mod 2 ^ 32 - 2 ^ 31.
Definition to_uint64 (z : Z) : Z := z mod 2 ^ 64.
Definition to_int64 (z : Z) : Z := (z + 2 ^ 63) mod 2 ^ 64 - 2 ^ 63.

(** ** References to ref-counted objects

    A [CefRefPtr<T>] is either null or names an object; objects that the
    request only passes around are named by a number. *)

Definition CefRefPtr (T : Type) : Type := option T.
Definition ObjId : Type := nat.

(** A [scoped_refptr<T>] is either null or refers to an object, given here
    by what the request reads of it. *)
Definition scoped_refptr (T : Type) : Type := option T.

(** [*p] and [p->]: reading through a null pointer ends the run. *)
Definition deref {T : Type} (p : scoped_refptr T) : Res T :=
  match p with
  | Some x => Ok x
  | None => Crashed
  end.

(** ** Identifier allocator and request registry *)

Definition kInitialRequestID : Z := -2.

(** [MakeRequestID]: [static int32_t request_id = kInitialRequestID;
    return --request_id;].  The static is threaded through. *)
Definition MakeRequestID (request_id : Z) : Z * Z :=
  let request_id' := to_int32 (request_id - 1) in
  (request_id', request_id').

(** [CefBrowserURLRequest::RequestInfo]: the owning request and its client. *)
Definition RequestInfo : Type := (CefRefPtr ObjId * CefRefPtr ObjId)%type.

Module RequestManager.

Definition Add (request_id : Z) (request client : CefRefPtr ObjId)
    (map_ : gmap Z RequestInfo) : Res (gmap Z RequestInfo) :=
  check (request_id <=? kInitialRequestID);
  check (bool_decide (map_ !! request_id = None));
  (* std::map::insert keeps an existing entry *)
  Ok (match map_ !! request_id with
      | Some _ => map_
      | None => <[request_id := (request, client)]> map_
      end).

Definition Remove (request_id : Z) (map_ : gmap Z RequestInfo)
    : Res (gmap Z RequestInfo) :=
  if request_id >? kInitialRequestID then Ok map_
  else
    check (bool_decide (is_Some (map_ !! request_id)));
    Ok (delete request_id map_).

Definition Get (request_id : Z) (map_ : gmap Z RequestInfo)
    : option RequestInfo :=
  if request_id >? kInitialRequestID then None
  else map_ !! request_id.

(** [~RequestManager() { DCHECK(map_.empty()); }] *)
Definition Destructor (map_ : gmap Z RequestInfo) : Res unit :=
  DCHECK (bool_decide (map_ = ∅)).

(** A history of calls on the registry. *)
Inductive Op : Type :=
| OpAdd (request_id : Z) (request client : CefRefPtr ObjId)
| OpRemove (request_id : Z).

Definition apply_op (op : Op) (map_ : gmap Z RequestInfo)
    : Res (gmap Z RequestInfo) :=
  match op with
  | OpAdd id r c => Add id r c map_
  | OpRemove id => Remove id map_
  end.

Fixpoint run_ops (ops : list Op) (map_ : gmap Z RequestInfo)
    : Res (gmap Z RequestInfo) :=
  match ops with
  | [] => Ok map_
  | op :: ops' => do m <- apply_op op map_; run_ops ops' m
  end.

(** "[add(id, request, client)] has been called and no matching
    [remove(id)] has occurred since". *)
Definition added_not_removed (id : Z) (info : RequestInfo)
    (ops : list Op) : Prop :=
  ∃ pre post,
    ops = pre ++ OpAdd id (fst info) (snd info) :: post
    ∧ ∀ op, op ∈ post → op ≠ OpRemove id.

End RequestManager.

(** ** Constants of the public API and of the transport

    The values of these enumerations live in headers that are not part of
    the translated file. *)

(** [cef_urlrequest_status_t]. *)
Inductive Status : Type :=
| UR_UNKNOWN
| UR_SUCCESS
| UR_IO_PENDING
| UR_CANCELED
| UR_FAILED.

Global Instance Status_eq_dec : EqDecision Status.
Proof. solve_decision. Defined.

(** Modelled from the spec: the "bitset of behavioral flags" of the request
    descriptor ([cef_urlrequest_flags_t], declared in a header that is not
    among the sources).  Each flag is one bit; the code only ever tests
    [request_flags & FLAG]. *)
Definition UR_FLAG_ALLOW_STORED_CREDENTIALS : Z := Z.shiftl 1 3.
Definition UR_FLAG_REPORT_UPLOAD_PROGRESS : Z := Z.shiftl 1 4.
Definition UR_FLAG_NO_DOWNLOAD_DATA : Z := Z.shiftl 1 5.
Definition UR_FLAG_NO_RETRY_ON_5XX : Z := Z.shiftl 1 6.
Definition UR_FLAG_STOP_ON_REDIRECT : Z := Z.shiftl 1 7.

(** [request_flags & FLAG] used as a condition. *)
Definition has_flag (request_flags flag : Z) : bool :=
  negb (Z.land request_flags flag =? 0).

(** Modelled from the spec: the error codes the request writes itself
    ("operation aborted") and starts from ([cef_errorcode_t], not among the
    sources). *)
Definition ERR_NONE : Z := 0.
Definition ERR_ABORTED : Z := -3.

(** Modelled from the spec: the "null routing identifier" used when the
    request is not frame-scoped ([MSG_ROUTING_NONE], not among the sources). *)
Definition MSG_ROUTING_NONE : Z := -2.

(** Modelled from the spec: "defaulting content-type to
    application/x-www-form-urlencoded"
    ([net_service::kContentTypeApplicationFormURLEncoded], not among the
    sources). *)
Definition kContentTypeApplicationFormURLEncoded : string :=
  "application/x-www-form-urlencoded"%string.

(** [net::HttpRequestHeaders::kContentType]. *)
Definition kContentType : string := "Content-Type"%string.

(** Modelled from the spec: "allow up to 2 retries on server error or
    network-change" ([network::SimpleURLLoader::RetryMode], not among the
    sources). *)
Definition RETRY_ON_5XX : Z := 1.
Definition RETRY_ON_NETWORK_CHANGE : Z := 2.

(** [blink::mojom::ResourceType]: only the value the request uses. *)
Inductive ResourceType : Type :=
| kResourceTypeUnset
| kSubResource.

(** [network::mojom::DataElementType]. *)
Inductive DataElementType : Type :=
| kUnknown
| kDataPipe
| kChunkedDataPipe
| kRawFile
| kBlob
| kFile
| kBytes.

(** ** What the platform decides

    Three library functions whose results the request only consumes. *)
Class Platform : Type := {
  (** [GURL(spec).is_valid()] *)
  gurl_is_valid : string -> bool;
  (** [base::FilePath::Extension()]: empty, or the extension with its
      leading period *)
  path_extension : string -> string;
  (** [net::GetMimeTypeFromExtension(ext, &mime)]: [Some mime] when it
      returns true and stores [mime] *)
  mime_type_from_extension : string -> option string
}.

(** ** HTTP header containers *)

Definition ascii_to_lower (c : ascii) : ascii :=
  let n := N_of_ascii c in
  if ((65 <=? n) && (n <=? 90))%N then ascii_of_N (n + 32) else c.

Fixpoint string_to_lower (s : string) : string :=
  match s with
  | EmptyString => EmptyString
  | String c s' => String (ascii_to_lower c) (string_to_lower s')
  end.

(** [net::HttpRequestHeaders::GetHeader(key, &out)]: the first header whose
    name equals [key] up to ASCII case; [out] is written only when found. *)
Fixpoint GetHeader (key : string) (headers : list (string * string))
    : option string :=
  match headers with
  | [] => None
  | (k, v) :: rest =>
      if String.eqb (string_to_lower k) (string_to_lower key) then Some v
      else GetHeader key rest
  end.

(** [net::HttpResponseHeaders], as far as the request reads it. *)
Module HttpResponseHeaders.
Record t : Type := {
  response_code : Z;
  lines : list (string * string);
  (** what [GetContentLength()] returns: -1 when there is none *)
  content_length : Z
}.
End HttpResponseHeaders.

(** [network::mojom::URLResponseHead]: [headers] is a
    [scoped_refptr<net::HttpResponseHeaders>], null when the response
    brought no headers. *)
Module URLResponseHead.
Record t : Type := {
  headers : scoped_refptr HttpResponseHeaders.t;
  content_length : Z
}.
End URLResponseHead.

(** [net::RedirectInfo]: [new_url.spec()]. *)
Module RedirectInfo.
Record t : Type := { new_url : string }.
End RedirectInfo.

(** [network::DataElement]. *)
Module DataElement.
Record t : Type := {
  type : DataElementType;
  path : string;
  bytes : string;
  offset : Z;
  length : Z
}.
End DataElement.

(** ** Request descriptor and response record *)

(** Modelled from the spec: the Request Descriptor ([CefRequestImpl], not
    among the sources): "target URL, method, headers, optional body, and a
    bitset of behavioral flags", "marked read-only to prevent concurrent
    mutation"; a setter called on a read-only object changes nothing. *)
Module CefRequestImpl.
Record t : Type := {
  url_ : string;
  method_ : string;
  headermap_ : list (string * string);
  (** null, or the elements of the body *)
  postdata_ : option (list DataElement.t);
  flags_ : Z;
  read_only_ : bool
}.

Definition SetReadOnly (read_only : bool) (r : t) : t :=
  {| url_ := url_ r; method_ := method_ r; headermap_ := headermap_ r;
     postdata_ := postdata_ r; flags_ := flags_ r;
     read_only_ := read_only |}.

Definition SetMethod (method : string) (r : t) : t :=
  if read_only_ r then r
  else {| url_ := url_ r; method_ := method; headermap_ := headermap_ r;
          postdata_ := postdata_ r; flags_ := flags_ r;
          read_only_ := read_only_ r |}.

Definition GetURL (r : t) : string := url_ r.
Definition GetMethod (r : t) : string := method_ r.
Definition GetFlags (r : t) : Z := flags_ r.
End CefRequestImpl.

(** Modelled from the spec: the Response Record ([CefResponseImpl], not
    among the sources): "final URL, response headers, numeric status/error
    code", "made temporarily mutable by the owner and otherwise treated as
    read-only"; a setter called on a read-only object changes nothing, and
    storing response headers stores their status code with them. *)
Module CefResponseImpl.
Record t : Type := {
  url_ : string;
  status_code_ : Z;
  error_code_ : Z;
  header_map_ : list (string * string);
  read_only_ : bool
}.

(** [new CefResponseImpl()] *)
Definition new : t :=
  {| url_ := EmptyString; status_code_ := 0; error_code_ := ERR_NONE;
     header_map_ := []; read_only_ := false |}.

Definition SetReadOnly (read_only : bool) (r : t) : t :=
  {| url_ := url_ r; status_code_ := status_code_ r;
     error_code_ := error_code_ r; header_map_ := header_map_ r;
     read_only_ := read_only |}.

Definition SetURL (url : string) (r : t) : t :=
  if read_only_ r then r
  else {| url_ := url; status_code_ := status_code_ r;
          error_code_ := error_code_ r; header_map_ := header_map_ r;
          read_only_ := read_only_ r |}.

Definition SetError (error : Z) (r : t) : t :=
  if read_only_ r then r
  else {| url_ := url_ r; status_code_ := status_code_ r;
          error_code_ := error; header_map_ := header_map_ r;
          read_only_ := read_only_ r |}.

Definition SetResponseHeaders (headers : HttpResponseHeaders.t) (r : t) : t :=
  if read_only_ r then r
  else {| url_ := url_ r;
          status_code_ := HttpResponseHeaders.response_code headers;
          error_code_ := error_code_ r;
          header_map_ := HttpResponseHeaders.lines headers;
          read_only_ := read_only_ r |}.

Definition GetStatus (r : t) : Z := status_code_ r.
Definition GetError (r : t) : Z := error_code_ r.
Definition GetURL (r : t) : string := url_ r.
End CefResponseImpl.

(** ** The transport *)

(** [network::ResourceRequest], the fields the request fills in. *)
Module ResourceRequest.
Record t : Type := {
  method : string;
  url : string;
  headers : list (string * string);
  request_body : option (list DataElement.t);
  render_frame_id : Z;
  resource_type : ResourceType;
  (** [url::Origin::Create(url)], kept as the URL it was created from *)
  request_initiator : option string;
  force_ignore_site_for_cookies : bool;
  (** [net::SiteForCookies::FromOrigin(origin)], kept as that origin *)
  site_for_cookies : option string
}.

Definition set_method (v : string) (x : t) : t :=
  {| method := v; url := url x; headers := headers x;
     request_body := request_body x; render_frame_id := render_frame_id x;
     resource_type := resource_type x;
     request_initiator := request_initiator x;
     force_ignore_site_for_cookies := force_ignore_site_for_cookies x;
     site_for_cookies := site_for_cookies x |}.
Definition set_request_body (v : option (list DataElement.t)) (x : t) : t :=
  {| method := method x; url := url x; headers := headers x;
     request_body := v; render_frame_id := render_frame_id x;
     resource_type := resource_type x;
     request_initiator := request_initiator x;
     force_ignore_site_for_cookies := force_ignore_site_for_cookies x;
     site_for_cookies := site_for_cookies x |}.
Definition set_render_frame_id (v : Z) (x : t) : t :=
  {| method := method x; url := url x; headers := headers x;
     request_body := request_body x; render_frame_id := v;
     resource_type := resource_type x;
     request_initiator := request_initiator x;
     force_ignore_site_for_cookies := force_ignore_site_for_cookies x;
     site_for_cookies := site_for_cookies x |}.
Definition set_resource_type (v : ResourceType) (x : t) : t :=
  {| method := method x; url := url x; headers := headers x;
     request_body := request_body x; render_frame_id := render_frame_id x;
     resource_type := v; request_initiator := request_initiator x;
     force_ignore_site_for_cookies := force_ignore_site_for_cookies x;
     site_for_cookies := site_for_cookies x |}.
Definition set_request_initiator (v : option string) (x : t) : t :=
  {| method := method x; url := url x; headers := headers x;
     request_body := request_body x; render_frame_id := render_frame_id x;
     resource_type := resource_type x; request_initiator := v;
     force_ignore_site_for_cookies := force_ignore_site_for_cookies x;
     site_for_cookies := site_for_cookies x |}.
Definition set_force_ignore_site_for_cookies (v : bool) (x : t) : t :=
  {| method := method x; url := url x; headers := headers x;
     request_body := request_body x; render_frame_id := render_frame_id x;
     resource_type := resource_type x;
     request_initiator := request_initiator x;
     force_ignore_site_for_cookies := v;
     site_for_cookies := site_for_cookies x |}.
Definition set_site_for_cookies (v : option string) (x : t) : t :=
  {| method := method x; url := url x; headers := headers x;
     request_body := request_body x; render_frame_id := render_frame_id x;
     resource_type := resource_type x;
     request_initiator := request_initiator x;
     force_ignore_site_for_cookies := force_ignore_site_for_cookies x;
     site_for_cookies := v |}.
End ResourceRequest.

(** Modelled from the spec: "copies descriptor fields into a
    transport-native request" ([CefRequestImpl::Get], not among the
    sources). *)
Definition CefRequestImpl_Get (r : CefRequestImpl.t) : ResourceRequest.t :=
  {| ResourceRequest.method := CefRequestImpl.method_ r;
     ResourceRequest.url := CefRequestImpl.url_ r;
     ResourceRequest.headers := CefRequestImpl.headermap_ r;
     ResourceRequest.request_body := CefRequestImpl.postdata_ r;
     ResourceRequest.render_frame_id := MSG_ROUTING_NONE;
     ResourceRequest.resource_type := kResourceTypeUnset;
     ResourceRequest.request_initiator := None;
     ResourceRequest.force_ignore_site_for_cookies := false;
     ResourceRequest.site_for_cookies := None |}.

(** [net_service::URLLoaderFactoryGetter::Create(rfh, browser_context)]:
    the frame tree node the factory was created for, if any. *)
Module URLLoaderFactoryGetter.
Record t : Type := { render_frame_host : option Z }.
End URLLoaderFactoryGetter.

(** What was attached to the loader for upload. *)
Inductive Upload : Type :=
| FileForUpload (path content_type : string)
| StringForUpload (data content_type : string).

(** How the loader was started. *)
Inductive Download : Type :=
| HeadersOnly
| AsStream.

(** What the transport reports once it is done: [GetFinalURL().spec()],
    [NetError()], [LoadedFromCache()]. *)
Module TransportResult.
Record t : Type := {
  final_url : string;
  net_error : Z;
  loaded_from_cache : bool
}.
Definition none : t :=
  {| final_url := EmptyString; net_error := 0; loaded_from_cache := false |}.
End TransportResult.

(** [network::SimpleURLLoader]: its configuration, and what it reports. *)
Module SimpleURLLoader.
Record t : Type := {
  resource_request : ResourceRequest.t;
  request_id : option Z;
  upload : option Upload;
  allow_http_error_results : bool;
  (** [SetRetryOptions(max_retries, retry_mode)] *)
  retry_options : option (Z * Z);
  on_redirect_callback : bool;
  on_upload_progress_callback : bool;
  on_response_started_callback : bool;
  on_download_progress_callback : bool;
  download : option Download;
  result : TransportResult.t
}.

(** [SimpleURLLoader::Create(std::move(resource_request), ...)] *)
Definition Create (rr : ResourceRequest.t) : t :=
  {| resource_request := rr; request_id := None; upload := None;
     allow_http_error_results := false; retry_options := None;
     on_redirect_callback := false; on_upload_progress_callback := false;
     on_response_started_callback := false;
     on_download_progress_callback := false;
     download := None; result := TransportResult.none |}.

Definition set_request_id (v : option Z) (x : t) : t :=
  {| resource_request := resource_request x; request_id := v;
     upload := upload x;
     allow_http_error_results := allow_http_error_results x;
     retry_options := retry_options x;
     on_redirect_callback := on_redirect_callback x;
     on_upload_progress_callback := on_upload_progress_callback x;
     on_response_started_callback := on_response_started_callback x;
     on_download_progress_callback := on_download_progress_callback x;
     download := download x; result := result x |}.
Definition set_upload (v : option Upload) (x : t) : t :=
  {| resource_request := resource_request x; request_id := request_id x;
     upload := v; allow_http_error_results := allow_http_error_results x;
     retry_options := retry_options x;
     on_redirect_callback := on_redirect_callback x;
     on_upload_progress_callback := on_upload_progress_callback x;
     on_response_started_callback := on_response_started_callback x;
     on_download_progress_callback := on_download_progress_callback x;
     download := download x; result := result x |}.
Definition set_allow_http_error_results (v : bool) (x : t) : t :=
  {| resource_request := resource_request x; request_id := request_id x;
     upload := upload x; allow_http_error_results := v;
     retry_options := retry_options x;
     on_redirect_callback := on_redirect_callback x;
     on_upload_progress_callback := on_upload_progress_callback x;
     on_response_started_callback := on_response_started_callback x;
     on_download_progress_callback := on_download_progress_callback x;
     download := download x; result := result x |}.
Definition set_retry_options (v : option (Z * Z)) (x : t) : t :=
  {| resource_request := resource_request x; request_id := request_id x;
     upload := upload x;
     allow_http_error_results := allow_http_error_results x;
     retry_options := v; on_redirect_callback := on_redirect_callback x;
     on_upload_progress_callback := on_upload_progress_callback x;
     on_response_started_callback := on_response_started_callback x;
     on_download_progress_callback := on_download_progress_callback x;
     download := download x; result := result x |}.
Definition set_on_redirect_callback (v : bool) (x : t) : t :=
  {| resource_request := resource_request x; request_id := request_id x;
     upload := upload x;
     allow_http_error_results := allow_http_error_results x;
     retry_options := retry_options x; on_redirect_callback := v;
     on_upload_progress_callback := on_upload_progress_callback x;
     on_response_started_callback := on_response_started_callback x;
     on_download_progress_callback := on_download_progress_callback x;
     download := download x; result := result x |}.
Definition set_on_upload_progress_callback (v : bool) (x : t) : t :=
  {| resource_request := resource_request x; request_id := request_id x;
     upload := upload x;
     allow_http_error_results := allow_http_error_results x;
     retry_options := retry_options x;
     on_redirect_callback := on_redirect_callback x;
     on_upload_progress_callback := v;
     on_response_started_callback := on_response_started_callback x;
     on_download_progress_callback := on_download_progress_callback x;
     download := download x; result := result x |}.
Definition set_on_response_started_callback (v : bool) (x : t) : t :=
  {| resource_request := resource_request x; request_id := request_id x;
     upload := upload x;
     allow_http_error_results := allow_http_error_results x;
     retry_options := retry_options x;
     on_redirect_callback := on_redirect_callback x;
     on_upload_progress_callback := on_upload_progress_callback x;
     on_response_started_callback := v;
     on_download_progress_callback := on_download_progress_callback x;
     download := download x; result := result x |}.
Definition set_on_download_progress_callback (v : bool) (x : t) : t :=
  {| resource_request := resource_request x; request_id := request_id x;
     upload := upload x;
     allow_http_error_results := allow_http_error_results x;
     retry_options := retry_options x;
     on_redirect_callback := on_redirect_callback x;
     on_upload_progress_callback := on_upload_progress_callback x;
     on_response_started_callback := on_response_started_callback x;
     on_download_progress_callback := v; download := download x;
     result := result x |}.
Definition set_download (v : option Download) (x : t) : t :=
  {| resource_request := resource_request x; request_id := request_id x;
     upload := upload x;
     allow_http_error_results := allow_http_error_results x;
     retry_options := retry_options x;
     on_redirect_callback := on_redirect_callback x;
     on_upload_progress_callback := on_upload_progress_callback x;
     on_response_started_callback := on_response_started_callback x;
     on_download_progress_callback := on_download_progress_callback x;
     download := v; result := result x |}.
Definition set_result (v : TransportResult.t) (x : t) : t :=
  {| resource_request := resource_request x; request_id := request_id x;
     upload := upload x;
     allow_http_error_results := allow_http_error_results x;
     retry_options := retry_options x;
     on_redirect_callback := on_redirect_callback x;
     on_upload_progress_callback := on_upload_progress_callback x;
     on_response_started_callback := on_response_started_callback x;
     on_download_progress_callback := on_download_progress_callback x;
     download := download x; result := v |}.
End SimpleURLLoader.


(** ** The per-request context *)

(** The members of [CefBrowserURLRequest::Context], with their initial
    values.  [task_runner_] and [weak_ptr_factory_] are the two task queues
    of the [World] below. *)
Module Context.
Record t : Type := {
  url_request_ : CefRefPtr ObjId;
  frame_ : CefRefPtr ObjId;
  request_ : CefRequestImpl.t;
  client_ : CefRefPtr ObjId;
  request_context_ : CefRefPtr ObjId;
  loader_factory_getter_ : option URLLoaderFactoryGetter.t;
  loader_ : option SimpleURLLoader.t;
  request_id_ : Z;
  status_ : Status;
  response_ : CefResponseImpl.t;
  response_was_cached_ : bool;
  upload_data_size_ : Z;
  download_data_size_ : Z;
  got_upload_progress_complete_ : bool;
  cleanup_immediately_ : bool
}.

Definition set_url_request_ (v : CefRefPtr ObjId) (x : t) : t :=
  {| url_request_ := v; frame_ := frame_ x; request_ := request_ x;
     client_ := client_ x; request_context_ := request_context_ x;
     loader_factory_getter_ := loader_factory_getter_ x;
     loader_ := loader_ x; request_id_ := request_id_ x;
     status_ := status_ x; response_ := response_ x;
     response_was_cached_ := response_was_cached_ x;
     upload_data_size_ := upload_data_size_ x;
     download_data_size_ := download_data_size_ x;
     got_upload_progress_complete_ := got_upload_progress_complete_ x;
     cleanup_immediately_ := cleanup_immediately_ x |}.
Definition set_frame_ (v : CefRefPtr ObjId) (x : t) : t :=
  {| url_request_ := url_request_ x; frame_ := v; request_ := request_ x;
     client_ := client_ x; request_context_ := request_context_ x;
     loader_factory_getter_ := loader_factory_getter_ x;
     loader_ := loader_ x; request_id_ := request_id_ x;
     status_ := status_ x; response_ := response_ x;
     response_was_cached_ := response_was_cached_ x;
     upload_data_size_ := upload_data_size_ x;
     download_data_size_ := download_data_size_ x;
     got_upload_progress_complete_ := got_upload_progress_complete_ x;
     cleanup_immediately_ := cleanup_immediately_ x |}.
Definition set_request_ (v : CefRequestImpl.t) (x : t) : t :=
  {| url_request_ := url_request_ x; frame_ := frame_ x; request_ := v;
     client_ := client_ x; request_context_ := request_context_ x;
     loader_factory_getter_ := loader_factory_getter_ x;
     loader_ := loader_ x; request_id_ := request_id_ x;
     status_ := status_ x; response_ := response_ x;
     response_was_cached_ := response_was_cached_ x;
     upload_data_size_ := upload_data_size_ x;
     download_data_size_ := download_data_size_ x;
     got_upload_progress_complete_ := got_upload_progress_complete_ x;
     cleanup_immediately_ := cleanup_immediately_ x |}.
Definition set_client_ (v : CefRefPtr ObjId) (x : t) : t :=
  {| url_request_ := url_request_ x; frame_ := frame_ x;
     request_ := request_ x; client_ := v;
     request_context_ := request_context_ x;
     loader_factory_getter_ := loader_factory_getter_ x;
     loader_ := loader_ x; request_id_ := request_id_ x;
     status_ := status_ x; response_ := response_ x;
     response_was_cached_ := response_was_cached_ x;
     upload_data_size_ := upload_data_size_ x;
     download_data_size_ := download_data_size_ x;
     got_upload_progress_complete_ := got_upload_progress_complete_ x;
     cleanup_immediately_ := cleanup_immediately_ x |}.
Definition set_request_context_ (v : CefRefPtr ObjId) (x : t) : t :=
  {| url_request_ := url_request_ x; frame_ := frame_ x;
     request_ := request_ x; client_ := client_ x; request_context_ := v;
     loader_factory_getter_ := loader_factory_getter_ x;
     loader_ := loader_ x; request_id_ := request_id_ x;
     status_ := status_ x; response_ := response_ x;
     response_was_cached_ := response_was_cached_ x;
     upload_data_size_ := upload_data_size_ x;
     download_data_size_ := download_data_size_ x;
     got_upload_progress_complete_ := got_upload_progress_complete_ x;
     cleanup_immediately_ := cleanup_immediately_ x |}.
Definition set_loader_factory_getter_ (v : option URLLoaderFactoryGetter.t) (x : t) : t :=
  {| url_request_ := url_request_ x; frame_ := frame_ x;
     request_ := request_ x; client_ := client_ x;
     request_context_ := request_context_ x; loader_factory_getter_ := v;
     loader_ := loader_ x; request_id_ := request_id_ x;
     status_ := status_ x; response_ := response_ x;
     response_was_cached_ := response_was_cached_ x;
     upload_data_size_ := upload_data_size_ x;
     download_data_size_ := download_data_size_ x;
     got_upload_progress_complete_ := got_upload_progress_complete_ x;
     cleanup_immediately_ := cleanup_immediately_ x |}.
Definition set_loader_ (v : option SimpleURLLoader.t) (x : t) : t :=
  {| url_request_ := url_request_ x; frame_ := frame_ x;
     request_ := request_ x; client_ := client_ x;
     request_context_ := request_context_ x;
     loader_factory_getter_ := loader_factory_getter_ x; loader_ := v;
     request_id_ := request_id_ x; status_ := status_ x;
     response_ := response_ x;
     response_was_cached_ := response_was_cached_ x;
     upload_data_size_ := upload_data_size_ x;
     download_data_size_ := download_data_size_ x;
     got_upload_progress_complete_ := got_upload_progress_complete_ x;
     cleanup_immediately_ := cleanup_immediately_ x |}.
Definition set_request_id_ (v : Z) (x : t) : t :=
  {| url_request_ := url_request_ x; frame_ := frame_ x;
     request_ := request_ x; client_ := client_ x;
     request_context_ := request_context_ x;
     loader_factory_getter_ := loader_factory_getter_ x;
     loader_ := loader_ x; request_id_ := v; status_ := status_ x;
     response_ := response_ x;
     response_was_cached_ := response_was_cached_ x;
     upload_data_size_ := upload_data_size_ x;
     download_data_size_ := download_data_size_ x;
     got_upload_progress_complete_ := got_upload_progress_complete_ x;
     cleanup_immediately_ := cleanup_immediately_ x |}.
Definition set_status_ (v : Status) (x : t) : t :=
  {| url_request_ := url_request_ x; frame_ := frame_ x;
     request_ := request_ x; client_ := client_ x;
     request_context_ := request_context_ x;
     loader_factory_getter_ := loader_factory_getter_ x;
     loader_ := loader_ x; request_id_ := request_id_ x; status_ := v;
     response_ := response_ x;
     response_was_cached_ := response_was_cached_ x;
     upload_data_size_ := upload_data_size_ x;
     download_data_size_ := download_data_size_ x;
     got_upload_progress_complete_ := got_upload_progress_complete_ x;
     cleanup_immediately_ := cleanup_immediately_ x |}.
Definition set_response_ (v : CefResponseImpl.t) (x : t) : t :=
  {| url_request_ := url_request_ x; frame_ := frame_ x;
     request_ := request_ x; client_ := client_ x;
     request_context_ := request_context_ x;
     loader_factory_getter_ := loader_factory_getter_ x;
     loader_ := loader_ x; request_id_ := request_id_ x;
     status_ := status_ x; response_ := v;
     response_was_cached_ := response_was_cached_ x;
     upload_data_size_ := upload_data_size_ x;
     download_data_size_ := download_data_size_ x;
     got_upload_progress_complete_ := got_upload_progress_complete_ x;
     cleanup_immediately_ := cleanup_immediately_ x |}.
Definition set_response_was_cached_ (v : bool) (x : t) : t :=
  {| url_request_ := url_request_ x; frame_ := frame_ x;
     request_ := request_ x; client_ := client_ x;
     request_context_ := request_context_ x;
     loader_factory_getter_ := loader_factory_getter_ x;
     loader_ := loader_ x; request_id_ := request_id_ x;
     status_ := status_ x; response_ := response_ x;
     response_was_cached_ := v; upload_data_size_ := upload_data_size_ x;
     download_data_size_ := download_data_size_ x;
     got_upload_progress_complete_ := got_upload_progress_complete_ x;
     cleanup_immediately_ := cleanup_immediately_ x |}.
Definition set_upload_data_size_ (v : Z) (x : t) : t :=
  {| url_request_ := url_request_ x; frame_ := frame_ x;
     request_ := request_ x; client_ := client_ x;
     request_context_ := request_context_ x;
     loader_factory_getter_ := loader_factory_getter_ x;
     loader_ := loader_ x; request_id_ := request_id_ x;
     status_ := status_ x; response_ := response_ x;
     response_was_cached_ := response_was_cached_ x;
     upload_data_size_ := v; download_data_size_ := download_data_size_ x;
     got_upload_progress_complete_ := got_upload_progress_complete_ x;
     cleanup_immediately_ := cleanup_immediately_ x |}.
Definition set_download_data_size_ (v : Z) (x : t) : t :=
  {| url_request_ := url_request_ x; frame_ := frame_ x;
     request_ := request_ x; client_ := client_ x;
     request_context_ := request_context_ x;
     loader_factory_getter_ := loader_factory_getter_ x;
     loader_ := loader_ x; request_id_ := request_id_ x;
     status_ := status_ x; response_ := response_ x;
     response_was_cached_ := response_was_cached_ x;
     upload_data_size_ := upload_data_size_ x; download_data_size_ := v;
     got_upload_progress_complete_ := got_upload_progress_complete_ x;
     cleanup_immediately_ := cleanup_immediately_ x |}.
Definition set_got_upload_progress_complete_ (v : bool) (x : t) : t :=
  {| url_request_ := url_request_ x; frame_ := frame_ x;
     request_ := request_ x; client_ := client_ x;
     request_context_ := request_context_ x;
     loader_factory_getter_ := loader_factory_getter_ x;
     loader_ := loader_ x; request_id_ := request_id_ x;
     status_ := status_ x; response_ := response_ x;
     response_was_cached_ := response_was_cached_ x;
     upload_data_size_ := upload_data_size_ x;
     download_data_size_ := download_data_size_ x;
     got_upload_progress_complete_ := v;
     cleanup_immediately_ := cleanup_immediately_ x |}.
Definition set_cleanup_immediately_ (v : bool) (x : t) : t :=
  {| url_request_ := url_request_ x; frame_ := frame_ x;
     request_ := request_ x; client_ := client_ x;
     request_context_ := request_context_ x;
     loader_factory_getter_ := loader_factory_getter_ x;
     loader_ := loader_ x; request_id_ := request_id_ x;
     status_ := status_ x; response_ := response_ x;
     response_was_cached_ := response_was_cached_ x;
     upload_data_size_ := upload_data_size_ x;
     download_data_size_ := download_data_size_ x;
     got_upload_progress_complete_ := got_upload_progress_complete_ x;
     cleanup_immediately_ := v |}.

(** The constructor: marks the request and the fresh response read-only. *)
Definition new (url_request : ObjId) (frame : CefRefPtr ObjId)
    (request : CefRequestImpl.t) (client : CefRefPtr ObjId)
    (request_context : CefRefPtr ObjId) : t :=
  {| url_request_ := Some url_request;
     frame_ := frame;
     request_ := CefRequestImpl.SetReadOnly true request;
     client_ := client;
     request_context_ := request_context;
     loader_factory_getter_ := None;
     loader_ := None;
     request_id_ := 0;
     status_ := UR_IO_PENDING;
     response_ := CefResponseImpl.SetReadOnly true CefResponseImpl.new;
     response_was_cached_ := false;
     upload_data_size_ := 0;
     download_data_size_ := -1;
     got_upload_progress_complete_ := false;
     cleanup_immediately_ := false |}.
End Context.

(** ** The world around one request *)

(** The calls the request makes on its client, in the order made; each
    carries [url_request_.get()]. *)
Inductive ClientCall : Type :=
| CallOnRequestComplete (request : CefRefPtr ObjId)
| CallOnUploadProgress (request : CefRefPtr ObjId) (current total : Z)
| CallOnDownloadProgress (request : CefRefPtr ObjId) (current total : Z)
| CallOnDownloadData (request : CefRefPtr ObjId) (data : string).

(** The closures the transport hands over, when they are run. *)
Inductive TransportCall : Type :=
| RunResume
| RunStartRetry.

(** The closure posted by [Start] to the UI thread, with its bound
    arguments. *)
Record UiTask : Type := {
  ui_frame : CefRefPtr ObjId;
  ui_request_context : CefRefPtr ObjId
}.

(** The closure posted back to the originating sequence. *)
Record ContinueTask : Type := {
  ct_render_frame_id : Z;
  ct_request_id : Z;
  ct_loader_factory_getter : option URLLoaderFactoryGetter.t
}.

(** [DeleteSoon] and [ReleaseSoon] on the originating task runner. *)
Inductive Deferred : Type :=
| DeleteSoon (loader : SimpleURLLoader.t)
| ReleaseSoon (getter : option URLLoaderFactoryGetter.t).

Module World.
Record t : Type := {
  (** the request's context *)
  ctx : Context.t;
  (** [g_manager]'s [map_] *)
  g_manager : gmap Z RequestInfo;
  (** the static [request_id] of [MakeRequestID] *)
  request_id : Z;
  (** tasks posted to the UI thread, oldest first *)
  ui_tasks : list UiTask;
  (** tasks posted to the originating sequence, oldest first *)
  originating_tasks : list ContinueTask;
  deferred : list Deferred;
  client_calls : list ClientCall;
  transport_calls : list TransportCall;
  (** history variable, not a member: how often [OnComplete] has written
      the final URL, the error code and the cached flag *)
  finalize_count : nat
}.

Definition set_ctx (v : Context.t) (x : t) : t :=
  {| ctx := v; g_manager := g_manager x; request_id := request_id x;
     ui_tasks := ui_tasks x; originating_tasks := originating_tasks x;
     deferred := deferred x; client_calls := client_calls x;
     transport_calls := transport_calls x;
     finalize_count := finalize_count x |}.
Definition set_g_manager (v : gmap Z RequestInfo) (x : t) : t :=
  {| ctx := ctx x; g_manager := v; request_id := request_id x;
     ui_tasks := ui_tasks x; originating_tasks := originating_tasks x;
     deferred := deferred x; client_calls := client_calls x;
     transport_calls := transport_calls x;
     finalize_count := finalize_count x |}.
Definition set_request_id (v : Z) (x : t) : t :=
  {| ctx := ctx x; g_manager := g_manager x; request_id := v;
     ui_tasks := ui_tasks x; originating_tasks := originating_tasks x;
     deferred := deferred x; client_calls := client_calls x;
     transport_calls := transport_calls x;
     finalize_count := finalize_count x |}.
Definition set_ui_tasks (v : list UiTask) (x : t) : t :=
  {| ctx := ctx x; g_manager := g_manager x; request_id := request_id x;
     ui_tasks := v; originating_tasks := originating_tasks x;
     deferred := deferred x; client_calls := client_calls x;
     transport_calls := transport_calls x;
     finalize_count := finalize_count x |}.
Definition set_originating_tasks (v : list ContinueTask) (x : t) : t :=
  {| ctx := ctx x; g_manager := g_manager x; request_id := request_id x;
     ui_tasks := ui_tasks x; originating_tasks := v;
     deferred := deferred x; client_calls := client_calls x;
     transport_calls := transport_calls x;
     finalize_count := finalize_count x |}.
Definition set_deferred (v : list Deferred) (x : t) : t :=
  {| ctx := ctx x; g_manager := g_manager x; request_id := request_id x;
     ui_tasks := ui_tasks x; originating_tasks := originating_tasks x;
     deferred := v; client_calls := client_calls x;
     transport_calls := transport_calls x;
     finalize_count := finalize_count x |}.
Definition set_client_calls (v : list ClientCall) (x : t) : t :=
  {| ctx := ctx x; g_manager := g_manager x; request_id := request_id x;
     ui_tasks := ui_tasks x; originating_tasks := originating_tasks x;
     deferred := deferred x; client_calls := v;
     transport_calls := transport_calls x;
     finalize_count := finalize_count x |}.
Definition set_transport_calls (v : list TransportCall) (x : t) : t :=
  {| ctx := ctx x; g_manager := g_manager x; request_id := request_id x;
     ui_tasks := ui_tasks x; originating_tasks := originating_tasks x;
     deferred := deferred x; client_calls := client_calls x;
     transport_calls := v; finalize_count := finalize_count x |}.
Definition set_finalize_count (v : nat) (x : t) : t :=
  {| ctx := ctx x; g_manager := g_manager x; request_id := request_id x;
     ui_tasks := ui_tasks x; originating_tasks := originating_tasks x;
     deferred := deferred x; client_calls := client_calls x;
     transport_calls := transport_calls x; finalize_count := v |}.

(** Update of the context in place. *)
Definition upd_ctx (f : Context.t -> Context.t) (x : t) : t :=
  set_ctx (f (ctx x)) x.
End World.

(** ** The methods of [CefBrowserURLRequest::Context] *)

Definition non_null {T : Type} (p : CefRefPtr T) : bool :=
  match p with
  | Some _ => true
  | None => false
  end.

Definition string_empty (s : string) : bool :=
  match s with
  | EmptyString => true
  | String _ _ => false
  end.

(** [s.substr(1)] on a non-empty string. *)
Definition substr1 (s : string) : string :=
  match s with
  | EmptyString => EmptyString
  | String _ s' => s'
  end.

Definition Status_eqb (a b : Status) : bool :=
  match a, b with
  | UR_UNKNOWN, UR_UNKNOWN
  | UR_SUCCESS, UR_SUCCESS
  | UR_IO_PENDING, UR_IO_PENDING
  | UR_CANCELED, UR_CANCELED
  | UR_FAILED, UR_FAILED => true
  | _, _ => false
  end.

(** [status_ == s]. *)
Definition status_is (s : Status) (w : World.t) : bool :=
  Status_eqb (Context.status_ (World.ctx w)) s.

(** [client_->Method(...)]: a call through [client_]. *)
Definition call_client (call : ClientCall) (w : World.t) : Res World.t :=
  match Context.client_ (World.ctx w) with
  | None => Crashed
  | Some _ => Ok (World.set_client_calls (World.client_calls w ++ [call]) w)
  end.

(** [response_->...]: an update of the response record. *)
Definition upd_response (f : CefResponseImpl.t -> CefResponseImpl.t)
    (w : World.t) : World.t :=
  World.upd_ctx (fun c => Context.set_response_ (f (Context.response_ c)) c) w.

(** [loader_->...]: an update of the loader, which the callers have
    created. *)
Definition upd_loader (f : SimpleURLLoader.t -> SimpleURLLoader.t)
    (w : World.t) : World.t :=
  World.upd_ctx (fun c => Context.set_loader_ (f <$> Context.loader_ c) c) w.

Definition Cleanup (w : World.t) : Res World.t :=
  let c := World.ctx w in
  check (non_null (Context.url_request_ c));
  do map_ <- RequestManager.Remove (Context.request_id_ c) (World.g_manager w);
  let w := World.set_g_manager map_ w in
  let w := World.upd_ctx (Context.set_client_ None) w in
  let w := World.upd_ctx (Context.set_request_context_ None) w in
  (* We may be canceled before the loader is created. *)
  let w :=
    match Context.loader_ c with
    | Some loader =>
        if Context.cleanup_immediately_ c then
          let w := World.upd_ctx (Context.set_loader_ None) w in
          World.upd_ctx (Context.set_loader_factory_getter_ None) w
        else
          let w :=
            World.set_deferred
              (World.deferred w ++
                 [DeleteSoon loader;
                  ReleaseSoon (Context.loader_factory_getter_ c)]) w in
          let w := World.upd_ctx (Context.set_loader_ None) w in
          World.upd_ctx (Context.set_loader_factory_getter_ None) w
    | None => w
    end in
  Ok (World.upd_ctx (Context.set_url_request_ None) w).

Definition NotifyUploadProgressIfNecessary (w : World.t) : Res World.t :=
  let c := World.ctx w in
  if negb (Context.got_upload_progress_complete_ c)
     && (Context.upload_data_size_ c >? 0)
  then
    do w <- call_client
              (CallOnUploadProgress (Context.url_request_ c)
                 (Context.upload_data_size_ c) (Context.upload_data_size_ c))
              w;
    Ok (World.upd_ctx (Context.set_got_upload_progress_complete_ true) w)
  else Ok w.

Definition OnComplete (success : bool) (w : World.t) : Res World.t :=
  (* The request may already be complete or canceled. *)
  if negb (non_null (Context.url_request_ (World.ctx w))) then Ok w
  else
    do w <-
      (if status_is UR_IO_PENDING w then
         match Context.loader_ (World.ctx w) with
         | None => Crashed
         | Some loader =>
             let r := SimpleURLLoader.result loader in
             let w :=
               World.upd_ctx
                 (Context.set_status_ (if success then UR_SUCCESS else UR_FAILED))
                 w in
             let w := upd_response (CefResponseImpl.SetReadOnly false) w in
             let w :=
               upd_response
                 (CefResponseImpl.SetURL (TransportResult.final_url r)) w in
             let w :=
               upd_response
                 (CefResponseImpl.SetError (TransportResult.net_error r)) w in
             let w := upd_response (CefResponseImpl.SetReadOnly true) w in
             let w :=
               World.upd_ctx
                 (Context.set_response_was_cached_
                    (TransportResult.loaded_from_cache r)) w in
             Ok (World.set_finalize_count (S (World.finalize_count w)) w)
         end
       else Ok w);
    do w <- (if success then NotifyUploadProgressIfNecessary w else Ok w);
    do w <- call_client
              (CallOnRequestComplete (Context.url_request_ (World.ctx w))) w;
    Cleanup w.

Definition Cancel (w : World.t) : Res World.t :=
  (* The request may already be complete or canceled. *)
  if negb (non_null (Context.url_request_ (World.ctx w))) then Ok w
  else
    check (status_is UR_IO_PENDING w);
    let w := World.upd_ctx (Context.set_status_ UR_CANCELED) w in
    let w := upd_response (CefResponseImpl.SetReadOnly false) w in
    let w := upd_response (CefResponseImpl.SetError ERR_ABORTED) w in
    let w := upd_response (CefResponseImpl.SetReadOnly true) w in
    let w := World.upd_ctx (Context.set_cleanup_immediately_ true) w in
    OnComplete false w.

Definition OnDownloadProgress (current : Z) (w : World.t) : Res World.t :=
  check (status_is UR_IO_PENDING w);
  if CefResponseImpl.GetStatus (Context.response_ (World.ctx w)) =? 0 then
    (* With failed requests this callback may arrive without a proceeding
       OnHeadersOnly or OnResponseStarted. *)
    Ok w
  else
    do w <- NotifyUploadProgressIfNecessary w;
    call_client
      (CallOnDownloadProgress (Context.url_request_ (World.ctx w))
         (to_int64 current) (Context.download_data_size_ (World.ctx w)))
      w.

Definition OnUploadProgress (position total : Z) (w : World.t) : Res World.t :=
  check (status_is UR_IO_PENDING w);
  let w := World.upd_ctx (Context.set_upload_data_size_ (to_int64 total)) w in
  let w :=
    if position =? total then
      World.upd_ctx (Context.set_got_upload_progress_complete_ true) w
    else w in
  call_client
    (CallOnUploadProgress (Context.url_request_ (World.ctx w))
       (to_int64 position) (to_int64 total))
    w.

Definition OnDataReceived (string_piece : string) (w : World.t) : Res World.t :=
  check (status_is UR_IO_PENDING w);
  do w <- call_client
            (CallOnDownloadData (Context.url_request_ (World.ctx w))
               string_piece) w;
  Ok (World.set_transport_calls (World.transport_calls w ++ [RunResume]) w).

Definition OnRetry (w : World.t) : Res World.t :=
  check (status_is UR_IO_PENDING w);
  Ok (World.set_transport_calls (World.transport_calls w ++ [RunStartRetry]) w).

Definition OnResponseStarted (final_url : string)
    (response_head : URLResponseHead.t) (w : World.t) : Res World.t :=
  check (status_is UR_IO_PENDING w);
  let w := upd_response (CefResponseImpl.SetReadOnly false) w in
  let w := upd_response (CefResponseImpl.SetURL final_url) w in
  (* *response_head.headers *)
  do headers <- deref (URLResponseHead.headers response_head);
  let w := upd_response (CefResponseImpl.SetResponseHeaders headers) w in
  let w := upd_response (CefResponseImpl.SetReadOnly true) w in
  Ok (World.upd_ctx
        (Context.set_download_data_size_
           (URLResponseHead.content_length response_head)) w).

Definition OnRedirect (redirect_info : RedirectInfo.t)
    (response_head : URLResponseHead.t) (w : World.t) : Res World.t :=
  check (status_is UR_IO_PENDING w);
  (* This method is only called if we intend to stop on redirects. *)
  check (negb (Z.lor (CefRequestImpl.GetFlags (Context.request_ (World.ctx w)))
                 UR_FLAG_STOP_ON_REDIRECT =? 0));
  let w := upd_response (CefResponseImpl.SetReadOnly false) w in
  let w :=
    upd_response (CefResponseImpl.SetURL (RedirectInfo.new_url redirect_info))
      w in
  (* *response_head.headers *)
  do headers <- deref (URLResponseHead.headers response_head);
  let w := upd_response (CefResponseImpl.SetResponseHeaders headers) w in
  let w := upd_response (CefResponseImpl.SetReadOnly true) w in
  Cancel w.

(** The callback of a headers-only fetch.  [headers] is a
    [scoped_refptr<net::HttpResponseHeaders>] and is read through without a
    test, first by [*headers] and then by [headers->GetContentLength()]:
    on a null pointer the method fails at the first of the two, before
    anything is reported to the client. *)
Definition OnHeadersOnly (headers : scoped_refptr HttpResponseHeaders.t)
    (w : World.t) : Res World.t :=
  check (status_is UR_IO_PENDING w);
  let w := upd_response (CefResponseImpl.SetReadOnly false) w in
  (* *headers *)
  do headers <- deref headers;
  let w := upd_response (CefResponseImpl.SetResponseHeaders headers) w in
  let w := upd_response (CefResponseImpl.SetReadOnly true) w in
  (* Match the previous behavior of sending download progress notifications
     for UR_FLAG_NO_DOWNLOAD_DATA requests but not HEAD requests. *)
  do w <-
    (if negb (String.eqb
                (CefRequestImpl.GetMethod (Context.request_ (World.ctx w)))
                "HEAD")
     then
       let w :=
         World.upd_ctx
           (Context.set_download_data_size_
              (HttpResponseHeaders.content_length headers)) w in
       OnDownloadProgress 0 w
     else Ok w);
  let w := World.upd_ctx (Context.set_cleanup_immediately_ true) w in
  OnComplete true w.

(** [frame->GetRenderFrameHost()] on the UI thread: null, or a host with its
    frame tree node id. *)
Module RenderFrameHost.
Record t : Type := { frame_tree_node_id : Z }.
End RenderFrameHost.

(** The UI-thread step.  [rfh] is what [GetRenderFrameHost()] returns when
    there is a frame.  It allocates the identifier and posts the
    continuation. *)
Definition GetURLLoaderFactoryGetterOnUIThread (frame : CefRefPtr ObjId)
    (request_context : CefRefPtr ObjId) (rfh : option RenderFrameHost.t)
    (w : World.t) : World.t :=
  let render_frame_id := MSG_ROUTING_NONE in
  let loader_factory_getter : option URLLoaderFactoryGetter.t := None in
  let '(render_frame_id, loader_factory_getter) :=
    match frame with
    | Some _ =>
        (* The request will be associated with this frame/browser if it's
           valid, otherwise the request will be canceled. *)
        match rfh with
        | Some host =>
            let id := RenderFrameHost.frame_tree_node_id host in
            (id,
             Some {| URLLoaderFactoryGetter.render_frame_host := Some id |})
        | None => (render_frame_id, loader_factory_getter)
        end
    | None =>
        (render_frame_id,
         Some {| URLLoaderFactoryGetter.render_frame_host := None |})
    end in
  let '(id, counter) := MakeRequestID (World.request_id w) in
  let w := World.set_request_id counter w in
  World.set_originating_tasks
    (World.originating_tasks w ++
       [{| ct_render_frame_id := render_frame_id;
           ct_request_id := id;
           ct_loader_factory_getter := loader_factory_getter |}]) w.

Section WithPlatform.
Context `{Platform}.

Definition Start (w : World.t) : bool * World.t :=
  let c := World.ctx w in
  let url := CefRequestImpl.GetURL (Context.request_ c) in
  if negb (gurl_is_valid url) then (false, w)
  else
    (true,
     World.set_ui_tasks
       (World.ui_tasks w ++
          [{| ui_frame := Context.frame_ c;
              ui_request_context := Context.request_context_ c |}]) w).

(** [ContinueOnOriginatingThread] is a long method; its three blocks are
    given first, in the order in which it runs them. *)

(** The block [if (request_body) { ... }] that fixes the method and reads
    the content type: yields [method], the transport request, the world
    (the descriptor is rewritten) and [content_type]. *)
Definition fix_method_for_body (request_body : option (list DataElement.t))
    (rr : ResourceRequest.t) (w : World.t)
    : string * ResourceRequest.t * World.t * string :=
  let content_type := EmptyString in
  let method := ResourceRequest.method rr in
  match request_body with
  | Some _ =>
      let '(method, rr, w) :=
        if String.eqb method "GET" || String.eqb method "HEAD" then
          (* Fix the method value to allow a request body. *)
          let method := "POST"%string in
          let rr := ResourceRequest.set_method method rr in
          let w :=
            World.upd_ctx
              (fun c =>
                 Context.set_request_
                   (CefRequestImpl.SetReadOnly true
                      (CefRequestImpl.SetMethod method
                         (CefRequestImpl.SetReadOnly false
                            (Context.request_ c)))) c) w in
          (method, rr, w)
        else (method, rr, w) in
      (method, rr, w,
       default content_type
         (GetHeader kContentType (ResourceRequest.headers rr)))
  | None => (method, rr, w, content_type)
  end.

(** The second block [if (request_body) { ... }], after the loader exists:
    attaches the body. *)
Definition attach_request_body (request_flags : Z) (content_type : string)
    (request_body : option (list DataElement.t)) (w : World.t) : World.t :=
  match request_body with
  | Some [element] =>
      match DataElement.type element with
      | kFile =>
          let content_type :=
            if string_empty content_type then
              let extension := path_extension (DataElement.path element) in
              if negb (string_empty extension) then
                (* Also remove the leading period. *)
                default content_type
                  (mime_type_from_extension (substr1 extension))
              else content_type
            else content_type in
          upd_loader
            (SimpleURLLoader.set_upload
               (Some (FileForUpload (DataElement.path element) content_type)))
            w
      | kBytes =>
          let content_type :=
            if string_empty content_type then
              kContentTypeApplicationFormURLEncoded
            else content_type in
          let size :=
            to_uint64
              (DataElement.length element - DataElement.offset element) in
          let w :=
            upd_loader
              (SimpleURLLoader.set_upload
                 (Some (StringForUpload
                          (substring (Z.to_nat (DataElement.offset element))
                             (Z.to_nat size) (DataElement.bytes element))
                          content_type))) w in
          if has_flag request_flags UR_FLAG_REPORT_UPLOAD_PROGRESS then
            (* Report the expected upload data size. *)
            World.upd_ctx (Context.set_upload_data_size_ (to_int64 size)) w
          else w
      | _ =>
          (* NOTIMPLEMENTED: unsupported element type *)
          w
      end
  | Some [] => w
  | Some (_ :: _ :: _) =>
      (* NOTIMPLEMENTED: multi-part form data is not supported *)
      w
  | None => w
  end.

(** The last block: the policy of the loader, and its start. *)
Definition start_loader (request_flags : Z) (method : string) (w : World.t)
    : World.t :=
  (* Allow delivery of non-2xx response bodies. *)
  let w := upd_loader (SimpleURLLoader.set_allow_http_error_results true) w in
  let w :=
    if negb (has_flag request_flags UR_FLAG_NO_RETRY_ON_5XX) then
      (* Allow 2 retries on 5xx response or network change. *)
      upd_loader
        (SimpleURLLoader.set_retry_options
           (Some (2, Z.lor RETRY_ON_5XX RETRY_ON_NETWORK_CHANGE))) w
    else w in
  let w :=
    if has_flag request_flags UR_FLAG_STOP_ON_REDIRECT then
      (* The request will be canceled in OnRedirect. *)
      upd_loader (SimpleURLLoader.set_on_redirect_callback true) w
    else w in
  let w :=
    if has_flag request_flags UR_FLAG_REPORT_UPLOAD_PROGRESS then
      upd_loader (SimpleURLLoader.set_on_upload_progress_callback true) w
    else w in
  if has_flag request_flags UR_FLAG_NO_DOWNLOAD_DATA
     || String.eqb method "HEAD"
  then upd_loader (SimpleURLLoader.set_download (Some HeadersOnly)) w
  else
    let w :=
      upd_loader (SimpleURLLoader.set_on_response_started_callback true) w in
    let w :=
      upd_loader (SimpleURLLoader.set_on_download_progress_callback true) w in
    upd_loader (SimpleURLLoader.set_download (Some AsStream)) w.

Definition ContinueOnOriginatingThread (render_frame_id request_id : Z)
    (loader_factory_getter : option URLLoaderFactoryGetter.t)
    (w : World.t) : Res World.t :=
  (* The request may have been canceled. *)
  if negb (non_null (Context.url_request_ (World.ctx w))) then Ok w
  else if negb (non_null loader_factory_getter) then
    (* Cancel the request immediately. *)
    Cancel w
  else
    check (status_is UR_IO_PENDING w);
    let w :=
      World.upd_ctx (Context.set_loader_factory_getter_ loader_factory_getter)
        w in
    let request_ := Context.request_ (World.ctx w) in
    let request_flags := CefRequestImpl.GetFlags request_ in
    let rr := CefRequestImpl_Get request_ in
    let rr := ResourceRequest.set_render_frame_id render_frame_id rr in
    (* Behave the same as a subresource load. *)
    let rr := ResourceRequest.set_resource_type kSubResource rr in
    (* Set the origin to match the request. *)
    let url := CefRequestImpl.GetURL request_ in
    let rr := ResourceRequest.set_request_initiator (Some url) rr in
    let rr :=
      if has_flag request_flags UR_FLAG_ALLOW_STORED_CREDENTIALS then
        (* Include SameSite cookies. *)
        let rr := ResourceRequest.set_force_ignore_site_for_cookies true rr in
        ResourceRequest.set_site_for_cookies
          (ResourceRequest.request_initiator rr) rr
      else rr in
    (* SimpleURLLoader is picky about the body contents. *)
    let request_body := ResourceRequest.request_body rr in
    let rr := ResourceRequest.set_request_body None rr in
    let '(method, rr, w, content_type) :=
      fix_method_for_body request_body rr w in
    let w :=
      World.upd_ctx
        (Context.set_loader_ (Some (SimpleURLLoader.Create rr))) w in
    (* Associate the request with |request_id|. *)
    let w := World.upd_ctx (Context.set_request_id_ request_id) w in
    let w := upd_loader (SimpleURLLoader.set_request_id (Some request_id)) w in
    do map_ <-
      RequestManager.Add request_id (Context.url_request_ (World.ctx w))
        (Context.client_ (World.ctx w)) (World.g_manager w);
    let w := World.set_g_manager map_ w in
    let w := attach_request_body request_flags content_type request_body w in
    Ok (start_loader request_flags method w).

End WithPlatform.

(** ** Events and runs

    What can happen to a request once it exists: the caller cancels it, a
    posted task runs, or the transport calls back.  The transport calls
    back only through the loader the context holds, and only through the
    callbacks and the download mode that were set on it; with a completion
    it brings the result the loader then reports.  The header pointers it
    hands over are null or set, as their type allows; a headers-only fetch
    has the one callback, whatever its outcome. *)

Inductive Event : Type :=
| EvCancel
| EvUiTask (rfh : option RenderFrameHost.t)
| EvContinue
| EvHeadersOnly (headers : scoped_refptr HttpResponseHeaders.t)
    (result : TransportResult.t)
| EvRedirect (redirect_info : RedirectInfo.t) (response_head : URLResponseHead.t)
| EvResponseStarted (final_url : string) (response_head : URLResponseHead.t)
| EvUploadProgress (position total : Z)
| EvDownloadProgress (current : Z)
| EvDataReceived (string_piece : string)
| EvComplete (success : bool) (result : TransportResult.t)
| EvRetry.

(** No header pointer the event brings is null. *)
Definition null_free (e : Event) : bool :=
  match e with
  | EvHeadersOnly headers _ => bool_decide (is_Some headers)
  | EvRedirect _ response_head | EvResponseStarted _ response_head =>
      bool_decide (is_Some (URLResponseHead.headers response_head))
  | _ => true
  end.

Definition loader_has (p : SimpleURLLoader.t -> bool) (w : World.t) : bool :=
  match Context.loader_ (World.ctx w) with
  | Some loader => p loader
  | None => false
  end.

Definition downloads (d : Download) (loader : SimpleURLLoader.t) : bool :=
  match SimpleURLLoader.download loader, d with
  | Some HeadersOnly, HeadersOnly => true
  | Some AsStream, AsStream => true
  | _, _ => false
  end.

Definition enabled (e : Event) (w : World.t) : bool :=
  match e with
  | EvCancel => true
  | EvUiTask _ => negb (bool_decide (World.ui_tasks w = []))
  | EvContinue => negb (bool_decide (World.originating_tasks w = []))
  | EvHeadersOnly _ _ => loader_has (downloads HeadersOnly) w
  | EvRedirect _ _ => loader_has SimpleURLLoader.on_redirect_callback w
  | EvResponseStarted _ _ =>
      loader_has SimpleURLLoader.on_response_started_callback w
  | EvUploadProgress _ _ =>
      loader_has SimpleURLLoader.on_upload_progress_callback w
  | EvDownloadProgress _ =>
      loader_has SimpleURLLoader.on_download_progress_callback w
  | EvDataReceived _ => loader_has (downloads AsStream) w
  | EvComplete _ _ => loader_has (downloads AsStream) w
  | EvRetry => loader_has (downloads AsStream) w
  end.

Section Runs.
Context `{Platform}.

Definition handle (e : Event) (w : World.t) : Res World.t :=
  match e with
  | EvCancel => Cancel w
  | EvUiTask rfh =>
      match World.ui_tasks w with
      | [] => Ok w
      | task :: rest =>
          Ok (GetURLLoaderFactoryGetterOnUIThread (ui_frame task)
                (ui_request_context task) rfh (World.set_ui_tasks rest w))
      end
  | EvContinue =>
      match World.originating_tasks w with
      | [] => Ok w
      | task :: rest =>
          ContinueOnOriginatingThread (ct_render_frame_id task)
            (ct_request_id task) (ct_loader_factory_getter task)
            (World.set_originating_tasks rest w)
      end
  | EvHeadersOnly headers result =>
      OnHeadersOnly headers (upd_loader (SimpleURLLoader.set_result result) w)
  | EvRedirect redirect_info response_head =>
      OnRedirect redirect_info response_head w
  | EvResponseStarted final_url response_head =>
      OnResponseStarted final_url response_head w
  | EvUploadProgress position total => OnUploadProgress position total w
  | EvDownloadProgress current => OnDownloadProgress current w
  | EvDataReceived string_piece => OnDataReceived string_piece w
  | EvComplete success result =>
      OnComplete success (upd_loader (SimpleURLLoader.set_result result) w)
  | EvRetry => OnRetry w
  end.

(** A run: each event must be possible, and its handler must return. *)
Fixpoint run (es : list Event) (w : World.t) : option World.t :=
  match es with
  | [] => Some w
  | e :: es' =>
      if enabled e w then
        match handle e w with
        | Ok w' => run es' w'
        | Crashed => None
        end
      else None
  end.

End Runs.

(** The world in which a request is created: the handle, its frame,
    descriptor, client and request context, next to the registry and the
    identifier counter as other requests have left them. *)
Record Setup : Type := {
  s_url_request : ObjId;
  s_frame : CefRefPtr ObjId;
  s_request : CefRequestImpl.t;
  s_client : ObjId;
  s_request_context : CefRefPtr ObjId;
  s_registry : gmap Z RequestInfo;
  s_counter : Z
}.

Definition initial (s : Setup) : World.t :=
  {| World.ctx :=
       Context.new (s_url_request s) (s_frame s) (s_request s)
         (Some (s_client s)) (s_request_context s);
     World.g_manager := s_registry s;
     World.request_id := s_counter s;
     World.ui_tasks := [];
     World.originating_tasks := [];
     World.deferred := [];
     World.client_calls := [];
     World.transport_calls := [];
     World.finalize_count := 0 |}.

(** Identifiers handed out so far are those from [kInitialRequestID - 1]
    down to the counter, the registry holds none below it, and the counter
    has not run out of [int32_t]. *)
Definition setup_ok (s : Setup) : Prop :=
  - 2 ^ 31 < s_counter s <= kInitialRequestID
  ∧ ∀ k, is_Some (s_registry s !! k) → s_counter s <= k.

(** Observations on a world. *)
Definition live (w : World.t) : bool :=
  non_null (Context.url_request_ (World.ctx w)).
Definition status (w : World.t) : Status := Context.status_ (World.ctx w).
Definition response (w : World.t) : CefResponseImpl.t :=
  Context.response_ (World.ctx w).
Definition response_was_cached (w : World.t) : bool :=
  Context.response_was_cached_ (World.ctx w).

Definition is_complete (c : ClientCall) : bool :=
  match c with
  | CallOnRequestComplete _ => true
  | _ => false
  end.
Definition is_upload_progress (c : ClientCall) : bool :=
  match c with
  | CallOnUploadProgress _ _ _ => true
  | _ => false
  end.
Definition is_download_progress (c : ClientCall) : bool :=
  match c with
  | CallOnDownloadProgress _ _ _ => true
  | _ => false
  end.
Definition is_download_data (c : ClientCall) : bool :=
  match c with
  | CallOnDownloadData _ _ => true
  | _ => false
  end.

(** How many calls of a kind the client has received. *)
Definition count_calls (p : ClientCall -> bool) (w : World.t) : nat :=
  List.length (List.filter p (World.client_calls w)).


(** ** The public object

    [CefBrowserURLRequest] owns the context and forwards to it once
    [VerifyContext] has checked the calling thread.  What
    [task_runner_->RunsTasksInCurrentSequence()] answers is an argument,
    [called_on_valid_thread]. *)

(** [NOTREACHED()]: an assertion that always fails. *)
Definition NOTREACHED : Res unit := DCHECK false.

(** [network::mojom::kBrowserProcessId]: "(value 0)", as the comment in
    [GetURLLoaderFactoryGetterOnUIThread] has it. *)
Definition kBrowserProcessId : Z := 0.

(** [content::GlobalRequestID]. *)
Module GlobalRequestID.
Record t : Type := {
  child_id : Z;
  request_id : Z
}.
End GlobalRequestID.

Module CefBrowserURLRequest.

(** [FromRequestID(int32_t request_id)] *)
Definition FromRequestID (request_id : Z) (w : World.t)
    : option RequestInfo :=
  RequestManager.Get request_id (World.g_manager w).

(** [FromRequestID(const content::GlobalRequestID& request_id)] *)
Definition FromGlobalRequestID (request_id : GlobalRequestID.t)
    (w : World.t) : option RequestInfo :=
  if GlobalRequestID.child_id request_id =? kBrowserProcessId then
    FromRequestID (GlobalRequestID.request_id request_id) w
  else None.

Definition VerifyContext (called_on_valid_thread : bool) : Res bool :=
  if negb called_on_valid_thread then
    (* "called on invalid thread" *)
    check false;
    Ok false
  else Ok true.

Definition GetRequest (called_on_valid_thread : bool) (w : World.t)
    : Res (CefRefPtr CefRequestImpl.t) :=
  do ok <- VerifyContext called_on_valid_thread;
  if negb ok then Ok None
  else Ok (Some (Context.request_ (World.ctx w))).

Definition GetClient (called_on_valid_thread : bool) (w : World.t)
    : Res (CefRefPtr ObjId) :=
  do ok <- VerifyContext called_on_valid_thread;
  if negb ok then Ok None
  else Ok (Context.client_ (World.ctx w)).

Definition GetRequestStatus (called_on_valid_thread : bool) (w : World.t)
    : Res Status :=
  do ok <- VerifyContext called_on_valid_thread;
  if negb ok then Ok UR_UNKNOWN
  else Ok (Context.status_ (World.ctx w)).

Definition GetRequestError (called_on_valid_thread : bool) (w : World.t)
    : Res Z :=
  do ok <- VerifyContext called_on_valid_thread;
  if negb ok then Ok ERR_NONE
  else Ok (CefResponseImpl.GetError (Context.response_ (World.ctx w))).

Definition GetResponse (called_on_valid_thread : bool) (w : World.t)
    : Res (CefRefPtr CefResponseImpl.t) :=
  do ok <- VerifyContext called_on_valid_thread;
  if negb ok then Ok None
  else Ok (Some (Context.response_ (World.ctx w))).

Definition ResponseWasCached (called_on_valid_thread : bool) (w : World.t)
    : Res bool :=
  do ok <- VerifyContext called_on_valid_thread;
  if negb ok then Ok false
  else Ok (Context.response_was_cached_ (World.ctx w)).

Definition Cancel (called_on_valid_thread : bool) (w : World.t)
    : Res World.t :=
  do ok <- VerifyContext called_on_valid_thread;
  if negb ok then Ok w
  else Cancel w.

Section WithPlatform.
Context `{Platform}.

Definition Start (called_on_valid_thread : bool) (w : World.t)
    : Res (bool * World.t) :=
  do ok <- VerifyContext called_on_valid_thread;
  if negb ok then Ok (false, w)
  else Ok (Start w).

End WithPlatform.

End CefBrowserURLRequest.

(** ** What the continuation leaves behind

    The three blocks of [ContinueOnOriginatingThread] as functions of the
    descriptor alone; the lemmas [fix_method_for_body_eq],
    [attach_request_body_eq], [start_loader_eq] and [Continue_main] below
    show that the method computes exactly these. *)
Section Summary.
Context `{Platform}.

(** [method] after the first block. *)
Definition fixed_method (request_body : option (list DataElement.t))
    (method : string) : string :=
  match request_body with
  | Some _ =>
      if String.eqb method "GET" || String.eqb method "HEAD"
      then "POST"%string else method
  | None => method
  end.

(** The descriptor after the first block. *)
Definition fixed_descriptor (request_body : option (list DataElement.t))
    (method : string) (rq : CefRequestImpl.t) : CefRequestImpl.t :=
  match request_body with
  | Some _ =>
      if String.eqb method "GET" || String.eqb method "HEAD" then
        CefRequestImpl.SetReadOnly true
          (CefRequestImpl.SetMethod "POST"
             (CefRequestImpl.SetReadOnly false rq))
      else rq
  | None => rq
  end.

(** [content_type] after the first block. *)
Definition header_content_type (request_body : option (list DataElement.t))
    (headers : list (string * string)) : string :=
  match request_body with
  | Some _ => default EmptyString (GetHeader kContentType headers)
  | None => EmptyString
  end.

Definition file_content_type (content_type path : string) : string :=
  if string_empty content_type then
    let extension := path_extension path in
    if negb (string_empty extension) then
      default content_type (mime_type_from_extension (substr1 extension))
    else content_type
  else content_type.

Definition bytes_content_type (content_type : string) : string :=
  if string_empty content_type then kContentTypeApplicationFormURLEncoded
  else content_type.

(** [element.length() - element.offset()], in [uint64_t]. *)
Definition bytes_size (element : DataElement.t) : Z :=
  to_uint64 (DataElement.length element - DataElement.offset element).

Definition bytes_data (element : DataElement.t) : string :=
  substring (Z.to_nat (DataElement.offset element))
    (Z.to_nat (bytes_size element)) (DataElement.bytes element).

(** What the second block attaches, if anything. *)
Definition body_upload (content_type : string)
    (request_body : option (list DataElement.t)) : option Upload :=
  match request_body with
  | Some [element] =>
      match DataElement.type element with
      | kFile =>
          Some (FileForUpload (DataElement.path element)
                  (file_content_type content_type (DataElement.path element)))
      | kBytes =>
          Some (StringForUpload (bytes_data element)
                  (bytes_content_type content_type))
      | _ => None
      end
  | _ => None
  end.

Definition attach_upload (content_type : string)
    (request_body : option (list DataElement.t))
    (loader : SimpleURLLoader.t) : SimpleURLLoader.t :=
  SimpleURLLoader.set_upload
    (match body_upload content_type request_body with
     | Some u => Some u
     | None => SimpleURLLoader.upload loader
     end) loader.

(** [upload_data_size_] after the second block. *)
Definition body_upload_size (request_flags : Z)
    (request_body : option (list DataElement.t)) (old : Z) : Z :=
  match request_body with
  | Some [element] =>
      match DataElement.type element with
      | kBytes =>
          if has_flag request_flags UR_FLAG_REPORT_UPLOAD_PROGRESS
          then to_int64 (bytes_size element)
          else old
      | _ => old
      end
  | _ => old
  end.

Definition headers_only (request_flags : Z) (method : string) : bool :=
  has_flag request_flags UR_FLAG_NO_DOWNLOAD_DATA || String.eqb method "HEAD".

(** The loader after the last block. *)
Definition configure (request_flags : Z) (method : string)
    (loader : SimpleURLLoader.t) : SimpleURLLoader.t :=
  let stream := negb (headers_only request_flags method) in
  {| SimpleURLLoader.resource_request :=
       SimpleURLLoader.resource_request loader;
     SimpleURLLoader.request_id := SimpleURLLoader.request_id loader;
     SimpleURLLoader.upload := SimpleURLLoader.upload loader;
     SimpleURLLoader.allow_http_error_results := true;
     SimpleURLLoader.retry_options :=
       if has_flag request_flags UR_FLAG_NO_RETRY_ON_5XX
       then SimpleURLLoader.retry_options loader
       else Some (2, Z.lor RETRY_ON_5XX RETRY_ON_NETWORK_CHANGE);
     SimpleURLLoader.on_redirect_callback :=
       has_flag request_flags UR_FLAG_STOP_ON_REDIRECT
       || SimpleURLLoader.on_redirect_callback loader;
     SimpleURLLoader.on_upload_progress_callback :=
       has_flag request_flags UR_FLAG_REPORT_UPLOAD_PROGRESS
       || SimpleURLLoader.on_upload_progress_callback loader;
     SimpleURLLoader.on_response_started_callback :=
       stream || SimpleURLLoader.on_response_started_callback loader;
     SimpleURLLoader.on_download_progress_callback :=
       stream || SimpleURLLoader.on_download_progress_callback loader;
     SimpleURLLoader.download :=
       Some (if stream then AsStream else HeadersOnly);
     SimpleURLLoader.result := SimpleURLLoader.result loader |}.

(** The transport request handed to [SimpleURLLoader::Create]. *)
Definition transport_request (render_frame_id : Z) (rq : CefRequestImpl.t)
    : ResourceRequest.t :=
  let rr := CefRequestImpl_Get rq in
  let rr := ResourceRequest.set_render_frame_id render_frame_id rr in
  let rr := ResourceRequest.set_resource_type kSubResource rr in
  let rr :=
    ResourceRequest.set_request_initiator (Some (CefRequestImpl.GetURL rq)) rr in
  let rr :=
    if has_flag (CefRequestImpl.GetFlags rq) UR_FLAG_ALLOW_STORED_CREDENTIALS
    then
      ResourceRequest.set_site_for_cookies
        (ResourceRequest.request_initiator rr)
        (ResourceRequest.set_force_ignore_site_for_cookies true rr)
    else rr in
  ResourceRequest.set_method
    (fixed_method (CefRequestImpl.postdata_ rq) (CefRequestImpl.method_ rq))
    (ResourceRequest.set_request_body None rr).

Definition configured_loader (render_frame_id request_id : Z)
    (rq : CefRequestImpl.t) : SimpleURLLoader.t :=
  let body := CefRequestImpl.postdata_ rq in
  configure (CefRequestImpl.GetFlags rq)
    (fixed_method body (CefRequestImpl.method_ rq))
    (attach_upload (header_content_type body (CefRequestImpl.headermap_ rq))
       body
       (SimpleURLLoader.set_request_id (Some request_id)
          (SimpleURLLoader.Create (transport_request render_frame_id rq)))).

(** The world after the continuation has configured and started the
    loader. *)
Definition continued (render_frame_id request_id : Z)
    (getter : URLLoaderFactoryGetter.t) (w : World.t) : World.t :=
  let c := World.ctx w in
  let rq := Context.request_ c in
  let body := CefRequestImpl.postdata_ rq in
  World.set_g_manager
    (<[request_id := (Context.url_request_ c, Context.client_ c)]>
       (World.g_manager w))
    (World.set_ctx
       (Context.set_upload_data_size_
          (body_upload_size (CefRequestImpl.GetFlags rq) body
             (Context.upload_data_size_ c))
          (Context.set_request_id_ request_id
             (Context.set_loader_
                (Some (configured_loader render_frame_id request_id rq))
                (Context.set_request_
                   (fixed_descriptor body (CefRequestImpl.method_ rq) rq)
                   (Context.set_loader_factory_getter_ (Some getter) c)))))
       w).

End Summary.

(** ** Invariants of a run *)

Definition terminal (s : Status) : Prop :=
  s = UR_SUCCESS ∨ s = UR_FAILED ∨ s = UR_CANCELED.

(** At most one task is under way, and the identifier it carries, or will
    be given, is not in the registry. *)
Definition tasks_fresh (ui : list UiTask) (originating : list ContinueTask)
    (counter : Z) (map_ : gmap Z RequestInfo) : Prop :=
  match ui, originating with
  | [], [] => True
  | [_], [] =>
      - 2 ^ 31 < counter <= kInitialRequestID
      ∧ ∀ k, is_Some (map_ !! k) → counter <= k
  | [], [task] =>
      ct_request_id task <= kInitialRequestID
      ∧ map_ !! ct_request_id task = None
  | _, _ => False
  end.

Definition tasks_ok (w : World.t) : Prop :=
  tasks_fresh (World.ui_tasks w) (World.originating_tasks w)
    (World.request_id w) (World.g_manager w).

Record inv (w : World.t) : Prop := {
  inv_pending : live w = true → status w = UR_IO_PENDING;
  inv_terminal : live w = false → terminal (status w);
  inv_client :
    live w = true → non_null (Context.client_ (World.ctx w)) = true;
  inv_loader_live :
    non_null (Context.loader_ (World.ctx w)) = true → live w = true;
  inv_registered :
    non_null (Context.loader_ (World.ctx w)) = true →
    Context.request_id_ (World.ctx w) <= kInitialRequestID
    ∧ is_Some (World.g_manager w !! Context.request_id_ (World.ctx w));
  inv_unregistered :
    live w = true → Context.loader_ (World.ctx w) = None →
    Context.request_id_ (World.ctx w) = 0;
  inv_tasks : tasks_ok w;
  inv_tasks_done :
    non_null (Context.loader_ (World.ctx w)) = true →
    World.ui_tasks w = [] ∧ World.originating_tasks w = [];
  inv_complete :
    count_calls is_complete w = if live w then 0%nat else 1%nat;
  inv_finalize :
    World.finalize_count w =
    match status w with
    | UR_SUCCESS | UR_FAILED => 1%nat
    | _ => 0%nat
    end
}.

(** Two worlds that agree on everything the invariant reads. *)
Definition same_core (w w' : World.t) : Prop :=
  Context.url_request_ (World.ctx w') = Context.url_request_ (World.ctx w)
  ∧ Context.status_ (World.ctx w') = Context.status_ (World.ctx w)
  ∧ Context.client_ (World.ctx w') = Context.client_ (World.ctx w)
  ∧ Context.loader_ (World.ctx w') = Context.loader_ (World.ctx w)
  ∧ Context.request_id_ (World.ctx w') = Context.request_id_ (World.ctx w)
  ∧ World.g_manager w' = World.g_manager w
  ∧ World.request_id w' = World.request_id w
  ∧ World.ui_tasks w' = World.ui_tasks w
  ∧ World.originating_tasks w' = World.originating_tasks w
  ∧ World.finalize_count w' = World.finalize_count w
  ∧ count_calls is_complete w' = count_calls is_complete w.

(** The client is there to be called. *)
Definition client_set (w : World.t) : Prop :=
  non_null (Context.client_ (World.ctx w)) = true.

(** The registry after the removal of the request's identifier. *)
Definition removes (map_ : gmap Z RequestInfo) (w : World.t) : Prop :=
  RequestManager.Remove (Context.request_id_ (World.ctx w)) (World.g_manager w)
  = Ok map_.

(** ** The effect of each method when its checks pass

    Each method below, stripped of its assertions and null tests; the
    lemmas of the section [Effects] show that the method returns exactly
    this world when the request is live and pending. *)

(** [Cleanup], given the registry [Remove] returned. *)
Definition cleaned (map_ : gmap Z RequestInfo) (w : World.t) : World.t :=
  let c := World.ctx w in
  let deferred_loader :=
    match Context.loader_ c with
    | Some loader =>
        if Context.cleanup_immediately_ c then World.deferred w
        else World.deferred w ++
               [DeleteSoon loader; ReleaseSoon (Context.loader_factory_getter_ c)]
    | None => World.deferred w
    end in
  let getter :=
    match Context.loader_ c with
    | Some _ => None
    | None => Context.loader_factory_getter_ c
    end in
  World.set_ctx
    (Context.set_url_request_ None
       (Context.set_loader_factory_getter_ getter
          (Context.set_loader_ None
             (Context.set_request_context_ None
                (Context.set_client_ None c)))))
    (World.set_deferred deferred_loader (World.set_g_manager map_ w)).

(** What [NotifyUploadProgressIfNecessary] tells the client. *)
Definition upload_notice (w : World.t) : list ClientCall :=
  let c := World.ctx w in
  if negb (Context.got_upload_progress_complete_ c)
     && (Context.upload_data_size_ c >? 0)
  then [CallOnUploadProgress (Context.url_request_ c)
          (Context.upload_data_size_ c) (Context.upload_data_size_ c)]
  else [].

Definition notified (w : World.t) : World.t :=
  World.upd_ctx
    (fun c =>
       Context.set_got_upload_progress_complete_
         (Context.got_upload_progress_complete_ c
          || (Context.upload_data_size_ c >? 0)) c)
    (World.set_client_calls (World.client_calls w ++ upload_notice w) w).

Definition called (call : ClientCall) (w : World.t) : World.t :=
  World.set_client_calls (World.client_calls w ++ [call]) w.

(** The block of [OnComplete] under [status_ == UR_IO_PENDING]. *)
Definition finalized (success : bool) (loader : SimpleURLLoader.t)
    (w : World.t) : World.t :=
  let r := SimpleURLLoader.result loader in
  let w :=
    World.upd_ctx
      (Context.set_status_ (if success then UR_SUCCESS else UR_FAILED)) w in
  let w := upd_response (CefResponseImpl.SetReadOnly false) w in
  let w := upd_response (CefResponseImpl.SetURL (TransportResult.final_url r)) w in
  let w := upd_response (CefResponseImpl.SetError (TransportResult.net_error r)) w in
  let w := upd_response (CefResponseImpl.SetReadOnly true) w in
  let w :=
    World.upd_ctx
      (Context.set_response_was_cached_ (TransportResult.loaded_from_cache r))
      w in
  World.set_finalize_count (S (World.finalize_count w)) w.

(** [OnComplete(success)] on a pending request. *)
Definition completed (success : bool) (loader : SimpleURLLoader.t)
    (map_ : gmap Z RequestInfo) (w : World.t) : World.t :=
  let w := finalized success loader w in
  let w := if success then notified w else w in
  let w := called (CallOnRequestComplete (Context.url_request_ (World.ctx w))) w in
  cleaned map_ w.

(** [Cancel] on a pending request. *)
Definition canceled (map_ : gmap Z RequestInfo) (w : World.t) : World.t :=
  let w := World.upd_ctx (Context.set_status_ UR_CANCELED) w in
  let w := upd_response (CefResponseImpl.SetReadOnly false) w in
  let w := upd_response (CefResponseImpl.SetError ERR_ABORTED) w in
  let w := upd_response (CefResponseImpl.SetReadOnly true) w in
  let w := World.upd_ctx (Context.set_cleanup_immediately_ true) w in
  let w := called (CallOnRequestComplete (Context.url_request_ (World.ctx w))) w in
  cleaned map_ w.

(** [OnDownloadProgress(current)]. *)
Definition progressed (current : Z) (w : World.t) : World.t :=
  if CefResponseImpl.GetStatus (Context.response_ (World.ctx w)) =? 0 then w
  else
    let w := notified w in
    called
      (CallOnDownloadProgress (Context.url_request_ (World.ctx w))
         (to_int64 current) (Context.download_data_size_ (World.ctx w))) w.

(** [OnUploadProgress(position, total)]. *)
Definition uploaded (position total : Z) (w : World.t) : World.t :=
  let w := World.upd_ctx (Context.set_upload_data_size_ (to_int64 total)) w in
  let w :=
    World.upd_ctx
      (fun c =>
         Context.set_got_upload_progress_complete_
           ((position =? total) || Context.got_upload_progress_complete_ c) c)
      w in
  called
    (CallOnUploadProgress (Context.url_request_ (World.ctx w))
       (to_int64 position) (to_int64 total)) w.

(** [OnDataReceived(string_piece, resume)]. *)
Definition received (string_piece : string) (w : World.t) : World.t :=
  let w :=
    called (CallOnDownloadData (Context.url_request_ (World.ctx w)) string_piece)
      w in
  World.set_transport_calls (World.transport_calls w ++ [RunResume]) w.

(** [OnRetry(start_retry)]. *)
Definition retried (w : World.t) : World.t :=
  World.set_transport_calls (World.transport_calls w ++ [RunStartRetry]) w.

(** Headers that say nothing: no response code, no lines, no length. *)
Definition no_headers : HttpResponseHeaders.t :=
  {| HttpResponseHeaders.response_code := 0;
     HttpResponseHeaders.lines := [];
     HttpResponseHeaders.content_length := -1 |}.

(** What is read through a header pointer that is set.  The handlers stop
    at a null pointer; the functions below say what they do otherwise, and
    are total by reading a null pointer as [no_headers]. *)
Definition pointee (headers : scoped_refptr HttpResponseHeaders.t)
    : HttpResponseHeaders.t :=
  match headers with
  | Some h => h
  | None => no_headers
  end.

(** The response record takes a URL and the headers of a response head. *)
Definition response_stored (url : string) (headers : HttpResponseHeaders.t)
    (w : World.t) : World.t :=
  let w := upd_response (CefResponseImpl.SetReadOnly false) w in
  let w := upd_response (CefResponseImpl.SetURL url) w in
  let w := upd_response (CefResponseImpl.SetResponseHeaders headers) w in
  upd_response (CefResponseImpl.SetReadOnly true) w.

(** [OnResponseStarted(final_url, response_head)]. *)
Definition response_started (final_url : string)
    (response_head : URLResponseHead.t) (w : World.t) : World.t :=
  World.upd_ctx
    (Context.set_download_data_size_
       (URLResponseHead.content_length response_head))
    (response_stored final_url
       (pointee (URLResponseHead.headers response_head)) w).

(** [OnRedirect(redirect_info, response_head, _)]. *)
Definition redirected (redirect_info : RedirectInfo.t)
    (response_head : URLResponseHead.t) (map_ : gmap Z RequestInfo)
    (w : World.t) : World.t :=
  canceled map_
    (response_stored (RedirectInfo.new_url redirect_info)
       (pointee (URLResponseHead.headers response_head)) w).

(** [OnHeadersOnly(headers)], up to the call of [OnComplete(true)]. *)
Definition headers_stored (headers : HttpResponseHeaders.t) (w : World.t)
    : World.t :=
  let w := upd_response (CefResponseImpl.SetReadOnly false) w in
  let w := upd_response (CefResponseImpl.SetResponseHeaders headers) w in
  let w := upd_response (CefResponseImpl.SetReadOnly true) w in
  let w :=
    if negb (String.eqb
               (CefRequestImpl.GetMethod (Context.request_ (World.ctx w)))
               "HEAD")
    then
      progressed 0
        (World.upd_ctx
           (Context.set_download_data_size_
              (HttpResponseHeaders.content_length headers)) w)
    else w in
  World.upd_ctx (Context.set_cleanup_immediately_ true) w.

Definition headers_completed (headers : HttpResponseHeaders.t)
    (loader : SimpleURLLoader.t) (map_ : gmap Z RequestInfo) (w : World.t)
    : World.t :=
  completed true loader map_ (headers_stored headers w).

(** What [RequestManager::Remove(request_id_)] leaves of the registry when
    its assertion holds. *)
Definition removed (w : World.t) : gmap Z RequestInfo :=
  if Context.request_id_ (World.ctx w) >? kInitialRequestID
  then World.g_manager w
  else delete (Context.request_id_ (World.ctx w)) (World.g_manager w).

(** The transport stores the result it will report. *)
Definition with_result (result : TransportResult.t) (w : World.t) : World.t :=
  upd_loader (SimpleURLLoader.set_result result) w.

(** The same event with every header pointer set: a null pointer is
    replaced by one to [no_headers]. *)
Definition with_pointee (e : Event) : Event :=
  match e with
  | EvHeadersOnly headers result =>
      EvHeadersOnly (Some (pointee headers)) result
  | EvRedirect redirect_info response_head =>
      EvRedirect redirect_info
        {| URLResponseHead.headers :=
             Some (pointee (URLResponseHead.headers response_head));
           URLResponseHead.content_length :=
             URLResponseHead.content_length response_head |}
  | EvResponseStarted final_url response_head =>
      EvResponseStarted final_url
        {| URLResponseHead.headers :=
             Some (pointee (URLResponseHead.headers response_head));
           URLResponseHead.content_length :=
             URLResponseHead.content_length response_head |}
  | _ => e
  end.

Section Effect.
Context `{Platform}.

(** The effect of an event that is possible and brings no null pointer,
    as a total function. *)
Definition effect (e : Event) (w : World.t) : World.t :=
  match e with
  | EvCancel => if live w then canceled (removed w) w else w
  | EvUiTask rfh =>
      match World.ui_tasks w with
      | [] => w
      | task :: rest =>
          GetURLLoaderFactoryGetterOnUIThread (ui_frame task)
            (ui_request_context task) rfh (World.set_ui_tasks rest w)
      end
  | EvContinue =>
      match World.originating_tasks w with
      | [] => w
      | task :: rest =>
          let w0 := World.set_originating_tasks rest w in
          if live w0 then
            match ct_loader_factory_getter task with
            | Some getter =>
                continued (ct_render_frame_id task) (ct_request_id task)
                  getter w0
            | None => canceled (removed w0) w0
            end
          else w0
      end
  | EvHeadersOnly headers result =>
      let w0 := with_result result w in
      match Context.loader_ (World.ctx w0) with
      | Some loader =>
          headers_completed (pointee headers) loader (removed w0) w0
      | None => w0
      end
  | EvRedirect redirect_info response_head =>
      redirected redirect_info response_head (removed w) w
  | EvResponseStarted final_url response_head =>
      response_started final_url response_head w
  | EvUploadProgress position total => uploaded position total w
  | EvDownloadProgress current => progressed current w
  | EvDataReceived string_piece => received string_piece w
  | EvComplete success result =>
      let w0 := with_result result w in
      match Context.loader_ (World.ctx w0) with
      | Some loader => completed success loader (removed w0) w0
      | None => w0
      end
  | EvRetry => retried w
  end.

(** The world in which [Start] has run. *)
Definition started (s : Setup) : World.t := snd (Start (initial s)).

End Effect.

(** ** What is observed of a request *)

(** The callbacks of the transport, as opposed to the caller's [Cancel] and
    to the two posted tasks. *)
Definition is_transport_event (e : Event) : bool :=
  match e with
  | EvCancel | EvUiTask _ | EvContinue => false
  | _ => true
  end.

(** The events that end a live request: the caller's cancel, a completion
    or the headers from the transport, a redirect that is stopped, and the
    continuation that finds no loader factory. *)
Definition ends_request (e : Event) (w : World.t) : bool :=
  match e with
  | EvCancel | EvComplete _ _ | EvHeadersOnly _ _ | EvRedirect _ _ => true
  | EvContinue =>
      match World.originating_tasks w with
      | task :: _ => negb (non_null (ct_loader_factory_getter task))
      | [] => false
      end
  | _ => false
  end.

(** The calls made so far, with what decides the synthesized upload
    notification: the handle, whether a complete upload was notified, and
    the expected upload size. *)
Definition track (w : World.t)
    : list ClientCall * CefRefPtr ObjId * bool * Z :=
  (World.client_calls w, Context.url_request_ (World.ctx w),
   Context.got_upload_progress_complete_ (World.ctx w),
   Context.upload_data_size_ (World.ctx w)).

(** The calls an event makes on the client. *)
Definition emitted (e : Event) (w : World.t) : list ClientCall :=
  let c := World.ctx w in
  let request := Context.url_request_ c in
  match e with
  | EvCancel | EvRedirect _ _ =>
      if live w then [CallOnRequestComplete request] else []
  | EvUiTask _ | EvResponseStarted _ _ | EvRetry => []
  | EvContinue =>
      match World.originating_tasks w with
      | task :: _ =>
          if live w && negb (non_null (ct_loader_factory_getter task))
          then [CallOnRequestComplete request]
          else []
      | [] => []
      end
  | EvHeadersOnly headers _ =>
      let headers := pointee headers in
      upload_notice w
      ++ (if negb (String.eqb (CefRequestImpl.GetMethod (Context.request_ c))
                     "HEAD")
             && negb (HttpResponseHeaders.response_code headers =? 0)
          then [CallOnDownloadProgress request 0
                  (HttpResponseHeaders.content_length headers)]
          else [])
      ++ [CallOnRequestComplete request]
  | EvUploadProgress position total =>
      [CallOnUploadProgress request (to_int64 position) (to_int64 total)]
  | EvDownloadProgress current =>
      if CefResponseImpl.GetStatus (Context.response_ c) =? 0 then []
      else upload_notice w
           ++ [CallOnDownloadProgress request (to_int64 current)
                 (Context.download_data_size_ c)]
  | EvDataReceived string_piece => [CallOnDownloadData request string_piece]
  | EvComplete success _ =>
      (if success then upload_notice w else [])
      ++ [CallOnRequestComplete request]
  end.

(** The URL a callback of the transport writes into the response record
    by itself, ahead of any completion: the final URL of a response that
    starts, the target of a redirect. *)
Definition event_url (e : Event) : option string :=
  match e with
  | EvRedirect redirect_info _ => Some (RedirectInfo.new_url redirect_info)
  | EvResponseStarted final_url _ => Some final_url
  | _ => None
  end.

(** The transport result an event brings when it completes the request. *)
Definition event_result (e : Event) : option (bool * TransportResult.t) :=
  match e with
  | EvComplete success result => Some (success, result)
  | EvHeadersOnly _ result => Some (true, result)
  | _ => None
  end.

(** Status, response record, cached flag and number of finalizations. *)
Definition obs (w : World.t) : Status * CefResponseImpl.t * bool * nat :=
  (status w, response w, response_was_cached w, World.finalize_count w).

(** The response record as [OnComplete] finalizes it. *)
Definition finalized_response (result : TransportResult.t)
    (r : CefResponseImpl.t) : CefResponseImpl.t :=
  CefResponseImpl.SetReadOnly true
    (CefResponseImpl.SetError (TransportResult.net_error result)
       (CefResponseImpl.SetURL (TransportResult.final_url result)
          (CefResponseImpl.SetReadOnly false r))).

(** The response record as [Cancel] leaves it. *)
Definition aborted_response (r : CefResponseImpl.t) : CefResponseImpl.t :=
  CefResponseImpl.SetReadOnly true
    (CefResponseImpl.SetError ERR_ABORTED
       (CefResponseImpl.SetReadOnly false r)).

(** The response record after a response head was stored. *)
Definition stored_response (url : string) (headers : HttpResponseHeaders.t)
    (r : CefResponseImpl.t) : CefResponseImpl.t :=
  CefResponseImpl.SetReadOnly true
    (CefResponseImpl.SetResponseHeaders headers
       (CefResponseImpl.SetURL url (CefResponseImpl.SetReadOnly false r))).

(** ** A concrete platform and concrete requests, for the examples *)

Definition example_platform : Platform :=
  {| gurl_is_valid := fun url => String.prefix "http" url;
     path_extension := fun _ => EmptyString;
     mime_type_from_extension := fun _ => None |}.

Definition example_request (url method : string)
    (body : option (list DataElement.t)) (flags : Z) : CefRequestImpl.t :=
  {| CefRequestImpl.url_ := url;
     CefRequestImpl.method_ := method;
     CefRequestImpl.headermap_ := [];
     CefRequestImpl.postdata_ := body;
     CefRequestImpl.flags_ := flags;
     CefRequestImpl.read_only_ := false |}.

(** A request made when no other request had been made before. *)
Definition example_setup (request : CefRequestImpl.t) : Setup :=
  {| s_url_request := 1%nat;
     s_frame := None;
     s_request := request;
     s_client := 2%nat;
     s_request_context := None;
     s_registry := ∅;
     s_counter := kInitialRequestID |}.

Definition bytes_element (data : string) : DataElement.t :=
  {| DataElement.type := kBytes;
     DataElement.path := EmptyString;
     DataElement.bytes := data;
     DataElement.offset := 0;
     DataElement.length := Z.of_nat (String.length data) |}.

Definition example_headers (code length : Z) : HttpResponseHeaders.t :=
  {| HttpResponseHeaders.response_code := code;
     HttpResponseHeaders.lines := [];
     HttpResponseHeaders.content_length := length |}.

Definition example_result (url : string) : TransportResult.t :=
  {| TransportResult.final_url := url;
     TransportResult.net_error := 0;
     TransportResult.loaded_from_cache := true |}.

(** ** Statements that are refuted below *)

(** C1 as the specification words it: whenever the status has left
    PENDING, the completion path has written the final URL, the error code
    and the cached flag exactly once. *)
Definition finalized_at_every_exit : Prop :=
  ∀ (P : Platform) (s : Setup) (es : list Event) (w : World.t),
    setup_ok s → run es (started s) = Some w →
    status w ≠ UR_IO_PENDING → World.finalize_count w = 1%nat.

(** ** Example runs *)

(** A GET of a valid URL without body and without flags. *)
Definition plain_get : Setup :=
  example_setup (example_request "http://example.test/" "GET" None 0).

(** The world of [plain_get] once the loader streams. *)
Definition plain_get_streaming : World.t :=
  effect (H := example_platform) EvContinue
    (effect (H := example_platform) (EvUiTask None)
       (started (H := example_platform) plain_get)).

(** ** The loader stays as the continuation configured it *)

Section Config.
Context `{Platform}.

(** The descriptor as the constructor keeps it. *)
Definition descriptor (s : Setup) : CefRequestImpl.t :=
  CefRequestImpl.SetReadOnly true (s_request s).

(** The method after the continuation. *)
Definition effective_method (s : Setup) : string :=
  fixed_method (CefRequestImpl.postdata_ (s_request s))
    (CefRequestImpl.method_ (s_request s)).

Record inv_cfg (s : Setup) (w : World.t) : Prop := {
  cfg_handle :
    live w = true →
    Context.url_request_ (World.ctx w) = Some (s_url_request s);
  cfg_before :
    live w = true → Context.loader_ (World.ctx w) = None →
    Context.request_ (World.ctx w) = descriptor s
    ∧ Context.upload_data_size_ (World.ctx w) = 0
    ∧ Context.got_upload_progress_complete_ (World.ctx w) = false
    ∧ World.client_calls w = [];
  cfg_after :
    ∀ loader, Context.loader_ (World.ctx w) = Some loader →
    Context.request_ (World.ctx w)
      = fixed_descriptor (CefRequestImpl.postdata_ (s_request s))
          (CefRequestImpl.method_ (s_request s)) (descriptor s)
    ∧ ∃ render_frame_id request_id,
        loader = configured_loader render_frame_id request_id (descriptor s)
}.

(** What the configuration invariant reads. *)
Definition cfg_same (w w' : World.t) : Prop :=
  Context.url_request_ (World.ctx w') = Context.url_request_ (World.ctx w)
  ∧ Context.request_ (World.ctx w') = Context.request_ (World.ctx w)
  ∧ Context.loader_ (World.ctx w') = Context.loader_ (World.ctx w).

End Config.

(** A request whose URL the example platform refuses. *)
Definition not_a_url : Setup :=
  example_setup (example_request "not a url" "GET" None 0).

(** ** The upload notification among the calls *)

(** Where the calls stand with respect to the notification of a complete
    upload of [n] bytes. *)
Inductive UploadPhase : Type :=
| NotNotified
| JustNotified
| Notified
| Completed
| Unexpected.

Definition upload_phase_step (n : Z) (p : UploadPhase) (c : ClientCall)
    : UploadPhase :=
  match p, c with
  | NotNotified, CallOnDownloadData _ _ => NotNotified
  | NotNotified, CallOnUploadProgress _ current total =>
      if (current =? n) && (total =? n) then JustNotified else Unexpected
  | JustNotified, CallOnDownloadProgress _ _ _ => Notified
  | JustNotified, CallOnRequestComplete _ => Completed
  | Notified, CallOnDownloadProgress _ _ _ => Notified
  | Notified, CallOnDownloadData _ _ => Notified
  | Notified, CallOnRequestComplete _ => Completed
  | _, _ => Unexpected
  end.

Definition upload_phase_from (n : Z) (p : UploadPhase)
    (calls : list ClientCall) : UploadPhase :=
  fold_left (upload_phase_step n) calls p.

Definition is_upload_event (e : Event) : bool :=
  match e with
  | EvUploadProgress _ _ => true
  | _ => false
  end.

(** C4 as the specification words it, for any single byte buffer. *)
Definition upload_always_notified : Prop :=
  ∀ (P : Platform) (s : Setup) (element : DataElement.t)
    (es : list Event) (w : World.t),
    setup_ok s →
    CefRequestImpl.postdata_ (s_request s) = Some [element] →
    DataElement.type element = kBytes →
    has_flag (CefRequestImpl.GetFlags (s_request s))
      UR_FLAG_REPORT_UPLOAD_PROGRESS = true →
    0 <= DataElement.offset element <= DataElement.length element →
    DataElement.length element < 2 ^ 63 →
    Forall (fun e => is_upload_event e = false) es →
    run es (started s) = Some w →
    status w = UR_SUCCESS →
    count_calls is_upload_progress w = 1%nat.

(** A POST of an empty byte buffer, with upload progress requested. *)
Definition empty_post : Setup :=
  example_setup
    (example_request "http://example.test/" "POST"
       (Some [bytes_element ""]) UR_FLAG_REPORT_UPLOAD_PROGRESS).

(** What a run keeps true of a request whose body is one byte buffer of
    [n] bytes and that asked for upload progress, as long as the transport
    reports no upload progress itself. *)
Definition upload_tracked (n : Z) (w : World.t) : Prop :=
  (∀ loader, Context.loader_ (World.ctx w) = Some loader →
     Context.upload_data_size_ (World.ctx w) = n
     ∧ upload_phase_from n NotNotified (World.client_calls w)
       = if Context.got_upload_progress_complete_ (World.ctx w)
         then Notified else NotNotified)
  ∧ (live w = false → status w = UR_SUCCESS →
     upload_phase_from n NotNotified (World.client_calls w) = Completed).

(** ** More example runs *)

(** The world of a setup once the UI-thread task has run and the
    continuation it posted has been taken off the queue. *)
Definition resolved (s : Setup) : World.t :=
  World.set_originating_tasks []
    (effect (H := example_platform) (EvUiTask None)
       (started (H := example_platform) s)).

(** The world of a setup once the loader is started. *)
Definition loading (s : Setup) : World.t :=
  effect (H := example_platform) EvContinue
    (effect (H := example_platform) (EvUiTask None)
       (started (H := example_platform) s)).

(** A GET that carries a form as a byte buffer. *)
Definition get_with_form : Setup :=
  example_setup
    (example_request "http://example.test/" "GET"
       (Some [bytes_element "a=1"]) 0).

(** A HEAD that carries two byte buffers. *)
Definition head_with_two_parts : Setup :=
  example_setup
    (example_request "http://example.test/" "HEAD"
       (Some [bytes_element "a=1"; bytes_element "b=2"]) 0).

(** A GET that asks for the headers only. *)
Definition headers_only_get : Setup :=
  example_setup
    (example_request "http://example.test/" "GET" None
       UR_FLAG_NO_DOWNLOAD_DATA).

(** A GET that stops on a redirect. *)
Definition stop_on_redirect_get : Setup :=
  example_setup
    (example_request "http://example.test/" "GET" None
       UR_FLAG_STOP_ON_REDIRECT).

(** What the transport reports of a fetch that failed: the connection was
    refused. *)
Definition failed_result : TransportResult.t :=
  {| TransportResult.final_url := "http://example.test/";
     TransportResult.net_error := -102;
     TransportResult.loaded_from_cache := false |}.

Definition example_redirect : RedirectInfo.t :=
  {| RedirectInfo.new_url := "https://example.test/other" |}.

Definition example_head (code length : Z) : URLResponseHead.t :=
  {| URLResponseHead.headers := Some (example_headers code length);
     URLResponseHead.content_length := length |}.

(** A POST of a form of three bytes, with upload progress requested. *)
Definition form_post : Setup :=
  example_setup
    (example_request "http://example.test/" "POST"
       (Some [bytes_element "a=1"]) UR_FLAG_REPORT_UPLOAD_PROGRESS).

(** The transport answers [form_post] with five bytes and completes. *)
Definition form_post_events : list Event :=
  [EvUiTask None; EvContinue;
   EvResponseStarted "http://example.test/" (example_head 200 5);
   EvDownloadProgress 5; EvDataReceived "hello";
   EvComplete true (example_result "http://example.test/")].

Definition form_post_done : World.t :=
  fold_left (fun w e => effect (H := example_platform) e w) form_post_events
    (started (H := example_platform) form_post).

(** The transport completes [empty_post] with success. *)
Definition empty_post_events : list Event :=
  [EvUiTask None; EvContinue;
   EvComplete true (example_result "http://example.test/")].

Definition empty_post_done : World.t :=
  fold_left (fun w e => effect (H := example_platform) e w) empty_post_events
    (started (H := example_platform) empty_post).

(** A history of the registry: two requests are added, the first one is
    removed. *)
Definition example_history : list RequestManager.Op :=
  [RequestManager.OpAdd (-3) (Some 1%nat) (Some 2%nat);
   RequestManager.OpAdd (-4) (Some 3%nat) (Some 4%nat);
   RequestManager.OpRemove (-3)].

Definition example_registry : gmap Z RequestInfo :=
  {[ -4 := (Some 3%nat, Some 4%nat) ]}.

(** ** Further observations on identifiers, events and worlds *)

(** [n] successive calls of [MakeRequestID]: the identifiers returned, in
    order, and the static afterwards. *)
Fixpoint MakeRequestIDs (n : nat) (request_id : Z) : list Z * Z :=
  match n with
  | O => ([], request_id)
  | S n' =>
      let '(id, request_id) := MakeRequestID request_id in
      let '(ids, request_id) := MakeRequestIDs n' request_id in
      (id :: ids, request_id)
  end.

(** The pieces of data the transport delivers along a run, in order. *)
Fixpoint chunks (es : list Event) : list string :=
  match es with
  | [] => []
  | EvDataReceived string_piece :: es' => string_piece :: chunks es'
  | _ :: es' => chunks es'
  end.

(** The upload progress the transport reports along a run, in order. *)
Fixpoint uploads (es : list Event) : list (Z * Z) :=
  match es with
  | [] => []
  | EvUploadProgress position total :: es' => (position, total) :: uploads es'
  | _ :: es' => uploads es'
  end.

(** The call that forwards a report of the transport. *)
Definition forwarded_upload (request : CefRefPtr ObjId) (report : Z * Z)
    : ClientCall :=
  CallOnUploadProgress request (to_int64 (fst report)) (to_int64 (snd report)).

Definition is_stream_completion (e : Event) : bool :=
  match e with
  | EvComplete _ _ => true
  | _ => false
  end.

Definition is_response_started (e : Event) : bool :=
  match e with
  | EvResponseStarted _ _ => true
  | _ => false
  end.

(** The transport events that neither end the request nor start it. *)
Definition is_streaming_event (e : Event) : bool :=
  match e with
  | EvResponseStarted _ _ | EvUploadProgress _ _ | EvDownloadProgress _
  | EvDataReceived _ | EvRetry => true
  | _ => false
  end.

(** The registry, the deferred deletions and the members of the context
    that the streaming callbacks leave alone. *)
Definition kept (w : World.t)
    : gmap Z RequestInfo * list Deferred * Z * CefRequestImpl.t
      * CefRefPtr ObjId * CefRefPtr ObjId * option URLLoaderFactoryGetter.t
      * bool :=
  let c := World.ctx w in
  (World.g_manager w, World.deferred w, Context.request_id_ c,
   Context.request_ c, Context.client_ c, Context.request_context_ c,
   Context.loader_factory_getter_ c, Context.cleanup_immediately_ c).

(** What [Cleanup] queues for later deletion. *)
Definition deferred_by_cleanup (w : World.t) : list Deferred :=
  let c := World.ctx w in
  match Context.loader_ c with
  | Some loader =>
      if Context.cleanup_immediately_ c then []
      else [DeleteSoon loader; ReleaseSoon (Context.loader_factory_getter_ c)]
  | None => []
  end.

(** The factory getter [Cleanup] leaves in the context. *)
Definition getter_after_cleanup (w : World.t)
    : option URLLoaderFactoryGetter.t :=
  match Context.loader_ (World.ctx w) with
  | Some _ => None
  | None => Context.loader_factory_getter_ (World.ctx w)
  end.

(** The entry of the registry for a request. *)
Definition registered (s : Setup) : RequestInfo :=
  (Some (s_url_request s), Some (s_client s)).

(** The history of the examples, followed by the removal of the entry it
    leaves. *)
Definition balanced_history : list RequestManager.Op :=
  example_history ++ [RequestManager.OpRemove (-4)].

(** What the teardown caused by an event queues for later deletion: only
    the completion callback of the stream consumer can find
    [cleanup_immediately_] unset. *)
Definition deferred_by (e : Event) (w : World.t) : list Deferred :=
  match e with
  | EvComplete _ result => deferred_by_cleanup (with_result result w)
  | _ => []
  end.

(** [cleanup_immediately_] after the teardown caused by an event. *)
Definition immediately_after (e : Event) (w : World.t) : bool :=
  match e with
  | EvComplete _ _ => Context.cleanup_immediately_ (World.ctx w)
  | _ => true
  end.

(** The registry with respect to one request: the entries of the other
    requests as they were when it was created, and its own entry exactly
    while its loader exists. *)
Definition registry_tracks (s : Setup) (w : World.t) : Prop :=
  let id := Context.request_id_ (World.ctx w) in
  (live w = true → Context.client_ (World.ctx w) = Some (s_client s))
  ∧ (id = 0 ∨ (id <= kInitialRequestID ∧ s_registry s !! id = None))
  ∧ match Context.loader_ (World.ctx w) with
    | Some loader =>
        SimpleURLLoader.request_id loader = Some id
        ∧ id <= kInitialRequestID
        ∧ World.g_manager w = <[id := registered s]> (s_registry s)
    | None => World.g_manager w = s_registry s
    end.

(** While a request is live nothing is queued for deletion, teardown is
    not yet marked immediate, and the factory getter is there exactly when
    the loader is. *)
Definition nothing_deferred (w : World.t) : Prop :=
  live w = true →
  Context.cleanup_immediately_ (World.ctx w) = false
  ∧ World.deferred w = []
  ∧ non_null (Context.loader_factory_getter_ (World.ctx w))
    = non_null (Context.loader_ (World.ctx w)).

(** The descriptor of a request is the one it was created with, or that
    one with its method fixed. *)
Definition descriptor_kept (s : Setup) (w : World.t) : Prop :=
  Context.request_ (World.ctx w) = descriptor s
  ∨ Context.request_ (World.ctx w)
    = fixed_descriptor (CefRequestImpl.postdata_ (s_request s))
        (CefRequestImpl.method_ (s_request s)) (descriptor s).

(** How the error code and the cached flag go with the status. *)
Definition error_follows_status (w : World.t) : Prop :=
  match status w with
  | UR_IO_PENDING =>
      CefResponseImpl.GetError (response w) = ERR_NONE
      ∧ response_was_cached w = false
  | UR_CANCELED =>
      CefResponseImpl.GetError (response w) = ERR_ABORTED
      ∧ response_was_cached w = false
  | _ => True
  end.

(** What the context holds of the objects it was given. *)
Definition references_held (s : Setup) (w : World.t) : Prop :=
  if live w then
    Context.client_ (World.ctx w) = Some (s_client s)
    ∧ Context.request_context_ (World.ctx w) = s_request_context s
  else
    Context.client_ (World.ctx w) = None
    ∧ Context.request_context_ (World.ctx w) = None
    ∧ Context.loader_ (World.ctx w) = None
    ∧ Context.loader_factory_getter_ (World.ctx w) = None.

(** The closures of the transport that an event makes the request run. *)
Definition closures (es : list Event) : list TransportCall :=
  flat_map (fun e =>
              match e with
              | EvDataReceived _ => [RunResume]
              | EvRetry => [RunStartRetry]
              | _ => []
              end) es.

(** [got_upload_progress_complete_]. *)
Definition got_upload_complete (w : World.t) : bool :=
  Context.got_upload_progress_complete_ (World.ctx w).

(** The upload-progress calls among the calls made so far consist of the
    reports of the transport, forwarded in order, and of at most one
    synthesized call, which is then preceded by incomplete reports only. *)
Definition uploads_forwarded (s : Setup) (es : list Event) (w : World.t)
    : Prop :=
  let request := Some (s_url_request s) in
  ∃ before synthesized after,
    uploads es = before ++ after
    ∧ List.filter is_upload_progress (World.client_calls w)
      = List.map (forwarded_upload request) before ++ synthesized
        ++ List.map (forwarded_upload request) after
    ∧ ((synthesized = [] ∧ after = []
        ∧ (got_upload_complete w = false →
           Forall (fun report => fst report ≠ snd report) before))
       ∨ (∃ n, 0 < n ∧ synthesized = [CallOnUploadProgress request n n]
               ∧ Forall (fun report => fst report ≠ snd report) before
               ∧ got_upload_complete w = true)).

(** The data and the closures of a run. *)
Definition data_forwarded (s : Setup) (es : list Event) (w : World.t)
    : Prop :=
  List.filter is_download_data (World.client_calls w)
  = List.map (CallOnDownloadData (Some (s_url_request s))) (chunks es)
  ∧ World.transport_calls w = closures es.

(** The head of the last response the transport has announced. *)
Definition last_response (es : list Event) : option URLResponseHead.t :=
  fold_left (fun last e =>
               match e with
               | EvResponseStarted _ response_head => Some response_head
               | _ => last
               end) es None.

(** While the request is live, the last response announced brought its
    headers, and the status of the response record and the expected
    download size are those of that response. *)
Definition response_tracked (es : list Event) (w : World.t) : Prop :=
  live w = true →
  match last_response es with
  | Some response_head =>
      is_Some (URLResponseHead.headers response_head)
      ∧ CefResponseImpl.GetStatus (response w)
        = HttpResponseHeaders.response_code
            (pointee (URLResponseHead.headers response_head))
      ∧ Context.download_data_size_ (World.ctx w)
        = URLResponseHead.content_length response_head
  | None => CefResponseImpl.GetStatus (response w) = 0
  end.

(** The routing identifier and the factory getter the UI-thread step comes
    up with, for a frame handle and what [GetRenderFrameHost()] returns. *)
Definition resolved_frame (frame : CefRefPtr ObjId)
    (rfh : option RenderFrameHost.t)
    : Z * option URLLoaderFactoryGetter.t :=
  match frame, rfh with
  | Some _, Some host =>
      (RenderFrameHost.frame_tree_node_id host,
       Some {| URLLoaderFactoryGetter.render_frame_host :=
                 Some (RenderFrameHost.frame_tree_node_id host) |})
  | Some _, None => (MSG_ROUTING_NONE, None)
  | None, _ =>
      (MSG_ROUTING_NONE,
       Some {| URLLoaderFactoryGetter.render_frame_host := None |})
  end.

(** The world once [Start] has accepted the URL and the UI-thread step has
    run. *)
Definition resolved_world (s : Setup) (rfh : option RenderFrameHost.t)
    : World.t :=
  World.set_originating_tasks
    [{| ct_render_frame_id := fst (resolved_frame (s_frame s) rfh);
        ct_request_id := s_counter s - 1;
        ct_loader_factory_getter := snd (resolved_frame (s_frame s) rfh) |}]
    (World.set_request_id (s_counter s - 1) (initial s)).

(** ** More examples *)

(** The loader of a world that has one. *)
Definition loader_of (w : World.t) : SimpleURLLoader.t :=
  default
    (SimpleURLLoader.Create (CefRequestImpl_Get (Context.request_ (World.ctx w))))
    (Context.loader_ (World.ctx w)).

Definition file_element (path : string) : DataElement.t :=
  {| DataElement.type := kFile;
     DataElement.path := path;
     DataElement.bytes := EmptyString;
     DataElement.offset := 0;
     DataElement.length := 0 |}.

(** A POST of a file, with a content type of its own. *)
Definition file_post : Setup :=
  example_setup
    {| CefRequestImpl.url_ := "http://example.test/upload";
       CefRequestImpl.method_ := "POST";
       CefRequestImpl.headermap_ := [("content-type", "text/plain")]%string;
       CefRequestImpl.postdata_ := Some [file_element "/tmp/notes.txt"];
       CefRequestImpl.flags_ := UR_FLAG_REPORT_UPLOAD_PROGRESS;
       CefRequestImpl.read_only_ := false |}.

(** A GET made for a frame. *)
Definition framed_get : Setup :=
  {| s_url_request := 1%nat;
     s_frame := Some 5%nat;
     s_request := example_request "http://example.test/" "GET" None 0;
     s_client := 2%nat;
     s_request_context := None;
     s_registry := example_registry;
     s_counter := -4 |}.

(** The plain GET canceled right after [Start]. *)
Definition canceled_at_once : World.t :=
  effect (H := example_platform) EvCancel
    (started (H := example_platform) plain_get).

(** The form is posted and the transport has announced the response. *)
Definition form_post_responding : World.t :=
  effect (H := example_platform)
    (EvResponseStarted "http://example.test/" (example_head 200 5))
    (loading form_post).

(** Nothing of an upload is known or was reported. *)
Definition no_upload_progress (es : list Event) (w : World.t) : Prop :=
  uploads es = []
  ∧ Context.upload_data_size_ (World.ctx w) = 0
  ∧ List.filter is_upload_progress (World.client_calls w) = [].
(** * Properties *)

(** ** The registry *)

Module RegistryFacts.
Import RequestManager.

Lemma bind_ok {A B : Type} (m : Res A) (k : A -> Res B) (b : B) :
  bind m k = Ok b → ∃ a, m = Ok a ∧ k a = Ok b.
Proof. destruct m as [a|]; simpl; [eauto | discriminate]. Qed.

Lemma check_ok {B : Type} (c : bool) (k : Res B) (b : B) :
  bind (DCHECK c) (fun _ => k) = Ok b → c = true ∧ k = Ok b.
Proof. destruct c; simpl; [auto | discriminate]. Qed.

Lemma run_ops_app ops1 ops2 m :
  run_ops (ops1 ++ ops2) m = bind (run_ops ops1 m) (run_ops ops2).
Proof.
  revert m. induction ops1 as [|op ops1 IH]; intros m; simpl; [done|].
  destruct (apply_op op m); simpl; auto.
Qed.

Lemma Add_ok id r c m m' :
  Add id r c m = Ok m' →
  id <= kInitialRequestID ∧ m !! id = None ∧ m' = <[id := (r, c)]> m.
Proof.
  unfold Add. intros Hadd.
  apply check_ok in Hadd as [Hle Hadd]. apply check_ok in Hadd as [Hnone Hadd].
  apply bool_decide_eq_true in Hnone. rewrite Hnone in Hadd.
  split; [lia|]. split; [done|]. congruence.
Qed.

Lemma Remove_ok id m m' :
  Remove id m = Ok m' →
  (kInitialRequestID < id ∧ m' = m)
  ∨ (id <= kInitialRequestID ∧ is_Some (m !! id) ∧ m' = delete id m).
Proof.
  unfold Remove. destruct (id >? kInitialRequestID) eqn:Hgt; intros Hrem.
  - left. split; [lia | congruence].
  - right. apply check_ok in Hrem as [Hin Hrem].
    apply bool_decide_eq_true in Hin. split; [lia|]. split; [done | congruence].
Qed.

Lemma Get_low id m : id <= kInitialRequestID → Get id m = m !! id.
Proof. unfold Get. intros Hle. destruct (id >? kInitialRequestID) eqn:E; [lia | done]. Qed.

Lemma Get_high id m : kInitialRequestID < id → Get id m = None.
Proof. unfold Get. intros Hlt. destruct (id >? kInitialRequestID) eqn:E; [done | lia]. Qed.

Lemma Remove_high id m : kInitialRequestID < id → Remove id m = Ok m.
Proof. unfold Remove. intros Hlt. destruct (id >? kInitialRequestID) eqn:E; [done | lia]. Qed.

(** The last call of a history, against a position inside it. *)
Lemma snoc_split (pre post ops : list Op) (x y : Op) :
  ops ++ [y] = pre ++ x :: post →
  (post = [] ∧ pre = ops ∧ x = y)
  ∨ (∃ post', post = post' ++ [y] ∧ ops = pre ++ x :: post').
Proof.
  destruct post as [|z post _] using rev_ind; intros Heq.
  - left. apply app_inj_tail in Heq as [-> ->]. done.
  - right. exists post.
    replace (pre ++ x :: post ++ [z]) with ((pre ++ x :: post) ++ [z]) in Heq
      by (rewrite <- app_assoc; done).
    apply app_inj_tail in Heq as [-> ->]. done.
Qed.

Lemma added_not_removed_nil id info : ¬ added_not_removed id info [].
Proof. intros (pre & post & Heq & _). destruct pre; discriminate. Qed.

Lemma added_not_removed_snoc id info ops op :
  added_not_removed id info (ops ++ [op]) ↔
  (op = OpAdd id (fst info) (snd info))
  ∨ (added_not_removed id info ops ∧ op ≠ OpRemove id).
Proof.
  split.
  - intros (pre & post & Heq & Hpost).
    apply snoc_split in Heq as [(-> & -> & ->) | (post' & -> & ->)].
    + by left.
    + right. split.
      * exists pre, post'. split; [done|]. intros o Ho. apply Hpost.
        apply elem_of_app. by left.
      * apply Hpost. apply elem_of_app. right. by apply list_elem_of_singleton.
  - intros [-> | [(pre & post & -> & Hpost) Hne]].
    + exists ops, []. split; [done|]. intros o Ho. by apply elem_of_nil in Ho.
    + exists pre, (post ++ [op]). split; [by rewrite <- app_assoc|].
      intros o Ho. apply elem_of_app in Ho as [Ho | Ho]; [by apply Hpost|].
      apply list_elem_of_singleton in Ho. by subst.
Qed.

(** The table after a history is the set of identifiers added and not
    removed since. *)
Lemma run_ops_lookup ops m :
  run_ops ops ∅ = Ok m →
  ∀ id info, m !! id = Some info ↔ added_not_removed id info ops.
Proof.
  revert m. induction ops as [|op ops IH] using rev_ind; intros m Hrun id info.
  - simpl in Hrun. injection Hrun as <-. rewrite lookup_empty. split; [done|].
    intros Habs. by apply added_not_removed_nil in Habs.
  - rewrite run_ops_app in Hrun. apply bind_ok in Hrun as (m1 & Hrun1 & Hop).
    simpl in Hop. apply bind_ok in Hop as (m2 & Hop & Hm). injection Hm as ->.
    specialize (IH m1 Hrun1). rewrite added_not_removed_snoc.
    destruct op as [id' r c | id']; simpl in Hop.
    + apply Add_ok in Hop as (Hle & Hnone & ->).
      destruct (decide (id' = id)) as [-> | Hne].
      * rewrite lookup_insert_eq. split.
        -- intros [= <-]. by left.
        -- intros [[= -> ->] | [Hadd _]]; [by destruct info|].
           apply IH in Hadd. congruence.
      * rewrite lookup_insert_ne by done. rewrite IH. split.
        -- intros Hadd. right. split; [done | discriminate].
        -- intros [[= -> _ _] | [Hadd _]]; [done | done].
    + apply Remove_ok in Hop as [[Hhigh ->] | (Hle & Hin & ->)].
      * rewrite IH. split.
        -- intros Hadd. right. split; [done|]. intros [= ->].
           destruct Hadd as (pre & post & -> & _).
           rewrite run_ops_app in Hrun1.
           apply bind_ok in Hrun1 as (m0 & _ & Hrun1). simpl in Hrun1.
           apply bind_ok in Hrun1 as (m0' & Hadd & _).
           apply Add_ok in Hadd as (Hle & _). lia.
        -- intros [[=] | [Hadd _]]. done.
      * destruct (decide (id' = id)) as [-> | Hne].
        -- rewrite lookup_delete_eq. split; [done|].
           intros [[=] | [_ Hne]]. done.
        -- rewrite lookup_delete_ne by done. rewrite IH. split.
           ++ intros Hadd. right. split; [done | congruence].
           ++ intros [[=] | [Hadd _]]. done.
Qed.

End RegistryFacts.

Section SummaryFacts.
Context `{Platform}.

Lemma Add_fresh id r c (m : gmap Z RequestInfo) :
  id <= kInitialRequestID -> m !! id = None ->
  RequestManager.Add id r c m = Ok (<[id := (r, c)]> m).
Proof.
  intros Hle Hnone. unfold RequestManager.Add.
  destruct (id <=? kInitialRequestID) eqn:E; [|lia]. simpl.
  rewrite bool_decide_eq_true_2 by done. simpl. by rewrite Hnone.
Qed.

Lemma fix_method_for_body_eq body rr w :
  fix_method_for_body body rr w =
  (fixed_method body (ResourceRequest.method rr),
   ResourceRequest.set_method (fixed_method body (ResourceRequest.method rr)) rr,
   World.upd_ctx
     (fun c =>
        Context.set_request_
          (fixed_descriptor body (ResourceRequest.method rr)
             (Context.request_ c)) c) w,
   header_content_type body (ResourceRequest.headers rr)).
Proof.
  unfold fix_method_for_body, fixed_method, fixed_descriptor,
    header_content_type.
  destruct w as [c m n ut ot d cc tc fc], c, rr. simpl.
  destruct body; [|reflexivity].
  destruct (String.eqb method "GET" || String.eqb method "HEAD"); reflexivity.
Qed.

Lemma attach_request_body_eq flags ct body w :
  attach_request_body flags ct body w =
  World.upd_ctx
    (fun c =>
       Context.set_upload_data_size_
         (body_upload_size flags body (Context.upload_data_size_ c))
         (Context.set_loader_ (attach_upload ct body <$> Context.loader_ c) c))
    w.
Proof.
  unfold attach_request_body, attach_upload, body_upload, body_upload_size,
    file_content_type, bytes_content_type, bytes_data, bytes_size, upd_loader.
  destruct w as [c m n ut ot d cc tc fc], c. destruct loader_ as [[]|].
  all: destruct body as [[|e [|e' l]]|]; try reflexivity.
  all: destruct (DataElement.type e); try reflexivity.
  all: destruct (has_flag flags UR_FLAG_REPORT_UPLOAD_PROGRESS); reflexivity.
Qed.

Lemma start_loader_eq flags method w :
  start_loader flags method w = upd_loader (configure flags method) w.
Proof.
  unfold start_loader, configure, headers_only, upd_loader.
  destruct w as [c m n ut ot d cc tc fc], c. destruct loader_ as [[]|].
  all: destruct (has_flag flags UR_FLAG_NO_RETRY_ON_5XX),
         (has_flag flags UR_FLAG_STOP_ON_REDIRECT),
         (has_flag flags UR_FLAG_REPORT_UPLOAD_PROGRESS),
         (has_flag flags UR_FLAG_NO_DOWNLOAD_DATA),
         (String.eqb method "HEAD"); reflexivity.
Qed.

Arguments fix_method_for_body : simpl never.
Arguments attach_request_body : simpl never.
Arguments start_loader : simpl never.
Arguments RequestManager.Add : simpl never.

Lemma Continue_main rf id g w :
  live w = true ->
  status w = UR_IO_PENDING ->
  id <= kInitialRequestID ->
  World.g_manager w !! id = None ->
  ContinueOnOriginatingThread rf id (Some g) w = Ok (continued rf id g w).
Proof.
  intros Hl Hs Hid Hfresh.
  unfold ContinueOnOriginatingThread, continued, configured_loader,
    transport_request, live, status, status_is in *.
  destruct w as [c m n ut ot d cc tc fc], c, request_. simpl in *.
  rewrite Hl. subst. simpl.
  destruct (has_flag flags_ UR_FLAG_ALLOW_STORED_CREDENTIALS); simpl.
  all: rewrite fix_method_for_body_eq; simpl.
  all: rewrite Add_fresh by done; simpl.
  all: rewrite attach_request_body_eq, start_loader_eq; reflexivity.
Qed.
End SummaryFacts.

(** ** Each method returns its effect *)

Lemma Remove_registered id (m : gmap Z RequestInfo) :
  id <= kInitialRequestID → is_Some (m !! id) →
  RequestManager.Remove id m = Ok (delete id m).
Proof.
  intros Hle Hin. unfold RequestManager.Remove.
  destruct (id >? kInitialRequestID) eqn:E; [lia|].
  rewrite bool_decide_eq_true_2 by done. done.
Qed.

Lemma filter_snoc {A : Type} (p : A -> bool) (l : list A) (x : A) :
  List.filter p (l ++ [x]) = List.filter p l ++ (if p x then [x] else []).
Proof. rewrite List.filter_app. simpl. by destruct (p x). Qed.

Arguments RequestManager.Add : simpl never.
Arguments RequestManager.Remove : simpl never.
Arguments RequestManager.Get : simpl never.

(** Evaluation of field reads and updates, innermost first. *)
Ltac norm :=
  cbv beta iota zeta delta
   [ World.upd_ctx upd_response
    upd_loader called World.set_ctx World.set_g_manager World.set_request_id
    World.set_ui_tasks World.set_originating_tasks World.set_deferred
    World.set_client_calls World.set_transport_calls
    World.set_finalize_count World.ctx World.g_manager World.request_id
    World.ui_tasks World.originating_tasks World.deferred World.client_calls
    World.transport_calls World.finalize_count Context.set_url_request_
    Context.set_frame_ Context.set_request_ Context.set_client_
    Context.set_request_context_ Context.set_loader_factory_getter_
    Context.set_loader_ Context.set_request_id_ Context.set_status_
    Context.set_response_ Context.set_response_was_cached_
    Context.set_upload_data_size_ Context.set_download_data_size_
    Context.set_got_upload_progress_complete_
    Context.set_cleanup_immediately_ Context.url_request_ Context.frame_
    Context.request_ Context.client_ Context.request_context_
    Context.loader_factory_getter_ Context.loader_ Context.request_id_
    Context.status_ Context.response_ Context.response_was_cached_
    Context.upload_data_size_ Context.download_data_size_
    Context.got_upload_progress_complete_ Context.cleanup_immediately_
    SimpleURLLoader.set_request_id SimpleURLLoader.set_upload
    SimpleURLLoader.set_allow_http_error_results
    SimpleURLLoader.set_retry_options
    SimpleURLLoader.set_on_redirect_callback
    SimpleURLLoader.set_on_upload_progress_callback
    SimpleURLLoader.set_on_response_started_callback
    SimpleURLLoader.set_on_download_progress_callback
    SimpleURLLoader.set_download SimpleURLLoader.set_result
    SimpleURLLoader.request_id SimpleURLLoader.upload
    SimpleURLLoader.allow_http_error_results SimpleURLLoader.retry_options
    SimpleURLLoader.on_redirect_callback
    SimpleURLLoader.on_upload_progress_callback
    SimpleURLLoader.on_response_started_callback
    SimpleURLLoader.on_download_progress_callback SimpleURLLoader.download
    SimpleURLLoader.result SimpleURLLoader.resource_request
    ResourceRequest.set_method ResourceRequest.set_request_body
    ResourceRequest.set_render_frame_id ResourceRequest.set_resource_type
    ResourceRequest.set_request_initiator
    ResourceRequest.set_force_ignore_site_for_cookies
    ResourceRequest.set_site_for_cookies ResourceRequest.method
    ResourceRequest.request_body ResourceRequest.render_frame_id
    ResourceRequest.resource_type ResourceRequest.request_initiator
    ResourceRequest.force_ignore_site_for_cookies
    ResourceRequest.site_for_cookies ResourceRequest.url
    ResourceRequest.headers CefResponseImpl.url_
    CefResponseImpl.status_code_ CefResponseImpl.error_code_
    CefResponseImpl.header_map_ CefResponseImpl.read_only_
    CefRequestImpl.url_ CefRequestImpl.method_ CefRequestImpl.headermap_
    CefRequestImpl.postdata_ CefRequestImpl.flags_ CefRequestImpl.read_only_
    CefResponseImpl.SetReadOnly CefResponseImpl.SetURL
    CefResponseImpl.SetError CefResponseImpl.SetResponseHeaders
    CefResponseImpl.GetStatus CefResponseImpl.GetError
    CefResponseImpl.GetURL CefRequestImpl.SetReadOnly
    CefRequestImpl.SetMethod CefRequestImpl.GetURL CefRequestImpl.GetMethod
    CefRequestImpl.GetFlags non_null negb bind DCHECK Status_eqb fmap
    option_fmap option_map andb orb].
Ltac norm_in H :=
  cbv beta iota zeta delta
   [ World.upd_ctx upd_response
    upd_loader called World.set_ctx World.set_g_manager World.set_request_id
    World.set_ui_tasks World.set_originating_tasks World.set_deferred
    World.set_client_calls World.set_transport_calls
    World.set_finalize_count World.ctx World.g_manager World.request_id
    World.ui_tasks World.originating_tasks World.deferred World.client_calls
    World.transport_calls World.finalize_count Context.set_url_request_
    Context.set_frame_ Context.set_request_ Context.set_client_
    Context.set_request_context_ Context.set_loader_factory_getter_
    Context.set_loader_ Context.set_request_id_ Context.set_status_
    Context.set_response_ Context.set_response_was_cached_
    Context.set_upload_data_size_ Context.set_download_data_size_
    Context.set_got_upload_progress_complete_
    Context.set_cleanup_immediately_ Context.url_request_ Context.frame_
    Context.request_ Context.client_ Context.request_context_
    Context.loader_factory_getter_ Context.loader_ Context.request_id_
    Context.status_ Context.response_ Context.response_was_cached_
    Context.upload_data_size_ Context.download_data_size_
    Context.got_upload_progress_complete_ Context.cleanup_immediately_
    SimpleURLLoader.set_request_id SimpleURLLoader.set_upload
    SimpleURLLoader.set_allow_http_error_results
    SimpleURLLoader.set_retry_options
    SimpleURLLoader.set_on_redirect_callback
    SimpleURLLoader.set_on_upload_progress_callback
    SimpleURLLoader.set_on_response_started_callback
    SimpleURLLoader.set_on_download_progress_callback
    SimpleURLLoader.set_download SimpleURLLoader.set_result
    SimpleURLLoader.request_id SimpleURLLoader.upload
    SimpleURLLoader.allow_http_error_results SimpleURLLoader.retry_options
    SimpleURLLoader.on_redirect_callback
    SimpleURLLoader.on_upload_progress_callback
    SimpleURLLoader.on_response_started_callback
    SimpleURLLoader.on_download_progress_callback SimpleURLLoader.download
    SimpleURLLoader.result SimpleURLLoader.resource_request
    ResourceRequest.set_method ResourceRequest.set_request_body
    ResourceRequest.set_render_frame_id ResourceRequest.set_resource_type
    ResourceRequest.set_request_initiator
    ResourceRequest.set_force_ignore_site_for_cookies
    ResourceRequest.set_site_for_cookies ResourceRequest.method
    ResourceRequest.request_body ResourceRequest.render_frame_id
    ResourceRequest.resource_type ResourceRequest.request_initiator
    ResourceRequest.force_ignore_site_for_cookies
    ResourceRequest.site_for_cookies ResourceRequest.url
    ResourceRequest.headers CefResponseImpl.url_
    CefResponseImpl.status_code_ CefResponseImpl.error_code_
    CefResponseImpl.header_map_ CefResponseImpl.read_only_
    CefRequestImpl.url_ CefRequestImpl.method_ CefRequestImpl.headermap_
    CefRequestImpl.postdata_ CefRequestImpl.flags_ CefRequestImpl.read_only_
    CefResponseImpl.SetReadOnly CefResponseImpl.SetURL
    CefResponseImpl.SetError CefResponseImpl.SetResponseHeaders
    CefResponseImpl.GetStatus CefResponseImpl.GetError
    CefResponseImpl.GetURL CefRequestImpl.SetReadOnly
    CefRequestImpl.SetMethod CefRequestImpl.GetURL CefRequestImpl.GetMethod
    CefRequestImpl.GetFlags non_null negb bind DCHECK Status_eqb fmap
    option_fmap option_map andb orb] in H.

Ltac open_world w :=
  let c := fresh "c" in
  destruct w as [c ? ? ? ? ? ? ? ?]; destruct c.

Section Effects.

Implicit Types w : World.t.

Lemma Cleanup_eq map_ w :
  live w = true → removes map_ w → Cleanup w = Ok (cleaned map_ w).
Proof.
  unfold live, removes, Cleanup, cleaned. intros Hl Hr.
  open_world w. simpl in *. rewrite Hl, Hr. simpl.
  destruct loader_; [destruct cleanup_immediately_|]; reflexivity.
Qed.

Lemma Notify_eq w :
  client_set w → NotifyUploadProgressIfNecessary w = Ok (notified w).
Proof.
  unfold client_set, NotifyUploadProgressIfNecessary, notified, upload_notice,
    call_client.
  intros Hc. open_world w. norm. norm_in Hc.
  destruct client_; [|discriminate].
  destruct got_upload_progress_complete_, (upload_data_size_ >? 0); norm;
    rewrite ?app_nil_r; reflexivity.
Qed.

Lemma Cancel_eq map_ w :
  live w = true → status w = UR_IO_PENDING → client_set w → removes map_ w →
  Cancel w = Ok (canceled map_ w).
Proof.
  unfold live, status, client_set, removes. intros Hl Hs Hc Hr.
  unfold Cancel, OnComplete, Cleanup, canceled, cleaned, status_is,
    call_client.
  open_world w. simpl in Hl, Hs, Hc, Hr. subst.
  destruct url_request_, client_; try discriminate. norm.
  rewrite Hr. norm.
  destruct loader_; [destruct cleanup_immediately_|]; reflexivity.
Qed.

Lemma Cancel_done w : live w = false → Cancel w = Ok w.
Proof. unfold live, Cancel. intros ->. reflexivity. Qed.

Lemma OnComplete_done success w : live w = false → OnComplete success w = Ok w.
Proof. unfold live, OnComplete. intros ->. reflexivity. Qed.

Lemma OnComplete_eq success loader map_ w :
  live w = true → status w = UR_IO_PENDING → client_set w →
  Context.loader_ (World.ctx w) = Some loader → removes map_ w →
  OnComplete success w = Ok (completed success loader map_ w).
Proof.
  unfold live, status, client_set, removes. intros Hl Hs Hc Hld Hr.
  unfold OnComplete, NotifyUploadProgressIfNecessary, Cleanup, call_client,
    completed, cleaned, finalized, notified, upload_notice, status_is.
  open_world w. simpl in Hl, Hs, Hc, Hld, Hr. subst.
  destruct url_request_, client_; try discriminate. norm.
  destruct success, got_upload_progress_complete_,
    (upload_data_size_ >? 0); norm; rewrite ?Hr; norm;
    destruct cleanup_immediately_; norm; rewrite ?app_nil_r; reflexivity.
Qed.

Lemma OnDownloadProgress_eq current w :
  status w = UR_IO_PENDING → client_set w →
  OnDownloadProgress current w = Ok (progressed current w).
Proof.
  unfold status, client_set. intros Hs Hc.
  unfold OnDownloadProgress, progressed, status_is. rewrite Hs. simpl.
  destruct (CefResponseImpl.GetStatus _ =? 0); [reflexivity|].
  rewrite Notify_eq by exact Hc. simpl.
  unfold call_client. open_world w. simpl in *.
  destruct client_; [reflexivity | discriminate].
Qed.

Lemma OnUploadProgress_eq position total w :
  status w = UR_IO_PENDING → client_set w →
  OnUploadProgress position total w = Ok (uploaded position total w).
Proof.
  unfold status, client_set. intros Hs Hc.
  unfold OnUploadProgress, uploaded, status_is, call_client. rewrite Hs.
  open_world w. simpl in *. destruct client_; [|discriminate].
  destruct (position =? total); reflexivity.
Qed.

Lemma OnDataReceived_eq string_piece w :
  status w = UR_IO_PENDING → client_set w →
  OnDataReceived string_piece w = Ok (received string_piece w).
Proof.
  unfold status, client_set. intros Hs Hc.
  unfold OnDataReceived, received, status_is, call_client. rewrite Hs.
  open_world w. simpl in *. destruct client_; [reflexivity | discriminate].
Qed.

Lemma OnRetry_eq w : status w = UR_IO_PENDING → OnRetry w = Ok (retried w).
Proof. unfold status, OnRetry, status_is. intros ->. reflexivity. Qed.

Lemma OnResponseStarted_eq final_url response_head w :
  status w = UR_IO_PENDING →
  is_Some (URLResponseHead.headers response_head) →
  OnResponseStarted final_url response_head w
  = Ok (response_started final_url response_head w).
Proof.
  unfold status, OnResponseStarted, response_started, status_is.
  intros -> [headers ->]. reflexivity.
Qed.

(** A null header pointer stops each of the three handlers that read
    through one, whatever the state. *)
Lemma OnResponseStarted_null final_url response_head w :
  URLResponseHead.headers response_head = None →
  OnResponseStarted final_url response_head w = Crashed.
Proof.
  unfold OnResponseStarted. intros ->.
  by destruct (status_is UR_IO_PENDING w).
Qed.

Lemma OnRedirect_null redirect_info response_head w :
  URLResponseHead.headers response_head = None →
  OnRedirect redirect_info response_head w = Crashed.
Proof.
  unfold OnRedirect. intros ->.
  destruct (status_is UR_IO_PENDING w); [|done]. simpl.
  by destruct (negb _).
Qed.

Lemma OnHeadersOnly_null w : OnHeadersOnly None w = Crashed.
Proof. unfold OnHeadersOnly. by destruct (status_is UR_IO_PENDING w). Qed.

Lemma lor_stop_on_redirect flags :
  negb (Z.lor flags UR_FLAG_STOP_ON_REDIRECT =? 0) = true.
Proof.
  apply negb_true_iff, Z.eqb_neq. intros Hz.
  apply Z.lor_eq_0_iff in Hz as [_ Hz]. discriminate Hz.
Qed.

Lemma OnRedirect_eq redirect_info response_head map_ w :
  live w = true → status w = UR_IO_PENDING → client_set w → removes map_ w →
  is_Some (URLResponseHead.headers response_head) →
  OnRedirect redirect_info response_head w
  = Ok (redirected redirect_info response_head map_ w).
Proof.
  intros Hl Hs Hc Hr [headers Hh]. unfold OnRedirect, redirected, status_is.
  unfold status in Hs. rewrite Hs, Hh. simpl.
  unfold CefRequestImpl.GetFlags. rewrite lor_stop_on_redirect. simpl.
  apply Cancel_eq; assumption.
Qed.

Lemma OnHeadersOnly_eq headers loader map_ w :
  live w = true → status w = UR_IO_PENDING → client_set w →
  Context.loader_ (World.ctx w) = Some loader → removes map_ w →
  OnHeadersOnly (Some headers) w
  = Ok (headers_completed headers loader map_ w).
Proof.
  intros Hl Hs Hc Hld Hr.
  unfold OnHeadersOnly, headers_completed, headers_stored, status_is.
  unfold status in Hs. rewrite Hs. simpl.
  destruct (String.eqb _ "HEAD"); simpl.
  - apply OnComplete_eq; assumption.
  - rewrite OnDownloadProgress_eq by assumption. simpl.
    unfold progressed.
    match goal with |- context [if ?b then _ else _] => destruct b end;
      apply OnComplete_eq; assumption.
Qed.

End Effects.

(** ** Handlers return on what they can read, and keep the invariants *)

Section Invariants.
Context `{Platform}.
Implicit Types w : World.t.

Lemma tasks_fresh_other ui originating counter (m m' : gmap Z RequestInfo) :
  tasks_fresh ui originating counter m →
  m' = m ∨ (ui = [] ∧ originating = []) →
  tasks_fresh ui originating counter m'.
Proof. intros Hf [-> | [-> ->]]; [exact Hf | exact I]. Qed.

(** Under the invariant the registry accepts the removal that teardown
    performs. *)
Lemma inv_removes w :
  inv w → live w = true →
  removes (removed w) w
  ∧ (removed w = World.g_manager w
     ∨ (World.ui_tasks w = [] ∧ World.originating_tasks w = [])).
Proof.
  intros Hinv Hl. unfold removes, removed.
  destruct (Context.loader_ (World.ctx w)) as [l|] eqn:Hld.
  - assert (Hnn : non_null (Context.loader_ (World.ctx w)) = true)
      by (rewrite Hld; reflexivity).
    destruct (inv_registered w Hinv Hnn) as [Hle Hin].
    destruct (_ >? kInitialRequestID) eqn:E; [lia|].
    split; [apply Remove_registered; assumption|].
    right. apply (inv_tasks_done w Hinv Hnn).
  - rewrite (inv_unregistered w Hinv Hl Hld).
    split; [apply RegistryFacts.Remove_high; reflexivity|]. by left.
Qed.

(** A world that differs only in what the invariant does not read. *)
Lemma inv_frame w w' :
  inv w →
  Context.url_request_ (World.ctx w') = Context.url_request_ (World.ctx w) →
  Context.status_ (World.ctx w') = Context.status_ (World.ctx w) →
  Context.client_ (World.ctx w') = Context.client_ (World.ctx w) →
  Context.loader_ (World.ctx w') = None
  ∨ non_null (Context.loader_ (World.ctx w'))
    = non_null (Context.loader_ (World.ctx w)) →
  Context.request_id_ (World.ctx w') = Context.request_id_ (World.ctx w) →
  World.g_manager w' = World.g_manager w →
  World.finalize_count w' = World.finalize_count w →
  count_calls is_complete w' = count_calls is_complete w →
  tasks_ok w' →
  (non_null (Context.loader_ (World.ctx w)) = true →
   World.ui_tasks w' = [] ∧ World.originating_tasks w' = []) →
  (Context.loader_ (World.ctx w') = None →
   Context.loader_ (World.ctx w) = None) →
  inv w'.
Proof.
  intros [I1 I2 I3 I4 I5 I6 I7 I7' I8 I9] Hu Hs Hc Hld Hid Hm Hf Hn Ht Ht' Hld'.
  unfold live, status in *.
  constructor; unfold live, status; rewrite ?Hu, ?Hs, ?Hc, ?Hid, ?Hm, ?Hf, ?Hn;
    try assumption.
  - destruct Hld as [-> | ->]; [discriminate | assumption].
  - destruct Hld as [-> | ->]; [discriminate | assumption].
  - auto.
  - destruct Hld as [-> | ->]; [discriminate | assumption].
Qed.

(** Teardown after the completion callback. *)
Lemma inv_cleaned map_ request w :
  live w = true →
  count_calls is_complete w = 0%nat →
  terminal (status w) →
  World.finalize_count w =
    match status w with UR_SUCCESS | UR_FAILED => 1%nat | _ => 0%nat end →
  tasks_fresh (World.ui_tasks w) (World.originating_tasks w)
    (World.request_id w) map_ →
  inv (cleaned map_ (called (CallOnRequestComplete request) w)).
Proof.
  intros Hl Hn Ht Hf Htasks.
  unfold live, status, count_calls in *.
  constructor; unfold live, status, count_calls, tasks_ok, cleaned;
    open_world w; norm; norm_in Hl; norm_in Hn; norm_in Ht; norm_in Hf;
    norm_in Htasks; try done.
  - rewrite filter_snoc, length_app, Hn. reflexivity.
Qed.

Lemma inv_same_core w w' : inv w → same_core w w' → inv w'.
Proof.
  intros Hinv (Hu & Hs & Hc & Hld & Hid & Hm & Hn & Hui & Hor & Hf & Hcc).
  apply (inv_frame w w' Hinv); try assumption.
  - right. by rewrite Hld.
  - unfold tasks_ok. rewrite Hui, Hor, Hn, Hm. apply (inv_tasks w Hinv).
  - rewrite Hui, Hor. apply (inv_tasks_done w Hinv).
  - by rewrite Hld.
Qed.

Ltac same_core_tac w :=
  unfold same_core, count_calls; open_world w; norm;
  repeat match goal with
         | |- context [if ?b then _ else _] => destruct b
         end;
  norm; rewrite ?filter_snoc, ?app_nil_r; repeat split; reflexivity.

Lemma same_core_notified w : same_core w (notified w).
Proof. unfold notified, upload_notice. same_core_tac w. Qed.

Lemma same_core_progressed current w : same_core w (progressed current w).
Proof. unfold progressed, notified, upload_notice. same_core_tac w. Qed.

Lemma same_core_uploaded position total w :
  same_core w (uploaded position total w).
Proof. unfold uploaded. same_core_tac w. Qed.

Lemma same_core_received string_piece w :
  same_core w (received string_piece w).
Proof. unfold received. same_core_tac w. Qed.

Lemma same_core_retried w : same_core w (retried w).
Proof. unfold retried. same_core_tac w. Qed.

Lemma same_core_response_stored url headers w :
  same_core w (response_stored url headers w).
Proof. unfold response_stored. same_core_tac w. Qed.

Lemma same_core_response_started final_url response_head w :
  same_core w (response_started final_url response_head w).
Proof. unfold response_started, response_stored. same_core_tac w. Qed.

Lemma same_core_headers_stored headers w :
  same_core w (headers_stored headers w).
Proof.
  unfold headers_stored, progressed, notified, upload_notice.
  same_core_tac w.
Qed.

Lemma inv_canceled map_ w :
  live w = true →
  count_calls is_complete w = 0%nat →
  World.finalize_count w = 0%nat →
  tasks_fresh (World.ui_tasks w) (World.originating_tasks w)
    (World.request_id w) map_ →
  inv (canceled map_ w).
Proof.
  intros Hl Hn Hf Ht. unfold canceled.
  apply inv_cleaned; unfold live, status, count_calls in *;
    open_world w; norm; norm_in Hl; norm_in Hn; norm_in Hf; norm_in Ht;
    try assumption.
  right. by right.
Qed.

Lemma inv_completed success loader map_ w :
  live w = true →
  count_calls is_complete w = 0%nat →
  World.finalize_count w = 0%nat →
  tasks_fresh (World.ui_tasks w) (World.originating_tasks w)
    (World.request_id w) map_ →
  inv (completed success loader map_ w).
Proof.
  intros Hl Hn Hf Ht. unfold completed.
  apply inv_cleaned; unfold live, status, count_calls, finalized, notified,
    upload_notice in *;
    open_world w; norm_in Hl; norm_in Hn; norm_in Hf; norm_in Ht; subst;
    destruct success; norm;
    repeat match goal with
           | |- context [if ?b then _ else _] => destruct b
           end; norm; rewrite ?app_nil_r; try assumption; try reflexivity.
  all: try (left; reflexivity).
  all: try (right; left; reflexivity).
  all: rewrite filter_snoc, length_app, Hn; reflexivity.
Qed.

Lemma inv_live_facts w :
  inv w → live w = true →
  status w = UR_IO_PENDING ∧ client_set w
  ∧ count_calls is_complete w = 0%nat ∧ World.finalize_count w = 0%nat.
Proof.
  intros Hinv Hl. pose proof (inv_pending w Hinv Hl) as Hs.
  split; [exact Hs|]. split; [exact (inv_client w Hinv Hl)|].
  pose proof (inv_complete w Hinv) as Hc. rewrite Hl in Hc.
  split; [exact Hc|].
  pose proof (inv_finalize w Hinv) as Hf. by rewrite Hs in Hf.
Qed.

Lemma loader_has_Some p w :
  loader_has p w = true →
  ∃ loader, Context.loader_ (World.ctx w) = Some loader ∧ p loader = true.
Proof.
  unfold loader_has. destruct (Context.loader_ (World.ctx w)) as [l|];
    [eauto | discriminate].
Qed.

Lemma inv_loader_live_facts w loader :
  inv w → Context.loader_ (World.ctx w) = Some loader → live w = true.
Proof.
  intros Hinv Hld. apply (inv_loader_live w Hinv). by rewrite Hld.
Qed.

(** The transport stores its result in the loader. *)
Lemma upd_loader_same f w :
  let w' := upd_loader f w in
  live w' = live w ∧ status w' = status w
  ∧ (client_set w' ↔ client_set w)
  ∧ count_calls is_complete w' = count_calls is_complete w
  ∧ World.finalize_count w' = World.finalize_count w
  ∧ World.ui_tasks w' = World.ui_tasks w
  ∧ World.originating_tasks w' = World.originating_tasks w
  ∧ World.request_id w' = World.request_id w
  ∧ World.g_manager w' = World.g_manager w
  ∧ Context.request_id_ (World.ctx w') = Context.request_id_ (World.ctx w)
  ∧ Context.loader_ (World.ctx w') = f <$> Context.loader_ (World.ctx w).
Proof.
  unfold live, status, client_set, count_calls. open_world w. norm.
  repeat split; auto.
Qed.

Lemma step_Cancel w :
  inv w → Cancel w = Ok (effect EvCancel w) ∧ inv (effect EvCancel w).
Proof.
  intros Hinv. simpl. destruct (live w) eqn:Hl.
  - destruct (inv_live_facts w Hinv Hl) as (Hs & Hc & Hn & Hf).
    destruct (inv_removes w Hinv Hl) as (Hr & Hm).
    split; [by apply Cancel_eq|].
    apply inv_canceled; try assumption.
    apply (tasks_fresh_other _ _ _ (World.g_manager w));
      [apply (inv_tasks w Hinv) | exact Hm].
  - split; [by apply Cancel_done | exact Hinv].
Qed.

Lemma removed_with_result result w :
  removed (with_result result w) = removed w.
Proof. unfold removed, with_result. open_world w. reflexivity. Qed.

(** A terminal callback of the transport on a pending request. *)
Lemma step_OnComplete success result w :
  inv w → non_null (Context.loader_ (World.ctx w)) = true →
  handle (EvComplete success result) w
    = Ok (effect (EvComplete success result) w)
  ∧ inv (effect (EvComplete success result) w).
Proof.
  intros Hinv Hnn. unfold handle, effect.
  destruct (Context.loader_ (World.ctx w)) as [l|] eqn:Hld; [|discriminate].
  pose proof (inv_loader_live_facts w l Hinv Hld) as Hl.
  destruct (inv_live_facts w Hinv Hl) as (Hs & Hc & Hn & Hf).
  destruct (inv_removes w Hinv Hl) as (Hr & Hm).
  change (upd_loader (SimpleURLLoader.set_result result) w)
    with (with_result result w).
  cbv zeta. rewrite removed_with_result.
  destruct (upd_loader_same (SimpleURLLoader.set_result result) w)
    as (El & Es & Ec & En & Ef & Eui & Eor & Eid & Em & Erid & Eld).
  change (upd_loader (SimpleURLLoader.set_result result) w)
    with (with_result result w)
    in El, Es, Ec, En, Ef, Eui, Eor, Eid, Em, Erid, Eld.
  set (w0 := with_result result w) in *.
  rewrite Hld in Eld.
  change (_ <$> Some l) with (Some (SimpleURLLoader.set_result result l)) in Eld.
  rewrite Eld. split.
  - apply OnComplete_eq; try congruence; try (by apply Ec);
      try (unfold removes in *; by rewrite Erid, Em).
  - apply inv_completed; try congruence.
    rewrite Eui, Eor, Eid.
    apply (tasks_fresh_other _ _ _ (World.g_manager w));
      [apply (inv_tasks w Hinv) | exact Hm].
Qed.

Lemma step_OnHeadersOnly headers result w :
  inv w → non_null (Context.loader_ (World.ctx w)) = true →
  handle (EvHeadersOnly (Some headers) result) w
    = Ok (effect (EvHeadersOnly (Some headers) result) w)
  ∧ inv (effect (EvHeadersOnly (Some headers) result) w).
Proof.
  intros Hinv Hnn. unfold handle, effect.
  change (pointee (Some headers)) with headers.
  destruct (Context.loader_ (World.ctx w)) as [l|] eqn:Hld; [|discriminate].
  pose proof (inv_loader_live_facts w l Hinv Hld) as Hl.
  destruct (inv_live_facts w Hinv Hl) as (Hs & Hc & Hn & Hf).
  destruct (inv_removes w Hinv Hl) as (Hr & Hm).
  change (upd_loader (SimpleURLLoader.set_result result) w)
    with (with_result result w).
  cbv zeta. rewrite removed_with_result.
  destruct (upd_loader_same (SimpleURLLoader.set_result result) w)
    as (El & Es & Ec & En & Ef & Eui & Eor & Eid & Em & Erid & Eld).
  change (upd_loader (SimpleURLLoader.set_result result) w)
    with (with_result result w)
    in El, Es, Ec, En, Ef, Eui, Eor, Eid, Em, Erid, Eld.
  set (w0 := with_result result w) in *.
  rewrite Hld in Eld.
  change (_ <$> Some l) with (Some (SimpleURLLoader.set_result result l)) in Eld.
  rewrite Eld. split.
  - apply OnHeadersOnly_eq; try congruence; try (by apply Ec);
      try (unfold removes in *; by rewrite Erid, Em).
  - unfold headers_completed.
    destruct (same_core_headers_stored headers w0)
      as (Hu' & Hs' & Hc' & Hld' & Hid' & Hm' & Hn' & Hui' & Hor' & Hf' & Hcc').
    apply inv_completed.
    + unfold live in *. rewrite Hu'. congruence.
    + congruence.
    + congruence.
    + rewrite Hui', Hor', Hn', Eui, Eor, Eid.
      apply (tasks_fresh_other _ _ _ (World.g_manager w));
        [apply (inv_tasks w Hinv) | exact Hm].
Qed.

Lemma step_OnRedirect redirect_info response_head w :
  inv w → non_null (Context.loader_ (World.ctx w)) = true →
  is_Some (URLResponseHead.headers response_head) →
  handle (EvRedirect redirect_info response_head) w
    = Ok (effect (EvRedirect redirect_info response_head) w)
  ∧ inv (effect (EvRedirect redirect_info response_head) w).
Proof.
  intros Hinv Hnn Hp. simpl.
  pose proof (inv_loader_live w Hinv Hnn) as Hl.
  destruct (inv_live_facts w Hinv Hl) as (Hs & Hc & Hn & Hf).
  destruct (inv_removes w Hinv Hl) as (Hr & Hm).
  split; [by apply OnRedirect_eq|].
  unfold redirected.
  destruct (same_core_response_stored (RedirectInfo.new_url redirect_info)
              (pointee (URLResponseHead.headers response_head)) w)
    as (Hu' & Hs' & Hc' & Hld' & Hid' & Hm' & Hn' & Hui' & Hor' & Hf' & Hcc').
  apply inv_canceled.
  - unfold live in *. by rewrite Hu'.
  - congruence.
  - congruence.
  - rewrite Hui', Hor', Hn'.
    apply (tasks_fresh_other _ _ _ (World.g_manager w));
      [apply (inv_tasks w Hinv) | exact Hm].
Qed.

Lemma step_same_core w w' r :
  inv w → r = Ok w' → same_core w w' → r = Ok w' ∧ inv w'.
Proof. intros Hinv -> Hsame. eauto using inv_same_core. Qed.

Lemma to_int32_small z : - 2 ^ 31 <= z < 2 ^ 31 → to_int32 z = z.
Proof. intros Hz. unfold to_int32. rewrite Z.mod_small; lia. Qed.

Lemma step_UiTask rfh w :
  inv w → enabled (EvUiTask rfh) w = true →
  handle (EvUiTask rfh) w = Ok (effect (EvUiTask rfh) w)
  ∧ inv (effect (EvUiTask rfh) w).
Proof.
  intros Hinv Hen. simpl in *.
  pose proof (inv_tasks w Hinv) as Ht. unfold tasks_ok, tasks_fresh in Ht.
  pose proof (inv_tasks_done w Hinv) as Htd.
  destruct (World.ui_tasks w) as [|task [|task' rest]] eqn:Hui;
    [discriminate | | contradiction].
  destruct (World.originating_tasks w) as [|ctask rest] eqn:Hor;
    [|contradiction].
  destruct Ht as [Hcounter Hkeys].
  assert (Hld : Context.loader_ (World.ctx w) = None).
  { destruct (Context.loader_ (World.ctx w)); [|done].
    destruct Htd as [Habs _]; [done | discriminate]. }
  split; [reflexivity|].
  assert (Hid : to_int32 (World.request_id w - 1) = World.request_id w - 1).
  { apply to_int32_small. unfold kInitialRequestID in *. lia. }
  apply (inv_frame w _ Hinv);
    unfold GetURLLoaderFactoryGetterOnUIThread, MakeRequestID, count_calls,
      tasks_ok;
    destruct (ui_frame task), rfh; open_world w; norm; norm_in Hid;
    norm_in Hld; norm_in Hor; norm_in Hkeys; norm_in Hcounter; subst;
    try reflexivity; try (right; reflexivity); try discriminate; try done.
  all: unfold tasks_fresh; simpl; rewrite Hid; split;
    [ unfold kInitialRequestID in *; lia
    | destruct (g_manager !! (request_id - 1)) eqn:E; [exfalso|done];
      assert (request_id <= request_id - 1)
        by (apply Hkeys; rewrite E; eauto); lia ].
Qed.

Lemma Continue_dead rf id getter w :
  live w = false → ContinueOnOriginatingThread rf id getter w = Ok w.
Proof. unfold live, ContinueOnOriginatingThread. intros ->. reflexivity. Qed.

Lemma Continue_no_getter rf id w :
  live w = true → ContinueOnOriginatingThread rf id None w = Cancel w.
Proof. unfold live, ContinueOnOriginatingThread. intros ->. reflexivity. Qed.

Lemma inv_continued rf id g w :
  inv w → live w = true → Context.loader_ (World.ctx w) = None →
  World.ui_tasks w = [] → World.originating_tasks w = [] →
  id <= kInitialRequestID →
  inv (continued rf id g w).
Proof.
  intros [I1 I2 I3 I4 I5 I6 I7 I7' I8 I9] Hl Hld Hui Hor Hid.
  unfold live, status, count_calls, tasks_ok in *.
  constructor; unfold live, status, count_calls, tasks_ok, continued;
    open_world w; norm; norm_in Hl; norm_in Hui; norm_in Hor; subst;
    try (intros; assumption); auto.
  - intros _. split; [assumption|]. rewrite lookup_insert_eq. eauto.
  - discriminate.
Qed.

Lemma step_Continue w :
  inv w → enabled EvContinue w = true →
  handle EvContinue w = Ok (effect EvContinue w)
  ∧ inv (effect EvContinue w).
Proof.
  intros Hinv Hen. simpl in *.
  pose proof (inv_tasks w Hinv) as Ht. unfold tasks_ok, tasks_fresh in Ht.
  pose proof (inv_tasks_done w Hinv) as Htd.
  destruct (World.originating_tasks w) as [|task rest] eqn:Hor;
    [discriminate|].
  destruct (World.ui_tasks w) as [|utask [|utask' urest]] eqn:Hui;
    [|contradiction|contradiction].
  destruct rest; [|contradiction]. destruct Ht as [Hid Hfresh].
  assert (Hld : Context.loader_ (World.ctx w) = None).
  { destruct (Context.loader_ (World.ctx w)); [|done].
    destruct Htd as [_ Habs]; [done | discriminate]. }
  set (w0 := World.set_originating_tasks [] w).
  assert (Hinv0 : inv w0).
  { apply (inv_frame w w0 Hinv); unfold w0, tasks_ok, count_calls;
      open_world w; norm; norm_in Hui; subst; try reflexivity;
      try (right; reflexivity); try done. }
  assert (Hld0 : Context.loader_ (World.ctx w0) = None)
    by (unfold w0; open_world w; exact Hld).
  assert (Hui0 : World.ui_tasks w0 = [])
    by (unfold w0; open_world w; exact Hui).
  assert (Hor0 : World.originating_tasks w0 = [])
    by (unfold w0; open_world w; reflexivity).
  assert (Hm0 : World.g_manager w0 = World.g_manager w)
    by (unfold w0; open_world w; reflexivity).
  destruct (live w0) eqn:Hl.
  - destruct (ct_loader_factory_getter task) as [g|].
    + split.
      * apply Continue_main; try assumption;
          try apply (inv_pending w0 Hinv0 Hl); try (by rewrite Hm0).
      * by apply inv_continued.
    + rewrite Continue_no_getter by assumption.
      pose proof (step_Cancel w0 Hinv0) as Hcancel. simpl in Hcancel.
      by rewrite Hl in Hcancel.
  - split; [by apply Continue_dead | exact Hinv0].
Qed.

(** An event that brings a null header pointer stops its handler. *)
Lemma handle_null e w : null_free e = false → handle e w = Crashed.
Proof.
  destruct e; try discriminate; simpl; intros Hn;
    apply bool_decide_eq_false in Hn.
  - destruct headers; [by destruct Hn|]. apply OnHeadersOnly_null.
  - apply OnRedirect_null. by apply eq_None_not_Some.
  - apply OnResponseStarted_null. by apply eq_None_not_Some.
Qed.

(** Every possible event that brings no null pointer is handled without
    a crash, and keeps the invariant. *)
Lemma handle_inv e w :
  inv w → enabled e w = true → null_free e = true →
  handle e w = Ok (effect e w) ∧ inv (effect e w).
Proof.
  intros Hinv Hen Hnf. destruct e.
  - by apply step_Cancel.
  - by apply step_UiTask.
  - by apply step_Continue.
  - simpl in *. apply loader_has_Some in Hen as (l & Hld & _).
    apply bool_decide_eq_true in Hnf as [h ->].
    apply step_OnHeadersOnly; [done | by rewrite Hld].
  - simpl in *. apply loader_has_Some in Hen as (l & Hld & _).
    apply bool_decide_eq_true in Hnf.
    apply step_OnRedirect; [done | by rewrite Hld | done].
  - simpl in *. apply loader_has_Some in Hen as (l & Hld & _).
    apply bool_decide_eq_true in Hnf.
    pose proof (inv_loader_live_facts w l Hinv Hld) as Hl.
    destruct (inv_live_facts w Hinv Hl) as (Hs & Hc & _).
    eapply step_same_core;
      [done | by apply OnResponseStarted_eq
       | apply same_core_response_started].
  - simpl in *. apply loader_has_Some in Hen as (l & Hld & _).
    pose proof (inv_loader_live_facts w l Hinv Hld) as Hl.
    destruct (inv_live_facts w Hinv Hl) as (Hs & Hc & _).
    eapply step_same_core;
      [done | by apply OnUploadProgress_eq | apply same_core_uploaded].
  - simpl in *. apply loader_has_Some in Hen as (l & Hld & _).
    pose proof (inv_loader_live_facts w l Hinv Hld) as Hl.
    destruct (inv_live_facts w Hinv Hl) as (Hs & Hc & _).
    eapply step_same_core;
      [done | by apply OnDownloadProgress_eq | apply same_core_progressed].
  - simpl in *. apply loader_has_Some in Hen as (l & Hld & _).
    pose proof (inv_loader_live_facts w l Hinv Hld) as Hl.
    destruct (inv_live_facts w Hinv Hl) as (Hs & Hc & _).
    eapply step_same_core;
      [done | by apply OnDataReceived_eq | apply same_core_received].
  - simpl in *. apply loader_has_Some in Hen as (l & Hld & _).
    apply step_OnComplete; [done | by rewrite Hld].
  - simpl in *. apply loader_has_Some in Hen as (l & Hld & _).
    pose proof (inv_loader_live_facts w l Hinv Hld) as Hl.
    destruct (inv_live_facts w Hinv Hl) as (Hs & Hc & _).
    eapply step_same_core;
      [done | by apply OnRetry_eq | apply same_core_retried].
Qed.

Lemma with_pointee_facts e w :
  null_free (with_pointee e) = true
  ∧ enabled (with_pointee e) w = enabled e w
  ∧ effect (with_pointee e) w = effect e w.
Proof. by destruct e. Qed.

(** [effect] keeps the invariant, for every possible event. *)
Lemma effect_inv e w : inv w → enabled e w = true → inv (effect e w).
Proof.
  intros Hinv Hen.
  destruct (with_pointee_facts e w) as (Hnf & Hen' & <-).
  rewrite <- Hen' in Hen. apply (handle_inv _ w Hinv Hen Hnf).
Qed.

(** One step of a run: the event is possible, brings no null pointer,
    and is handled as [effect] says. *)
Lemma run_cons e es w w' :
  inv w → run (e :: es) w = Some w' →
  enabled e w = true ∧ null_free e = true
  ∧ handle e w = Ok (effect e w) ∧ inv (effect e w)
  ∧ run es (effect e w) = Some w'.
Proof.
  intros Hinv Hrun. simpl in Hrun.
  destruct (enabled e w) eqn:Hen; [|discriminate].
  destruct (null_free e) eqn:Hnf.
  - destruct (handle_inv e w Hinv Hen Hnf) as (Hh & Hinv1).
    rewrite Hh in Hrun. done.
  - by rewrite (handle_null e w Hnf) in Hrun.
Qed.

Lemma run_inv es w w' : inv w → run es w = Some w' → inv w'.
Proof.
  revert w. induction es as [|e es IH]; intros w Hinv Hrun.
  - simpl in Hrun. by injection Hrun as <-.
  - destruct (run_cons e es w w' Hinv Hrun) as (_ & _ & _ & Hinv1 & Hrun1).
    eauto.
Qed.

Lemma run_app es1 es2 w :
  run (es1 ++ es2) w = run es1 w ≫= run es2.
Proof.
  revert w. induction es1 as [|e es1 IH]; intros w; simpl; [done|].
  destruct (enabled e w); [|done]. destruct (handle e w); [|done]. apply IH.
Qed.

End Invariants.

(** ** What each effect does to the observed state *)

Section Observations.
Context `{Platform}.
Implicit Types w : World.t.

Ltac obs_tac w :=
  unfold obs, status, response, response_was_cached; open_world w; norm;
  repeat match goal with
         | |- context [if ?b then _ else _] => destruct b
         end;
  reflexivity.

Lemma obs_cleaned map_ w : obs (cleaned map_ w) = obs w.
Proof. unfold cleaned. obs_tac w. Qed.

Lemma obs_called call w : obs (called call w) = obs w.
Proof. obs_tac w. Qed.

Lemma obs_notified w : obs (notified w) = obs w.
Proof. unfold notified, upload_notice. obs_tac w. Qed.

Lemma obs_progressed current w : obs (progressed current w) = obs w.
Proof. unfold progressed, notified, upload_notice. obs_tac w. Qed.

Lemma obs_uploaded position total w : obs (uploaded position total w) = obs w.
Proof. unfold uploaded. obs_tac w. Qed.

Lemma obs_received string_piece w : obs (received string_piece w) = obs w.
Proof. unfold received. obs_tac w. Qed.

Lemma obs_retried w : obs (retried w) = obs w.
Proof. unfold retried. obs_tac w. Qed.

Lemma obs_with_result result w : obs (with_result result w) = obs w.
Proof. unfold with_result. obs_tac w. Qed.

Lemma obs_response_stored url headers w :
  obs (response_stored url headers w)
  = (status w, stored_response url headers (response w),
     response_was_cached w, World.finalize_count w).
Proof. unfold response_stored, stored_response. obs_tac w. Qed.

Lemma obs_response_started final_url response_head w :
  obs (response_started final_url response_head w)
  = (status w,
     stored_response final_url
       (pointee (URLResponseHead.headers response_head)) (response w),
     response_was_cached w, World.finalize_count w).
Proof.
  unfold response_started, response_stored, stored_response, obs, status,
    response, response_was_cached.
  open_world w. destruct response_. norm.
  repeat match goal with
         | |- context [if ?b then _ else _] => destruct b
         end; reflexivity.
Qed.

Lemma obs_finalized success loader w :
  obs (finalized success loader w)
  = (if success then UR_SUCCESS else UR_FAILED,
     finalized_response (SimpleURLLoader.result loader) (response w),
     TransportResult.loaded_from_cache (SimpleURLLoader.result loader),
     S (World.finalize_count w)).
Proof.
  unfold finalized, finalized_response, obs, status, response,
    response_was_cached.
  open_world w. norm. reflexivity.
Qed.

Lemma obs_completed success loader map_ w :
  obs (completed success loader map_ w)
  = (if success then UR_SUCCESS else UR_FAILED,
     finalized_response (SimpleURLLoader.result loader) (response w),
     TransportResult.loaded_from_cache (SimpleURLLoader.result loader),
     S (World.finalize_count w)).
Proof.
  unfold completed. rewrite obs_cleaned, obs_called.
  destruct success; rewrite ?obs_notified; apply obs_finalized.
Qed.

Lemma obs_canceled map_ w :
  obs (canceled map_ w)
  = (UR_CANCELED, aborted_response (response w), response_was_cached w,
     World.finalize_count w).
Proof.
  unfold canceled. rewrite obs_cleaned, obs_called.
  unfold aborted_response. obs_tac w.
Qed.

Lemma finalized_response_fields result r :
  CefResponseImpl.url_ (finalized_response result r)
    = TransportResult.final_url result
  ∧ CefResponseImpl.error_code_ (finalized_response result r)
    = TransportResult.net_error result.
Proof. destruct r. split; reflexivity. Qed.

Lemma aborted_response_fields r :
  CefResponseImpl.error_code_ (aborted_response r) = ERR_ABORTED
  ∧ CefResponseImpl.url_ (aborted_response r) = CefResponseImpl.url_ r
  ∧ CefResponseImpl.status_code_ (aborted_response r)
    = CefResponseImpl.status_code_ r
  ∧ CefResponseImpl.header_map_ (aborted_response r)
    = CefResponseImpl.header_map_ r.
Proof. destruct r. repeat split; reflexivity. Qed.

Lemma stored_response_fields url headers r :
  CefResponseImpl.url_ (stored_response url headers r) = url
  ∧ CefResponseImpl.status_code_ (stored_response url headers r)
    = HttpResponseHeaders.response_code headers
  ∧ CefResponseImpl.header_map_ (stored_response url headers r)
    = HttpResponseHeaders.lines headers
  ∧ CefResponseImpl.error_code_ (stored_response url headers r)
    = CefResponseImpl.error_code_ r.
Proof. destruct r. repeat split; reflexivity. Qed.

End Observations.

(** ** Runs from a fresh request *)

Section Reach.
Context `{Platform}.
Implicit Types w : World.t.

Lemma inv_initial s : inv (initial s).
Proof.
  constructor; unfold live, status, count_calls, tasks_ok, initial; simpl;
    done.
Qed.

Lemma Start_invalid w :
  gurl_is_valid (CefRequestImpl.GetURL (Context.request_ (World.ctx w)))
    = false →
  Start w = (false, w).
Proof. unfold Start. intros ->. reflexivity. Qed.

Lemma inv_started s : setup_ok s → inv (started s).
Proof.
  intros [Hcounter Hkeys]. unfold started, Start.
  destruct (gurl_is_valid _); simpl; [|apply inv_initial].
  apply (inv_frame (initial s) _ (inv_initial s)); try reflexivity;
    try (right; reflexivity); try done.
Qed.

Lemma reach_inv s es w :
  setup_ok s → run es (started s) = Some w → inv w.
Proof. intros Hs. apply run_inv. by apply inv_started. Qed.

(** A run goes on with every possible event that brings no null pointer. *)
Lemma run_snoc es e w w' :
  inv w → run es w = Some w' → enabled e w' = true → null_free e = true →
  run (es ++ [e]) w = Some (effect e w').
Proof.
  intros Hinv Hrun Hen Hnf. rewrite run_app, Hrun. simpl. rewrite Hen.
  destruct (handle_inv e w' (run_inv es w w' Hinv Hrun) Hen Hnf) as [-> _].
  done.
Qed.

(** Once torn down, the request no longer reacts. *)
Lemma effect_done e w :
  inv w → live w = false → enabled e w = true → obs (effect e w) = obs w
  ∧ World.client_calls (effect e w) = World.client_calls w
  ∧ World.g_manager (effect e w) = World.g_manager w
  ∧ live (effect e w) = false.
Proof.
  intros Hinv Hl Hen.
  assert (Hld : Context.loader_ (World.ctx w) = None).
  { destruct (Context.loader_ (World.ctx w)) eqn:E; [|done].
    rewrite (inv_loader_live w Hinv) in Hl; [discriminate | by rewrite E]. }
  destruct e; simpl in Hen; unfold loader_has in Hen; rewrite ?Hld in Hen;
    try discriminate; simpl.
  - rewrite Hl. done.
  - destruct (World.ui_tasks w) as [|task rest]; [done|].
    unfold GetURLLoaderFactoryGetterOnUIThread, MakeRequestID, obs, status,
      response, response_was_cached, live in *.
    destruct (ui_frame task), rfh; open_world w; norm; norm_in Hl; done.
  - destruct (World.originating_tasks w) as [|task rest]; [done|].
    assert (Hl0 : live (World.set_originating_tasks rest w) = false)
      by (unfold live in *; open_world w; exact Hl).
    rewrite Hl0. unfold obs, status, response, response_was_cached, live in *.
    open_world w; norm; norm_in Hl; done.
Qed.

End Reach.

Section ObservedEffects.
Context `{Platform}.
Implicit Types w : World.t.

Lemma obs_fields w st r c n :
  obs w = (st, r, c, n) →
  status w = st ∧ response w = r ∧ response_was_cached w = c
  ∧ World.finalize_count w = n.
Proof. unfold obs. intros [= -> -> -> ->]. done. Qed.

Lemma obs_ui_task rfh w : obs (effect (EvUiTask rfh) w) = obs w.
Proof.
  simpl. destruct (World.ui_tasks w) as [|task rest]; [done|].
  unfold GetURLLoaderFactoryGetterOnUIThread, MakeRequestID, obs, status,
    response, response_was_cached.
  destruct (ui_frame task), rfh; open_world w; reflexivity.
Qed.

Lemma obs_continued rf id g w : obs (continued rf id g w) = obs w.
Proof.
  unfold continued, obs, status, response, response_was_cached.
  open_world w. reflexivity.
Qed.

Lemma obs_headers_stored headers w :
  ∃ r, obs (headers_stored headers w)
       = (status w, r, response_was_cached w, World.finalize_count w).
Proof.
  unfold headers_stored, progressed, notified, upload_notice, obs, status,
    response, response_was_cached.
  open_world w. norm.
  repeat match goal with
         | |- context [if ?b then _ else _] => destruct b
         end; eexists; reflexivity.
Qed.

Lemma obs_set_originating rest w :
  obs (World.set_originating_tasks rest w) = obs w
  ∧ live (World.set_originating_tasks rest w) = live w.
Proof. unfold obs, live. open_world w. split; reflexivity. Qed.

Lemma loader_with_result result w :
  Context.loader_ (World.ctx (with_result result w))
  = SimpleURLLoader.set_result result <$> Context.loader_ (World.ctx w).
Proof. unfold with_result. open_world w. reflexivity. Qed.

Lemma result_set_result result loader :
  SimpleURLLoader.result (SimpleURLLoader.set_result result loader) = result.
Proof. destruct loader. reflexivity. Qed.

(** What a possible event does to a pending request. *)
Lemma effect_pending e w :
  inv w → status w = UR_IO_PENDING → enabled e w = true →
  let w' := effect e w in
  (obs w' = obs w ∧ event_url e = None ∧ ends_request e w = false)
  ∨ (∃ url headers,
       event_url e = Some url ∧ ends_request e w = false
       ∧ obs w' = (UR_IO_PENDING, stored_response url headers (response w),
                   response_was_cached w, 0%nat))
  ∨ (∃ success result r,
       event_result e = Some (success, result)
       ∧ obs w' = (if success then UR_SUCCESS else UR_FAILED,
                   finalized_response result r,
                   TransportResult.loaded_from_cache result, 1%nat))
  ∨ (∃ r, CefResponseImpl.url_ r
          = default (CefResponseImpl.url_ (response w)) (event_url e)
          ∧ ends_request e w = true ∧ event_result e = None
          ∧ obs w' = (UR_CANCELED, aborted_response r,
                      response_was_cached w, 0%nat)).
Proof.
  intros Hinv Hs Hen.
  assert (Hl : live w = true).
  { destruct (live w) eqn:E; [done|].
    destruct (inv_terminal w Hinv E) as [Ht | [Ht | Ht]]; congruence. }
  destruct (inv_live_facts w Hinv Hl) as (_ & _ & _ & Hf).
  assert (Hobs : obs w
    = (UR_IO_PENDING, response w, response_was_cached w, 0%nat))
    by (unfold obs; rewrite Hs, Hf; reflexivity).
  destruct e; cbn [effect]; cbv zeta.
  - rewrite Hl. right; right; right. exists (response w).
    do 3 (split; [reflexivity|]). rewrite obs_canceled, Hf. reflexivity.
  - left. split; [apply obs_ui_task | done].
  - cbn [ends_request].
    destruct (World.originating_tasks w) as [|task rest]; [by left|].
    destruct (obs_set_originating rest w) as [Eo El].
    rewrite El, Hl.
    destruct (ct_loader_factory_getter task).
    + left. by rewrite obs_continued.
    + right; right; right. exists (response w).
      do 3 (split; [reflexivity|]).
      rewrite obs_canceled.
      apply obs_fields in Eo as (_ & -> & -> & ->). rewrite Hf. reflexivity.
  - simpl in Hen. apply loader_has_Some in Hen as (l & Hld & _).
    rewrite loader_with_result, Hld. simpl.
    right; right; left. exists true, result.
    destruct (obs_headers_stored (pointee headers) (with_result result w))
      as (r & Hr).
    exists r. split; [reflexivity|].
    unfold headers_completed. rewrite obs_completed, result_set_result.
    apply obs_fields in Hr as (_ & -> & _ & ->).
    pose proof (obs_with_result result w) as Ew.
    apply obs_fields in Ew as (_ & _ & _ & ->). rewrite Hf. reflexivity.
  - right; right; right. unfold redirected.
    exists (stored_response (RedirectInfo.new_url redirect_info)
              (pointee (URLResponseHead.headers response_head))
              (response w)).
    split; [apply stored_response_fields|].
    do 2 (split; [reflexivity|]).
    rewrite obs_canceled.
    pose proof (obs_response_stored (RedirectInfo.new_url redirect_info)
                  (pointee (URLResponseHead.headers response_head)) w)
      as Er.
    apply obs_fields in Er as (_ & -> & -> & ->). rewrite Hf. reflexivity.
  - right; left.
    exists final_url, (pointee (URLResponseHead.headers response_head)).
    do 2 (split; [reflexivity|]).
    rewrite obs_response_started, Hs, Hf. reflexivity.
  - left. split; [apply obs_uploaded | done].
  - left. split; [apply obs_progressed | done].
  - left. split; [apply obs_received | done].
  - simpl in Hen. apply loader_has_Some in Hen as (l & Hld & _).
    rewrite loader_with_result, Hld. simpl.
    right; right; left. exists success, result, (response w).
    split; [reflexivity|].
    rewrite obs_completed, result_set_result.
    pose proof (obs_with_result result w) as Ew.
    apply obs_fields in Ew as (_ & -> & _ & ->). rewrite Hf. reflexivity.
  - left. split; [apply obs_retried | done].
Qed.

End ObservedEffects.

(** ** The example setups are well formed *)

Lemma example_setup_ok request : setup_ok (example_setup request).
Proof.
  unfold setup_ok, example_setup, kInitialRequestID. cbn [s_counter s_registry].
  split; [lia|].
  intros k Hk. rewrite lookup_empty in Hk. by destruct Hk.
Qed.

(** ** Runs keep the configuration *)

Section ConfigFacts.
Context `{Platform}.
Implicit Types w : World.t.

Lemma live_cleaned map_ w : live (cleaned map_ w) = false.
Proof. unfold live, cleaned. open_world w. reflexivity. Qed.

Lemma live_canceled map_ w : live (canceled map_ w) = false.
Proof. unfold canceled. apply live_cleaned. Qed.

Lemma live_completed success loader map_ w :
  live (completed success loader map_ w) = false.
Proof. unfold completed. apply live_cleaned. Qed.

Ltac cfg_tac w :=
  unfold cfg_same; open_world w; norm;
  repeat match goal with
         | |- context [if ?b then _ else _] => destruct b
         end;
  repeat split; reflexivity.

Lemma cfg_same_progressed current w : cfg_same w (progressed current w).
Proof. unfold progressed, notified, upload_notice. cfg_tac w. Qed.

Lemma cfg_same_uploaded position total w :
  cfg_same w (uploaded position total w).
Proof. unfold uploaded. cfg_tac w. Qed.

Lemma cfg_same_received string_piece w : cfg_same w (received string_piece w).
Proof. unfold received. cfg_tac w. Qed.

Lemma cfg_same_retried w : cfg_same w (retried w).
Proof. unfold retried. cfg_tac w. Qed.

Lemma cfg_same_response_started final_url response_head w :
  cfg_same w (response_started final_url response_head w).
Proof. unfold response_started, response_stored. cfg_tac w. Qed.

Lemma inv_cfg_loaded s w w' :
  inv_cfg s w → non_null (Context.loader_ (World.ctx w)) = true →
  cfg_same w w' → inv_cfg s w'.
Proof.
  intros [C1 C2 C3] Hnn (Hu & Hr & Hld).
  constructor; unfold live in *; rewrite ?Hu, ?Hr, ?Hld; try assumption.
  intros _ Hnone. rewrite Hnone in Hnn. discriminate.
Qed.

Lemma inv_cfg_dead s w : live w = false → inv w → inv_cfg s w.
Proof.
  intros Hl Hinv.
  assert (Hld : Context.loader_ (World.ctx w) = None).
  { destruct (Context.loader_ (World.ctx w)) eqn:E; [|done].
    rewrite (inv_loader_live w Hinv) in Hl; [discriminate | by rewrite E]. }
  constructor; rewrite ?Hl, ?Hld; try discriminate.
Qed.

Lemma dead_no_transport e w :
  inv w → live w = false → is_transport_event e = true →
  enabled e w = false.
Proof.
  intros Hinv Hl He.
  assert (Hld : Context.loader_ (World.ctx w) = None).
  { destruct (Context.loader_ (World.ctx w)) eqn:E; [|done].
    rewrite (inv_loader_live w Hinv) in Hl; [discriminate | by rewrite E]. }
  destruct e; try discriminate; simpl; unfold loader_has; by rewrite Hld.
Qed.

Lemma effect_cfg s e w :
  inv w → inv_cfg s w → enabled e w = true → inv_cfg s (effect e w).
Proof.
  intros Hinv Hcfg Hen.
  pose proof (effect_inv e w Hinv Hen) as Hinv'.
  destruct (live (effect e w)) eqn:Hl'; [|by apply inv_cfg_dead].
  destruct (live w) eqn:Hl.
  2: { destruct (effect_done e w Hinv Hl Hen) as (_ & _ & _ & Hd). congruence. }
  destruct e; cbn [effect] in *; cbv zeta in *.
  - rewrite Hl, live_canceled in Hl'. discriminate.
  - destruct (World.ui_tasks w) as [|task rest]; [done|].
    destruct Hcfg as [C1 C2 C3].
    constructor; unfold GetURLLoaderFactoryGetterOnUIThread, MakeRequestID,
      live in *;
      destruct (ui_frame task), rfh; revert C1 C2 C3; open_world w; norm;
      intros C1 C2 C3; auto.
  - destruct (World.originating_tasks w) as [|task rest] eqn:Hor; [done|].
    set (w0 := World.set_originating_tasks rest w) in *.
    assert (E0 : World.ctx w0 = World.ctx w) by (unfold w0; open_world w; done).
    assert (Hl0 : live w0 = true) by (unfold live; rewrite E0; exact Hl).
    rewrite Hl0 in *.
    destruct (ct_loader_factory_getter task).
    + pose proof (inv_tasks_done w Hinv) as Htd. rewrite Hor in Htd.
      assert (Hld : Context.loader_ (World.ctx w) = None).
      { destruct (Context.loader_ (World.ctx w)); [|done].
        destruct Htd as [_ Habs]; [done | discriminate]. }
      destruct (cfg_before s w Hcfg Hl Hld) as (Hrq & Hsz & Hgot & Hcc).
      pose proof (cfg_handle s w Hcfg Hl) as Hu.
      rewrite <- E0 in Hrq, Hu.
      constructor; unfold continued, live.
      * intros _. revert Hu. open_world w0. norm. done.
      * intros _. open_world w0. norm. discriminate.
      * intros loader. revert Hrq. open_world w0. norm.
        intros -> [= <-]. split; [reflexivity|]. eauto.
    + rewrite live_canceled in Hl'. discriminate.
  - simpl in Hen. apply loader_has_Some in Hen as (l & Hld & _).
    rewrite loader_with_result, Hld in Hl'. simpl in Hl'.
    unfold headers_completed in Hl'. rewrite live_completed in Hl'.
    discriminate.
  - unfold redirected in Hl'. rewrite live_canceled in Hl'. discriminate.
  - simpl in Hen. apply loader_has_Some in Hen as (l & Hld & _).
    apply (inv_cfg_loaded s w); [done | by rewrite Hld
                                 | apply cfg_same_response_started].
  - simpl in Hen. apply loader_has_Some in Hen as (l & Hld & _).
    apply (inv_cfg_loaded s w); [done | by rewrite Hld
                                 | apply cfg_same_uploaded].
  - simpl in Hen. apply loader_has_Some in Hen as (l & Hld & _).
    apply (inv_cfg_loaded s w); [done | by rewrite Hld
                                 | apply cfg_same_progressed].
  - simpl in Hen. apply loader_has_Some in Hen as (l & Hld & _).
    apply (inv_cfg_loaded s w); [done | by rewrite Hld
                                 | apply cfg_same_received].
  - simpl in Hen. apply loader_has_Some in Hen as (l & Hld & _).
    rewrite loader_with_result, Hld in Hl'. simpl in Hl'.
    rewrite live_completed in Hl'. discriminate.
  - simpl in Hen. apply loader_has_Some in Hen as (l & Hld & _).
    apply (inv_cfg_loaded s w); [done | by rewrite Hld
                                 | apply cfg_same_retried].
Qed.

Lemma inv_cfg_initial s : inv_cfg s (initial s).
Proof. constructor; simpl; try done. Qed.

Lemma inv_cfg_started s : inv_cfg s (started s).
Proof.
  unfold started, Start. destruct (gurl_is_valid _); simpl;
    [|apply inv_cfg_initial].
  constructor; simpl; try done.
Qed.

Lemma run_cfg s es w w' :
  inv w → inv_cfg s w → run es w = Some w' → inv_cfg s w'.
Proof.
  revert w. induction es as [|e es IH]; intros w Hinv Hcfg Hrun;
    simpl in Hrun.
  - by injection Hrun as <-.
  - destruct (run_cons e es w w' Hinv Hrun)
      as (Hen & Hnf & Hh & Hinv1 & Hrun1).
    clear Hrun. rename Hrun1 into Hrun. eapply IH; [exact Hinv1 | | exact Hrun].
    by apply effect_cfg.
Qed.

Lemma reach_cfg s es w :
  setup_ok s → run es (started s) = Some w → inv_cfg s w.
Proof.
  intros Hs. apply run_cfg; [by apply inv_started | apply inv_cfg_started].
Qed.

End ConfigFacts.

(** ** The calls each event makes on the client *)

Section Calls.
Context `{Platform}.
Implicit Types w : World.t.

Ltac track_tac w :=
  unfold track; open_world w; norm;
  repeat match goal with
         | |- context [if ?b then _ else _] => destruct b
         end;
  norm; rewrite ?app_nil_r; reflexivity.

Lemma track_fields w calls request got size :
  track w = (calls, request, got, size) →
  World.client_calls w = calls
  ∧ Context.url_request_ (World.ctx w) = request
  ∧ Context.got_upload_progress_complete_ (World.ctx w) = got
  ∧ Context.upload_data_size_ (World.ctx w) = size.
Proof. unfold track. intros [= -> -> -> ->]. done. Qed.

Lemma upload_notice_track w w' :
  track w' = track w → upload_notice w' = upload_notice w.
Proof.
  unfold track, upload_notice. intros [= _ -> -> ->]. reflexivity.
Qed.

Lemma track_cleaned map_ w :
  track (cleaned map_ w)
  = (World.client_calls w, None,
     Context.got_upload_progress_complete_ (World.ctx w),
     Context.upload_data_size_ (World.ctx w)).
Proof. unfold cleaned. track_tac w. Qed.

Lemma track_called call w :
  track (called call w)
  = (World.client_calls w ++ [call], Context.url_request_ (World.ctx w),
     Context.got_upload_progress_complete_ (World.ctx w),
     Context.upload_data_size_ (World.ctx w)).
Proof. track_tac w. Qed.

Lemma track_notified w :
  track (notified w)
  = (World.client_calls w ++ upload_notice w,
     Context.url_request_ (World.ctx w),
     Context.got_upload_progress_complete_ (World.ctx w)
     || (Context.upload_data_size_ (World.ctx w) >? 0),
     Context.upload_data_size_ (World.ctx w)).
Proof. unfold notified, upload_notice, track. open_world w. reflexivity. Qed.

Lemma upload_notice_notified w : upload_notice (notified w) = [].
Proof.
  unfold notified, upload_notice. open_world w. norm.
  destruct got_upload_progress_complete_, (upload_data_size_ >? 0);
    reflexivity.
Qed.

Lemma track_finalized success loader w :
  track (finalized success loader w) = track w.
Proof. unfold finalized. track_tac w. Qed.

Lemma track_with_result result w : track (with_result result w) = track w.
Proof. unfold with_result. track_tac w. Qed.

Lemma track_response_stored url headers w :
  track (response_stored url headers w) = track w.
Proof. unfold response_stored. track_tac w. Qed.

Lemma track_response_started final_url response_head w :
  track (response_started final_url response_head w) = track w.
Proof. unfold response_started, response_stored. track_tac w. Qed.

Lemma track_retried w : track (retried w) = track w.
Proof. unfold retried. track_tac w. Qed.

Lemma track_received string_piece w :
  track (received string_piece w)
  = (World.client_calls w
     ++ [CallOnDownloadData (Context.url_request_ (World.ctx w)) string_piece],
     Context.url_request_ (World.ctx w),
     Context.got_upload_progress_complete_ (World.ctx w),
     Context.upload_data_size_ (World.ctx w)).
Proof. unfold received. track_tac w. Qed.

Lemma track_progressed current w :
  track (progressed current w)
  = if CefResponseImpl.GetStatus (Context.response_ (World.ctx w)) =? 0
    then track w
    else (World.client_calls w ++ upload_notice w
          ++ [CallOnDownloadProgress (Context.url_request_ (World.ctx w))
                (to_int64 current)
                (Context.download_data_size_ (World.ctx w))],
          Context.url_request_ (World.ctx w),
          Context.got_upload_progress_complete_ (World.ctx w)
          || (Context.upload_data_size_ (World.ctx w) >? 0),
          Context.upload_data_size_ (World.ctx w)).
Proof.
  unfold progressed.
  destruct (CefResponseImpl.GetStatus _ =? 0); [reflexivity|].
  rewrite track_called, app_assoc.
  destruct (track_fields _ _ _ _ _ (track_notified w))
    as (-> & -> & -> & ->).
  unfold notified. open_world w. reflexivity.
Qed.

Lemma track_canceled map_ w :
  track (canceled map_ w)
  = (World.client_calls w
     ++ [CallOnRequestComplete (Context.url_request_ (World.ctx w))],
     None, Context.got_upload_progress_complete_ (World.ctx w),
     Context.upload_data_size_ (World.ctx w)).
Proof. unfold canceled, cleaned. track_tac w. Qed.

Lemma track_completed success loader map_ w :
  track (completed success loader map_ w)
  = (World.client_calls w
     ++ (if success then upload_notice w else [])
     ++ [CallOnRequestComplete (Context.url_request_ (World.ctx w))],
     None,
     if success
     then Context.got_upload_progress_complete_ (World.ctx w)
          || (Context.upload_data_size_ (World.ctx w) >? 0)
     else Context.got_upload_progress_complete_ (World.ctx w),
     Context.upload_data_size_ (World.ctx w)).
Proof.
  unfold completed. cbv zeta. rewrite track_cleaned.
  pose proof (track_finalized success loader w) as Hf.
  set (w1 := finalized success loader w) in *.
  destruct success.
  - destruct (track_fields _ _ _ _ _ (track_notified w1)) as (Hc & Hu & Hg & Hs).
    rewrite (upload_notice_track w w1 Hf) in Hc.
    destruct (track_fields _ _ _ _ _ Hf) as (Hc1 & Hu1 & Hg1 & Hs1).
    rewrite Hc1, Hu1, Hg1, Hs1 in *.
    destruct (track_fields _ _ _ _ _
                (track_called
                   (CallOnRequestComplete
                      (Context.url_request_ (World.ctx (notified w1))))
                   (notified w1))) as (-> & _ & -> & ->).
    rewrite Hc, Hu, Hg, Hs, app_assoc. reflexivity.
  - destruct (track_fields _ _ _ _ _ Hf) as (Hc1 & Hu1 & Hg1 & Hs1).
    destruct (track_fields _ _ _ _ _
                (track_called
                   (CallOnRequestComplete (Context.url_request_ (World.ctx w1)))
                   w1)) as (-> & _ & -> & ->).
    rewrite Hc1, Hu1, Hg1, Hs1. reflexivity.
Qed.

Lemma track_uploaded position total w :
  track (uploaded position total w)
  = (World.client_calls w
     ++ [CallOnUploadProgress (Context.url_request_ (World.ctx w))
           (to_int64 position) (to_int64 total)],
     Context.url_request_ (World.ctx w),
     (position =? total)
     || Context.got_upload_progress_complete_ (World.ctx w),
     to_int64 total).
Proof. unfold uploaded, track. open_world w. reflexivity. Qed.

(** [OnHeadersOnly] before it completes: the download-progress
    notification of a request that is not a HEAD. *)
Lemma track_headers_stored headers w :
  track (headers_stored headers w)
  = if negb (String.eqb
               (CefRequestImpl.GetMethod (Context.request_ (World.ctx w)))
               "HEAD")
       && negb (HttpResponseHeaders.response_code headers =? 0)
    then (World.client_calls w ++ upload_notice w
          ++ [CallOnDownloadProgress (Context.url_request_ (World.ctx w)) 0
                (HttpResponseHeaders.content_length headers)],
          Context.url_request_ (World.ctx w),
          Context.got_upload_progress_complete_ (World.ctx w)
          || (Context.upload_data_size_ (World.ctx w) >? 0),
          Context.upload_data_size_ (World.ctx w))
    else track w.
Proof.
  unfold headers_stored. cbv zeta.
  set (w1 := upd_response (CefResponseImpl.SetReadOnly true)
               (upd_response (CefResponseImpl.SetResponseHeaders headers)
                  (upd_response (CefResponseImpl.SetReadOnly false) w))).
  assert (Hrq : Context.request_ (World.ctx w1) = Context.request_ (World.ctx w))
    by (unfold w1; open_world w; reflexivity).
  assert (Ht1 : track w1 = track w) by (unfold w1; track_tac w).
  assert (Hcode : CefResponseImpl.GetStatus (Context.response_ (World.ctx w1))
                  = HttpResponseHeaders.response_code headers).
  { unfold w1. open_world w. destruct response_. reflexivity. }
  rewrite Hrq.
  destruct (String.eqb _ "HEAD"); cbn [negb andb].
  - rewrite <- Ht1. clearbody w1. track_tac w1.
  - set (w2 := World.upd_ctx
                 (Context.set_download_data_size_
                    (HttpResponseHeaders.content_length headers)) w1).
    assert (Ht2 : track w2 = track w1) by (unfold w2; clearbody w1; track_tac w1).
    assert (Hcode2 : CefResponseImpl.GetStatus
                       (Context.response_ (World.ctx w2))
                     = HttpResponseHeaders.response_code headers).
    { rewrite <- Hcode. unfold w2. clearbody w1. open_world w1. reflexivity. }
    assert (Hdl : Context.download_data_size_ (World.ctx w2)
                  = HttpResponseHeaders.content_length headers).
    { unfold w2. clearbody w1. open_world w1. reflexivity. }
    pose proof (track_progressed 0 w2) as Hp.
    rewrite Hcode2, Hdl in Hp.
    rewrite (upload_notice_track w w2) in Hp by congruence.
    rewrite Ht2, Ht1 in Hp.
    destruct (track_fields _ _ _ _ _ (eq_trans Ht2 Ht1))
      as (Hc2 & Hu2 & Hg2 & Hs2).
    unfold track in Ht1, Ht2.
    rewrite Hc2, Hu2, Hg2, Hs2 in Hp.
    transitivity (track (progressed 0 w2)).
    + clearbody w2. generalize (progressed 0 w2). intros w3. track_tac w3.
    + rewrite Hp. destruct (HttpResponseHeaders.response_code headers =? 0);
        reflexivity.
Qed.

Lemma calls_effect e w :
  inv w → enabled e w = true →
  World.client_calls (effect e w) = World.client_calls w ++ emitted e w.
Proof.
  intros Hinv Hen. destruct e; cbn [effect emitted]; cbv zeta.
  - destruct (live w); [|by rewrite app_nil_r].
    by destruct (track_fields _ _ _ _ _ (track_canceled (removed w) w))
      as (-> & _).
  - rewrite app_nil_r. destruct (World.ui_tasks w) as [|task rest]; [done|].
    unfold GetURLLoaderFactoryGetterOnUIThread, MakeRequestID.
    destruct (ui_frame task), rfh; open_world w; reflexivity.
  - destruct (World.originating_tasks w) as [|task rest];
      [by rewrite app_nil_r|].
    destruct (obs_set_originating rest w) as [_ ->].
    assert (Ht0 : track (World.set_originating_tasks rest w) = track w)
      by (unfold track; open_world w; reflexivity).
    destruct (track_fields _ _ _ _ _ Ht0) as (Hc0 & Hu0 & _).
    destruct (live w); cbn [andb]; [|by rewrite app_nil_r].
    destruct (ct_loader_factory_getter task); cbn [non_null negb].
    + rewrite app_nil_r, <- Hc0. unfold continued.
      generalize (World.set_originating_tasks rest w). intros w0.
      open_world w0. reflexivity.
    + destruct (track_fields _ _ _ _ _
                  (track_canceled
                     (removed (World.set_originating_tasks rest w))
                     (World.set_originating_tasks rest w))) as (-> & _).
      by rewrite Hc0, Hu0.
  - simpl in Hen. apply loader_has_Some in Hen as (l & Hld & _).
    rewrite loader_with_result, Hld.
    change (_ <$> Some l) with (Some (SimpleURLLoader.set_result result l)).
    cbv beta iota. unfold headers_completed.
    pose proof (track_with_result result w) as Hw.
    set (w0 := with_result result w) in *.
    assert (Hrq : Context.request_ (World.ctx w0) = Context.request_ (World.ctx w))
      by (unfold w0, with_result; open_world w; reflexivity).
    pose proof (track_headers_stored (pointee headers) w0) as Hh. rewrite Hrq in Hh.
    rewrite (upload_notice_track w w0 Hw) in Hh.
    destruct (track_fields _ _ _ _ _ Hw) as (Hc0 & Hu0 & Hg0 & Hs0).
    rewrite Hc0, Hu0, Hg0, Hs0 in Hh.
    destruct (track_fields _ _ _ _ _
                (track_completed true (SimpleURLLoader.set_result result l)
                   (removed w0) (headers_stored (pointee headers) w0))) as (-> & _).
    destruct (negb (String.eqb _ "HEAD")
              && negb (HttpResponseHeaders.response_code (pointee headers) =? 0)).
    + destruct (track_fields _ _ _ _ _ Hh) as (-> & -> & Hg & Hs).
      assert (Hn : upload_notice (headers_stored (pointee headers) w0) = []).
      { unfold upload_notice. rewrite Hg, Hs.
        destruct (Context.got_upload_progress_complete_ (World.ctx w)),
          (Context.upload_data_size_ (World.ctx w) >? 0); reflexivity. }
      rewrite Hn. by rewrite <- !app_assoc.
    + rewrite (upload_notice_track w (headers_stored (pointee headers) w0) Hh).
      destruct (track_fields _ _ _ _ _ Hh) as (-> & -> & _).
      reflexivity.
  - pose proof (inv_loader_live w Hinv) as Hl.
    simpl in Hen. apply loader_has_Some in Hen as (l & Hld & _).
    rewrite Hl by (by rewrite Hld). unfold redirected.
    destruct (track_fields _ _ _ _ _
                (track_canceled (removed w)
                   (response_stored (RedirectInfo.new_url redirect_info)
                      (pointee (URLResponseHead.headers response_head)) w)))
      as (-> & _).
    by destruct (track_fields _ _ _ _ _
                   (track_response_stored
                      (RedirectInfo.new_url redirect_info)
                      (pointee (URLResponseHead.headers response_head)) w))
      as (-> & -> & _).
  - rewrite app_nil_r.
    by destruct (track_fields _ _ _ _ _
                   (track_response_started final_url response_head w))
      as (-> & _).
  - by destruct (track_fields _ _ _ _ _ (track_uploaded position total w))
      as (-> & _).
  - pose proof (track_progressed current w) as Hp.
    destruct (CefResponseImpl.GetStatus _ =? 0).
    + rewrite app_nil_r. by destruct (track_fields _ _ _ _ _ Hp) as (-> & _).
    + by destruct (track_fields _ _ _ _ _ Hp) as (-> & _).
  - by destruct (track_fields _ _ _ _ _ (track_received string_piece w))
      as (-> & _).
  - simpl in Hen. apply loader_has_Some in Hen as (l & Hld & _).
    rewrite loader_with_result, Hld.
    change (_ <$> Some l) with (Some (SimpleURLLoader.set_result result l)).
    cbv beta iota.
    pose proof (track_with_result result w) as Hw.
    destruct (track_fields _ _ _ _ _
                (track_completed success (SimpleURLLoader.set_result result l)
                   (removed (with_result result w)) (with_result result w)))
      as (-> & _).
    rewrite (upload_notice_track w _ Hw).
    by destruct (track_fields _ _ _ _ _ Hw) as (-> & -> & _).
  - rewrite app_nil_r.
    by destruct (track_fields _ _ _ _ _ (track_retried w)) as (-> & _).
Qed.

End Calls.

(** ** Induction along a run *)

Section RunInduction.
Context `{Platform}.
Implicit Types w : World.t.

Lemma run_invariant s (P : World.t → Prop) es w w' :
  (∀ e w, inv w → inv_cfg s w → P w → enabled e w = true → P (effect e w)) →
  inv w → inv_cfg s w → P w → run es w = Some w' → P w'.
Proof.
  intros Hstep. revert w.
  induction es as [|e es IH]; intros w Hinv Hcfg HP Hrun; simpl in Hrun.
  - by injection Hrun as <-.
  - destruct (run_cons e es w w' Hinv Hrun)
      as (Hen & Hnf & Hh & Hinv1 & Hrun1).
    clear Hrun. rename Hrun1 into Hrun.
    apply (IH (effect e w)); auto using effect_cfg.
Qed.

(** After teardown nothing is observed to change. *)
Lemma run_dead es w w' :
  inv w → live w = false → run es w = Some w' →
  live w' = false ∧ obs w' = obs w
  ∧ World.client_calls w' = World.client_calls w
  ∧ World.g_manager w' = World.g_manager w.
Proof.
  revert w. induction es as [|e es IH]; intros w Hinv Hl Hrun; simpl in Hrun.
  - by injection Hrun as <-.
  - destruct (run_cons e es w w' Hinv Hrun)
      as (Hen & Hnf & Hh & Hinv1 & Hrun1).
    clear Hrun. rename Hrun1 into Hrun.
    destruct (effect_done e w Hinv Hl Hen) as (Ho & Hc & Hm & Hd).
    destruct (IH _ Hinv1 Hd Hrun) as (Hd' & Ho' & Hc' & Hm').
    repeat split; congruence.
Qed.

Lemma count_app p (l l' : list ClientCall) :
  List.length (List.filter p (l ++ l'))
  = (List.length (List.filter p l) + List.length (List.filter p l'))%nat.
Proof. by rewrite List.filter_app, length_app. Qed.

Lemma count_effect p e w :
  inv w → enabled e w = true →
  count_calls p (effect e w)
  = (count_calls p w + List.length (List.filter p (emitted e w)))%nat.
Proof.
  intros Hinv Hen. unfold count_calls.
  by rewrite (calls_effect e w Hinv Hen), count_app.
Qed.

(** How the continuation starts the loader, read off the descriptor. *)
Lemma configured_download rf id s :
  let loader := configured_loader rf id (descriptor s) in
  let only :=
    headers_only (CefRequestImpl.GetFlags (s_request s)) (effective_method s) in
  SimpleURLLoader.download loader
    = Some (if only then HeadersOnly else AsStream)
  ∧ SimpleURLLoader.on_download_progress_callback loader = negb only
  ∧ SimpleURLLoader.on_response_started_callback loader = negb only
  ∧ SimpleURLLoader.on_upload_progress_callback loader
    = has_flag (CefRequestImpl.GetFlags (s_request s))
        UR_FLAG_REPORT_UPLOAD_PROGRESS.
Proof.
  unfold configured_loader, configure, descriptor, effective_method.
  destruct (s_request s). simpl.
  destruct (headers_only _ _); simpl; rewrite ?orb_false_r; done.
Qed.

Lemma cfg_method s w loader :
  inv_cfg s w → Context.loader_ (World.ctx w) = Some loader →
  CefRequestImpl.GetMethod (Context.request_ (World.ctx w))
  = effective_method s.
Proof.
  intros Hcfg Hld. destruct (cfg_after s w Hcfg loader Hld) as (-> & _).
  unfold fixed_descriptor, effective_method, fixed_method, descriptor.
  destruct (s_request s). simpl. destruct postdata_; [|reflexivity].
  destruct (String.eqb method_ "GET" || String.eqb method_ "HEAD");
    reflexivity.
Qed.

(** A headers-only request never delivers data, nor download progress
    while it is live. *)
Lemma headers_only_quiet s es w :
  setup_ok s →
  headers_only (CefRequestImpl.GetFlags (s_request s)) (effective_method s)
    = true →
  run es (started s) = Some w →
  count_calls is_download_data w = 0%nat
  ∧ (live w = true → count_calls is_download_progress w = 0%nat).
Proof.
  intros Hs Honly.
  apply (run_invariant s
           (fun w => count_calls is_download_data w = 0%nat
                     ∧ (live w = true →
                        count_calls is_download_progress w = 0%nat)));
    [| by apply inv_started | apply inv_cfg_started
     | unfold started, Start; destruct (gurl_is_valid _); done].
  clear es w. intros e w Hinv Hcfg [Hdd Hdp] Hen.
  destruct (live w) eqn:Hl.
  2: { destruct (effect_done e w Hinv Hl Hen) as (_ & Hc & _ & Hd).
       unfold count_calls in *. rewrite Hc, Hd. split; [done | discriminate]. }
  specialize (Hdp eq_refl).
  assert (Hmode : ∀ l, Context.loader_ (World.ctx w) = Some l →
            downloads AsStream l = false
            ∧ SimpleURLLoader.on_download_progress_callback l = false).
  { intros l Hld. destruct (cfg_after s w Hcfg l Hld) as (_ & rf & id & ->).
    destruct (configured_download rf id s) as (Hd & Hp & _).
    unfold downloads. rewrite Hd, Hp, Honly. done. }
  rewrite !(count_effect _ e w Hinv Hen), Hdd, Hdp.
  destruct e; cbn [emitted]; cbv zeta;
    try (simpl in Hen; apply loader_has_Some in Hen as (l & Hld & Hp);
         destruct (Hmode l Hld) as [Hm1 Hm2]; congruence).
  - rewrite Hl. done.
  - done.
  - destruct (World.originating_tasks w); [done|].
    destruct (live w && _); done.
  - split.
    + rewrite !List.filter_app, !length_app. unfold upload_notice.
      destruct (negb _ && (_ >? 0)), (negb _ && negb _); reflexivity.
    + intros Habs. simpl in Hen.
      apply loader_has_Some in Hen as (l & Hld & _).
      cbn [effect] in Habs. cbv zeta in Habs.
      rewrite loader_with_result, Hld in Habs. simpl in Habs.
      unfold headers_completed in Habs. rewrite live_completed in Habs.
      discriminate.
  - rewrite Hl. done.
  - done.
  - done.
Qed.

End RunInduction.

(** ** The synthesized upload notification *)

Section UploadNotice.
Context `{Platform}.
Implicit Types w : World.t.

Lemma run_invariant_on s (Q : Event → Prop) (P : World.t → Prop) es w w' :
  (∀ e w, Q e → inv w → inv_cfg s w → P w → enabled e w = true →
          P (effect e w)) →
  Forall Q es → inv w → inv_cfg s w → P w → run es w = Some w' → P w'.
Proof.
  intros Hstep. revert w.
  induction es as [|e es IH]; intros w HQ Hinv Hcfg HP Hrun; simpl in Hrun.
  - by injection Hrun as <-.
  - destruct (run_cons e es w w' Hinv Hrun)
      as (Hen & Hnf & Hh & Hinv1 & Hrun1).
    clear Hrun. rename Hrun1 into Hrun. inversion HQ; subst.
    apply (IH (effect e w)); auto using effect_cfg.
Qed.

Lemma upload_phase_from_app n p calls calls' :
  upload_phase_from n p (calls ++ calls')
  = upload_phase_from n (upload_phase_from n p calls) calls'.
Proof. apply fold_left_app. Qed.

Lemma int64_of_size offset length :
  0 <= offset <= length → length < 2 ^ 63 →
  to_int64 (to_uint64 (length - offset)) = length - offset.
Proof.
  intros Ho Hl. unfold to_int64, to_uint64.
  rewrite (Z.mod_small (length - offset)) by lia.
  rewrite Z.mod_small; lia.
Qed.

(** The calls of a completed phase, spelled out. *)
Lemma from_unexpected n calls :
  upload_phase_from n Unexpected calls = Unexpected.
Proof. induction calls as [|c calls IH]; [done|]. by destruct c. Qed.

Lemma from_completed n calls :
  upload_phase_from n Completed calls = Completed → calls = [].
Proof.
  destruct calls as [|c calls]; [done|]. simpl.
  replace (upload_phase_step n Completed c) with Unexpected by (by destruct c).
  fold (upload_phase_from n Unexpected calls). by rewrite from_unexpected.
Qed.

Lemma from_notified n calls :
  upload_phase_from n Notified calls = Completed →
  ∃ between request,
    calls = between ++ [CallOnRequestComplete request]
    ∧ Forall (fun c => is_download_progress c || is_download_data c = true)
        between.
Proof.
  induction calls as [|c calls IH]; [discriminate|]. simpl.
  fold (upload_phase_from n (upload_phase_step n Notified c) calls).
  destruct c; simpl.
  - intros Hc. apply from_completed in Hc as ->.
    exists [], request. split; [done | constructor].
  - rewrite from_unexpected. discriminate.
  - intros (between & r & -> & Hb)%IH.
    exists (CallOnDownloadProgress request current total :: between), r.
    split; [done | by constructor].
  - intros (between & r & -> & Hb)%IH.
    exists (CallOnDownloadData request data :: between), r.
    split; [done | by constructor].
Qed.

Lemma from_just_notified n calls :
  upload_phase_from n JustNotified calls = Completed →
  ∃ between request,
    calls = between ++ [CallOnRequestComplete request]
    ∧ Forall (fun c => is_download_progress c || is_download_data c = true)
        between
    ∧ match between with
      | [] => True
      | c :: _ => is_download_progress c = true
      end.
Proof.
  destruct calls as [|c calls]; [discriminate|]. simpl.
  fold (upload_phase_from n (upload_phase_step n JustNotified c) calls).
  destruct c; simpl.
  - intros Hc. apply from_completed in Hc as ->.
    exists [], request. split; [done|]. split; [constructor | done].
  - rewrite from_unexpected. discriminate.
  - intros (between & r & -> & Hb)%from_notified.
    exists (CallOnDownloadProgress request current total :: between), r.
    split; [done|]. split; [by constructor | done].
  - rewrite from_unexpected. discriminate.
Qed.

Lemma from_not_notified n calls :
  upload_phase_from n NotNotified calls = Completed →
  ∃ before request between request',
    calls = before ++ [CallOnUploadProgress request n n] ++ between
            ++ [CallOnRequestComplete request']
    ∧ Forall (fun c => is_download_data c = true) before
    ∧ Forall (fun c => is_download_progress c || is_download_data c = true)
        between
    ∧ match between with
      | [] => True
      | c :: _ => is_download_progress c = true
      end.
Proof.
  induction calls as [|c calls IH]; [discriminate|]. simpl.
  fold (upload_phase_from n (upload_phase_step n NotNotified c) calls).
  destruct c; simpl.
  - rewrite from_unexpected. discriminate.
  - destruct ((current =? n) && (total =? n)) eqn:Hn;
      [|rewrite from_unexpected; discriminate].
    apply andb_true_iff in Hn as [->%Z.eqb_eq ->%Z.eqb_eq].
    intros (between & r & -> & Hb & Hhead)%from_just_notified.
    exists [], request, between, r. split; [done|]. split; [constructor|done].
  - rewrite from_unexpected. discriminate.
  - intros (before & r & between & r' & -> & Hbefore & Hb & Hhead)%IH.
    exists (CallOnDownloadData request data :: before), r, between, r'.
    split; [done|]. split; [by constructor | done].
Qed.

Lemma dead_no_loader w :
  inv w → live w = false → Context.loader_ (World.ctx w) = None.
Proof.
  intros Hinv Hl. destruct (Context.loader_ (World.ctx w)) eqn:E; [|done].
  rewrite (inv_loader_live w Hinv) in Hl; [discriminate | by rewrite E].
Qed.

Lemma status_canceled map_ w : status (canceled map_ w) = UR_CANCELED.
Proof. by destruct (obs_fields _ _ _ _ _ (obs_canceled map_ w)) as (-> & _). Qed.

Lemma status_completed success loader map_ w :
  status (completed success loader map_ w)
  = if success then UR_SUCCESS else UR_FAILED.
Proof.
  by destruct (obs_fields _ _ _ _ _ (obs_completed success loader map_ w))
    as (-> & _).
Qed.

Lemma track_continued rf id g w :
  track (continued rf id g w)
  = (World.client_calls w, Context.url_request_ (World.ctx w),
     Context.got_upload_progress_complete_ (World.ctx w),
     body_upload_size
       (CefRequestImpl.GetFlags (Context.request_ (World.ctx w)))
       (CefRequestImpl.postdata_ (Context.request_ (World.ctx w)))
       (Context.upload_data_size_ (World.ctx w))).
Proof. unfold continued, track. open_world w. reflexivity. Qed.

Lemma track_ui_task rfh w :
  track (effect (EvUiTask rfh) w) = track w
  ∧ Context.loader_ (World.ctx (effect (EvUiTask rfh) w))
    = Context.loader_ (World.ctx w)
  ∧ live (effect (EvUiTask rfh) w) = live w.
Proof.
  cbn [effect]. destruct (World.ui_tasks w) as [|task rest]; [done|].
  unfold GetURLLoaderFactoryGetterOnUIThread, MakeRequestID, track, live.
  destruct (ui_frame task), rfh; open_world w; done.
Qed.

(** The phase of the calls after the synthesized notification, if it is
    due, and what follows it. *)
Lemma phase_notice n request (got : bool) calls :
  0 < n →
  upload_phase_from n (if got then Notified else NotNotified)
    ((if negb got && (n >? 0) then [CallOnUploadProgress request n n] else [])
     ++ calls)
  = upload_phase_from n (if got then Notified else JustNotified) calls.
Proof.
  intros Hn. assert (Hpos : (n >? 0) = true) by lia.
  rewrite Hpos. destruct got; simpl; [done|].
  by rewrite Z.eqb_refl.
Qed.

Lemma upload_tracked_step s element n e w :
  CefRequestImpl.postdata_ (s_request s) = Some [element] →
  DataElement.type element = kBytes →
  has_flag (CefRequestImpl.GetFlags (s_request s))
    UR_FLAG_REPORT_UPLOAD_PROGRESS = true →
  to_int64 (bytes_size element) = n → 0 < n →
  is_upload_event e = false →
  inv w → inv_cfg s w → upload_tracked n w → enabled e w = true →
  upload_tracked n (effect e w).
Proof.
  intros Hbody Htype Hflag Hsize Hn Hq Hinv Hcfg [HP1 HP2] Hen.
  pose proof (effect_inv e w Hinv Hen) as Hinv'.
  destruct (live w) eqn:Hl.
  2: { destruct (effect_done e w Hinv Hl Hen) as (Ho & Hc & _ & Hd).
       split.
       - intros l Hld. by rewrite (dead_no_loader _ Hinv' Hd) in Hld.
       - intros _ Hs. rewrite Hc. apply HP2; [done|].
         destruct (obs_fields _ _ _ _ _ Ho) as (Hs' & _).
         unfold obs in Hs'. congruence. }
  assert (Hterminal : ∀ w',
            live w' = false → inv w' →
            (status w' = UR_SUCCESS →
             upload_phase_from n NotNotified (World.client_calls w')
             = Completed) →
            upload_tracked n w').
  { intros w' Hd Hi Hc. split; [|auto].
    intros l Hld. by rewrite (dead_no_loader _ Hi Hd) in Hld. }
  assert (Hsame : ∀ w',
            live w' = true → track w' = track w →
            Context.loader_ (World.ctx w') = Context.loader_ (World.ctx w) →
            upload_tracked n w').
  { intros w' Hl' Ht Hld'. destruct (track_fields _ _ _ _ _ Ht)
      as (Hc & _ & Hg & Hs).
    split; [|congruence]. intros l Hl0. rewrite Hld' in Hl0.
    rewrite Hc. unfold track in Ht. injection Ht as _ _ -> ->. eauto. }
  destruct (Context.loader_ (World.ctx w)) as [l|] eqn:Hld.
  - destruct (HP1 l eq_refl) as [Hsz Hphase].
    destruct (inv_tasks_done w Hinv) as [Hui Hor]; [by rewrite Hld|].
    pose proof (calls_effect e w Hinv Hen) as Hcalls.
    assert (Hnotice : upload_notice w
              = if negb (Context.got_upload_progress_complete_ (World.ctx w))
                   && (n >? 0)
                then [CallOnUploadProgress (Context.url_request_ (World.ctx w))
                        n n]
                else []) by (unfold upload_notice; by rewrite Hsz).
    destruct e; try discriminate Hq; cbn [effect emitted] in *;
      cbv zeta in *.
    + rewrite Hl. apply Hterminal; [apply live_canceled | by rewrite Hl in Hinv'|].
      rewrite status_canceled. discriminate.
    + simpl in Hen. by rewrite Hui in Hen.
    + simpl in Hen. by rewrite Hor in Hen.
    + rewrite loader_with_result, Hld in *.
      change (_ <$> Some l) with (Some (SimpleURLLoader.set_result result l))
        in *.
      cbv beta iota in *. apply Hterminal; [apply live_completed | done|].
      intros _. rewrite Hcalls, upload_phase_from_app, Hphase, Hnotice.
      rewrite phase_notice by done.
      destruct (Context.got_upload_progress_complete_ (World.ctx w)),
        (negb _ && negb _); reflexivity.
    + apply Hterminal; [apply live_canceled | done|].
      unfold redirected. rewrite status_canceled. discriminate.
    + apply Hsame.
      * destruct (same_core_response_started final_url response_head w)
          as (Hu & _). unfold live in *. by rewrite Hu.
      * apply track_response_started.
      * destruct (cfg_same_response_started final_url response_head w)
          as (_ & _ & E). by rewrite E.
    + destruct (same_core_progressed current w) as (Hu & _).
      destruct (cfg_same_progressed current w) as (_ & _ & Hld').
      pose proof (track_progressed current w) as Ht.
      destruct (CefResponseImpl.GetStatus _ =? 0).
      * apply Hsame; [unfold live in *; by rewrite Hu | done | congruence].
      * destruct (track_fields _ _ _ _ _ Ht) as (Hc & _ & Hg & Hs).
        split.
        -- intros l' _. rewrite Hs, Hg, Hc, Hsz. split; [done|].
           rewrite upload_phase_from_app, Hphase, Hnotice.
           rewrite phase_notice by done.
           assert (Hpos : (n >? 0) = true) by lia. rewrite Hpos, orb_true_r.
           by destruct (Context.got_upload_progress_complete_ (World.ctx w)).
        -- unfold live in *. rewrite Hu, Hl. discriminate.
    + destruct (same_core_received string_piece w) as (Hu & _).
      destruct (cfg_same_received string_piece w) as (_ & _ & Hld').
      destruct (track_fields _ _ _ _ _ (track_received string_piece w))
        as (Hc & _ & Hg & Hs).
      split.
      * intros l' _. rewrite Hs, Hg, Hc, Hsz. split; [done|].
        rewrite upload_phase_from_app, Hphase.
        by destruct (Context.got_upload_progress_complete_ (World.ctx w)).
      * unfold live in *. rewrite Hu, Hl. discriminate.
    + rewrite loader_with_result, Hld in *.
      change (_ <$> Some l) with (Some (SimpleURLLoader.set_result result l))
        in *.
      cbv beta iota in *. apply Hterminal; [apply live_completed | done|].
      rewrite status_completed. destruct success; [|discriminate].
      intros _. rewrite Hcalls, upload_phase_from_app, Hphase, Hnotice.
      rewrite phase_notice by done.
      by destruct (Context.got_upload_progress_complete_ (World.ctx w)).
    + apply Hsame.
      * destruct (same_core_retried w) as (Hu & _).
        unfold live in *. by rewrite Hu.
      * apply track_retried.
      * destruct (cfg_same_retried w) as (_ & _ & E). by rewrite E.
  - destruct (cfg_before s w Hcfg Hl Hld) as (Hrq & Hsz & Hgot & Hcc).
    destruct e; try discriminate Hq;
      try (simpl in Hen; unfold loader_has in Hen; rewrite Hld in Hen;
           discriminate Hen); cbn [effect] in *; cbv zeta in *.
    + rewrite Hl in *. apply Hterminal; [apply live_canceled | done|].
      rewrite status_canceled. discriminate.
    + destruct (track_ui_task rfh w) as (Ht & Hld' & Hl').
      cbn [effect] in Ht, Hld', Hl'.
      apply Hsame; [congruence | done | congruence].
    + destruct (World.originating_tasks w) as [|task rest];
        [by split; [intros l0; rewrite Hld|rewrite Hl]|].
      destruct (obs_set_originating rest w) as [_ Hl0].
      set (w0 := World.set_originating_tasks rest w) in *.
      assert (E0 : World.ctx w0 = World.ctx w) by (unfold w0; open_world w; done).
      assert (Hc0 : World.client_calls w0 = World.client_calls w)
        by (unfold w0; open_world w; done).
      rewrite Hl0, Hl in *.
      destruct (ct_loader_factory_getter task).
      * destruct (track_fields _ _ _ _ _
                    (track_continued (ct_render_frame_id task)
                       (ct_request_id task) t w0)) as (Hc & Hu & Hg & Hs).
        assert (Hval : body_upload_size
                         (CefRequestImpl.GetFlags (descriptor s))
                         (CefRequestImpl.postdata_ (descriptor s)) 0 = n).
        { unfold descriptor, body_upload_size, CefRequestImpl.GetFlags in *.
          destruct (s_request s). simpl in *.
          by rewrite Hbody, Htype, Hflag, Hsize. }
        rewrite E0, Hrq, Hsz, Hval in Hs. rewrite E0, Hgot in Hg.
        rewrite Hc0, Hcc in Hc.
        split.
        -- intros l' _. by rewrite Hs, Hg, Hc.
        -- assert (Hlc : live (continued (ct_render_frame_id task)
                                 (ct_request_id task) t w0) = true).
           { unfold live in *. rewrite Hu, E0. exact Hl. }
           rewrite Hlc. discriminate.
      * apply Hterminal; [apply live_canceled | done|].
        rewrite status_canceled. discriminate.
Qed.

Lemma upload_tracked_run s element n es w :
  setup_ok s →
  CefRequestImpl.postdata_ (s_request s) = Some [element] →
  DataElement.type element = kBytes →
  has_flag (CefRequestImpl.GetFlags (s_request s))
    UR_FLAG_REPORT_UPLOAD_PROGRESS = true →
  to_int64 (bytes_size element) = n → 0 < n →
  Forall (fun e => is_upload_event e = false) es →
  run es (started s) = Some w →
  upload_tracked n w.
Proof.
  intros Hs Hbody Htype Hflag Hsize Hn Hq.
  apply (run_invariant_on s (fun e => is_upload_event e = false));
    [ | exact Hq | by apply inv_started | apply inv_cfg_started | ].
  - intros e w0 He. by apply (upload_tracked_step s element).
  - unfold started, Start. destruct (gurl_is_valid _); split; simpl;
      intros; discriminate.
Qed.

End UploadNotice.

Lemma length_substring (a b : nat) (s : string) :
  (a + b <= String.length s)%nat → String.length (substring a b s) = b.
Proof.
  revert a b. induction s as [|c s IH]; intros a b Hle; simpl in *.
  - assert (a = 0%nat ∧ b = 0%nat) as [-> ->] by lia. reflexivity.
  - destruct a as [|a]; destruct b as [|b]; simpl; try reflexivity.
    + f_equal. apply IH. lia.
    + apply IH. lia.
    + apply IH. lia.
Qed.

Lemma count_filter_none (p q : ClientCall → bool) (l : list ClientCall) :
  (∀ c, q c = true → p c = false) → Forall (fun c => q c = true) l →
  List.filter p l = [].
Proof.
  intros Hpq Hl. induction Hl as [|c l Hc Hl IH]; [done|].
  simpl. by rewrite (Hpq c Hc).
Qed.

(** * The claims *)

(** C1, refuted as stated: a request that is canceled leaves PENDING
    without the completion path ever writing the final URL, the error code
    and the cached flag; [OnComplete] finds the status already CANCELED and
    skips its finalization block. *)
Lemma C1_cancel_is_not_finalized : ¬ finalized_at_every_exit.
Proof.
  intros Hclaim.
  set (s := plain_get).
  set (es := [EvUiTask None; EvContinue; EvCancel]).
  assert (Hrun : ∃ w, run (H := example_platform) es
                        (started (H := example_platform) s) = Some w
                      ∧ status w = UR_CANCELED
                      ∧ World.finalize_count w = 0%nat).
  { eexists. split; [vm_compute; reflexivity|]. split; reflexivity. }
  destruct Hrun as (w & Hrun & Hs & Hf).
  pose proof (Hclaim example_platform s es w (example_setup_ok _) Hrun) as Hc.
  rewrite Hs, Hf in Hc. assert (0%nat = 1%nat) by (apply Hc; discriminate).
  discriminate.
Qed.

(** C1, as amended.  Along every run of a request, a possible event that
    brings no null pointer is handled, and whenever the handler of a
    possible event returns:
    - once the status has left PENDING, nothing observed changes any more:
      status, response record, cached flag and number of finalizations stay;
    - while PENDING, an event that does not end the request leaves the
      status PENDING, the error code and the cached flag as they are, and
      the URL too unless the event is a response that starts, which brings
      its final URL;
    - while PENDING, a completion callback of the transport takes the
      status to SUCCESS or FAILED, and the final URL, error code and cached
      flag are written, this once, with what the transport reports;
    - while PENDING, any other event that ends the request (the caller's
      cancel, a stopped redirect, a continuation without loader factory)
      takes the status to CANCELED, and the completion path writes nothing:
      the error code is ABORTED, set by [Cancel], the cached flag is
      unchanged, and the URL is unchanged unless the event is a redirect,
      which has written its target before it cancels. *)
Theorem C1_status_leaves_pending_once `{Platform}
    (s : Setup) (es : list Event) (w : World.t) (e : Event) :
  setup_ok s → run es (started s) = Some w → enabled e w = true →
  (null_free e = true → ∃ w', handle e w = Ok w')
  ∧ ∀ w', handle e w = Ok w' →
      (status w ≠ UR_IO_PENDING → terminal (status w) ∧ obs w' = obs w)
      ∧ (status w = UR_IO_PENDING →
           (ends_request e w = false
            ∧ status w' = UR_IO_PENDING
            ∧ World.finalize_count w' = 0%nat
            ∧ CefResponseImpl.url_ (response w')
              = default (CefResponseImpl.url_ (response w)) (event_url e)
            ∧ CefResponseImpl.error_code_ (response w')
              = CefResponseImpl.error_code_ (response w)
            ∧ response_was_cached w' = response_was_cached w)
         ∨ (∃ success result,
              event_result e = Some (success, result)
              ∧ status w' = (if success then UR_SUCCESS else UR_FAILED)
              ∧ World.finalize_count w' = 1%nat
              ∧ CefResponseImpl.url_ (response w')
                = TransportResult.final_url result
              ∧ CefResponseImpl.error_code_ (response w')
                = TransportResult.net_error result
              ∧ response_was_cached w'
                = TransportResult.loaded_from_cache result)
         ∨ (ends_request e w = true
            ∧ event_result e = None
            ∧ status w' = UR_CANCELED
            ∧ World.finalize_count w' = 0%nat
            ∧ CefResponseImpl.url_ (response w')
              = default (CefResponseImpl.url_ (response w)) (event_url e)
            ∧ CefResponseImpl.error_code_ (response w') = ERR_ABORTED
            ∧ response_was_cached w' = response_was_cached w)).
Proof.
  intros Hs Hrun Hen. pose proof (reach_inv s es w Hs Hrun) as Hinv.
  split.
  { intros Hnf. exists (effect e w). apply (handle_inv e w Hinv Hen Hnf). }
  intros w' Hh'.
  destruct (null_free e) eqn:Hnf;
    [|by rewrite (handle_null e w Hnf) in Hh'].
  destruct (handle_inv e w Hinv Hen Hnf) as [Hh Hinv'].
  rewrite Hh in Hh'. injection Hh' as <-. split.
  - intros Hne.
    assert (Hl : live w = false).
    { destruct (live w) eqn:E; [|done].
      by rewrite (inv_pending w Hinv E) in Hne. }
    split; [apply (inv_terminal w Hinv Hl)|].
    apply (effect_done e w Hinv Hl Hen).
  - intros Hp. pose proof (inv_finalize w Hinv) as Hf. rewrite Hp in Hf.
    destruct (effect_pending e w Hinv Hp Hen)
      as [(Ho & He & Hend) | [(url & headers & He & Hend & Ho)
         | [(success & result & r & He & Ho) | (r & Hr & Hend & He & Ho)]]].
    + left. rewrite He. unfold obs in Ho. injection Ho as -> -> -> ->. done.
    + left. rewrite He. apply obs_fields in Ho as (-> & -> & -> & ->).
      destruct (stored_response_fields url headers (response w))
        as (-> & _ & _ & ->). done.
    + right; left. exists success, result.
      apply obs_fields in Ho as (-> & -> & -> & ->).
      destruct (finalized_response_fields result r) as [-> ->]. done.
    + right; right. apply obs_fields in Ho as (-> & -> & -> & ->).
      destruct (aborted_response_fields r) as (-> & -> & _). done.
Qed.

(** C1, at work: a streaming request completes with success, and the same
    request, canceled instead, keeps the URL it had. *)
Lemma C1_status_leaves_pending_once_witness :
  setup_ok plain_get
  ∧ run (H := example_platform) [EvUiTask None; EvContinue]
      (started (H := example_platform) plain_get)
    = Some plain_get_streaming
  ∧ (∃ w',
       handle (H := example_platform)
         (EvComplete true (example_result "http://example.test/final"))
         plain_get_streaming
       = Ok w'
       ∧ status w' = UR_SUCCESS
       ∧ CefResponseImpl.url_ (response w') = "http://example.test/final"%string
       ∧ response_was_cached w' = true)
  ∧ (∃ w',
       handle (H := example_platform) EvCancel plain_get_streaming = Ok w'
       ∧ status w' = UR_CANCELED
       ∧ CefResponseImpl.url_ (response w')
         = CefResponseImpl.url_ (response plain_get_streaming)
       ∧ CefResponseImpl.error_code_ (response w') = ERR_ABORTED).
Proof.
  split; [apply example_setup_ok|]. split; [vm_compute; reflexivity|]. split.
  - destruct (C1_status_leaves_pending_once (H := example_platform)
                plain_get [EvUiTask None; EvContinue] plain_get_streaming
                (EvComplete true (example_result "http://example.test/final"))
                (example_setup_ok _) ltac:(vm_compute; reflexivity)
                ltac:(vm_compute; reflexivity))
      as [Hex Hall].
    destruct (Hex eq_refl) as (w' & Hh). exists w'. split; [exact Hh|].
    destruct (Hall w' Hh) as [_ Hp].
    destruct (Hp ltac:(vm_compute; reflexivity))
      as [(Hend & _) | [(success & result & He & Hs & _ & Hu & _ & Hc)
         | (_ & He & _)]].
    + discriminate Hend.
    + injection He as <- <-. done.
    + discriminate He.
  - destruct (C1_status_leaves_pending_once (H := example_platform)
                plain_get [EvUiTask None; EvContinue] plain_get_streaming
                EvCancel
                (example_setup_ok _) ltac:(vm_compute; reflexivity)
                ltac:(vm_compute; reflexivity))
      as [Hex Hall].
    destruct (Hex eq_refl) as (w' & Hh). exists w'. split; [exact Hh|].
    destruct (Hall w' Hh) as [_ Hp].
    destruct (Hp ltac:(vm_compute; reflexivity))
      as [(Hend & _) | [(success & result & He & _)
         | (_ & _ & Hs & _ & Hu & He & _)]].
    + discriminate Hend.
    + discriminate He.
    + done.
Defined.


(** C5.  A request with a single byte-buffer body and method GET: the
    continuation returns, the method is POST on the transport request and
    on the descriptor, and the body is attached as a string upload, of
    content type "application/x-www-form-urlencoded" when the descriptor
    has no Content-Type header. *)
Theorem C5_get_with_bytes_body_becomes_post `{Platform}
    (render_frame_id request_id : Z) (getter : URLLoaderFactoryGetter.t)
    (w : World.t) (element : DataElement.t) :
  live w = true → status w = UR_IO_PENDING →
  request_id <= kInitialRequestID → World.g_manager w !! request_id = None →
  CefRequestImpl.postdata_ (Context.request_ (World.ctx w)) = Some [element] →
  DataElement.type element = kBytes →
  CefRequestImpl.GetMethod (Context.request_ (World.ctx w)) = "GET"%string →
  ∃ w' loader content_type,
    ContinueOnOriginatingThread render_frame_id request_id (Some getter) w
      = Ok w'
    ∧ Context.loader_ (World.ctx w') = Some loader
    ∧ ResourceRequest.method (SimpleURLLoader.resource_request loader)
      = "POST"%string
    ∧ CefRequestImpl.GetMethod (Context.request_ (World.ctx w')) = "POST"%string
    ∧ SimpleURLLoader.upload loader
      = Some (StringForUpload (bytes_data element) content_type)
    ∧ (GetHeader kContentType
         (CefRequestImpl.headermap_ (Context.request_ (World.ctx w))) = None →
       content_type = kContentTypeApplicationFormURLEncoded).
Proof.
  intros Hl Hs Hid Hfresh Hbody Htype Hmethod.
  exists (continued render_frame_id request_id getter w),
    (configured_loader render_frame_id request_id (Context.request_ (World.ctx w))),
    (bytes_content_type
       (header_content_type (Some [element])
          (CefRequestImpl.headermap_ (Context.request_ (World.ctx w))))).
  split; [by apply Continue_main|].
  unfold continued, configured_loader, configure, attach_upload, body_upload,
    transport_request, fixed_descriptor, fixed_method, header_content_type,
    bytes_content_type.
  open_world w. unfold CefRequestImpl.GetMethod in *. destruct request_.
  simpl in Hbody, Hmethod. subst. norm. rewrite Htype. simpl.
  split; [reflexivity|]. split; [reflexivity|]. split; [reflexivity|].
  split; [reflexivity|]. intros ->. reflexivity.
Qed.

(** C9.  A request with a body and method GET or HEAD: the continuation
    returns with the method POST on the transport request and on the
    descriptor whatever the body holds, the transport request carries no
    body of its own, and when the body is not a single file or byte-buffer
    element nothing is attached for upload. *)
Theorem C9_method_fixed_whatever_the_body `{Platform}
    (render_frame_id request_id : Z) (getter : URLLoaderFactoryGetter.t)
    (w : World.t) (elements : list DataElement.t) :
  live w = true → status w = UR_IO_PENDING →
  request_id <= kInitialRequestID → World.g_manager w !! request_id = None →
  CefRequestImpl.postdata_ (Context.request_ (World.ctx w)) = Some elements →
  CefRequestImpl.GetMethod (Context.request_ (World.ctx w)) = "GET"%string
  ∨ CefRequestImpl.GetMethod (Context.request_ (World.ctx w)) = "HEAD"%string →
  ∃ w' loader,
    ContinueOnOriginatingThread render_frame_id request_id (Some getter) w
      = Ok w'
    ∧ Context.loader_ (World.ctx w') = Some loader
    ∧ ResourceRequest.method (SimpleURLLoader.resource_request loader)
      = "POST"%string
    ∧ CefRequestImpl.GetMethod (Context.request_ (World.ctx w')) = "POST"%string
    ∧ ResourceRequest.request_body (SimpleURLLoader.resource_request loader)
      = None
    ∧ is_Some (SimpleURLLoader.download loader)
    ∧ ((∀ element, elements = [element] →
          DataElement.type element ≠ kFile
          ∧ DataElement.type element ≠ kBytes) →
       SimpleURLLoader.upload loader = None).
Proof.
  intros Hl Hs Hid Hfresh Hbody Hmethod.
  exists (continued render_frame_id request_id getter w),
    (configured_loader render_frame_id request_id (Context.request_ (World.ctx w))).
  split; [by apply Continue_main|].
  unfold continued, configured_loader, configure, attach_upload, body_upload,
    transport_request, fixed_descriptor, fixed_method.
  open_world w. unfold CefRequestImpl.GetMethod in *. destruct request_.
  simpl in Hbody, Hmethod. subst.
  destruct Hmethod as [-> | ->]; norm; simpl.
  all: split; [reflexivity|]; split; [reflexivity|]; split; [reflexivity|].
  all: split; [reflexivity|]; split; [eauto|].
  all: intros Hunsupported.
  all: destruct elements as [|element [|element' rest]]; try reflexivity.
  all: destruct (Hunsupported element eq_refl) as [Hfile Hbytes].
  all: destruct (DataElement.type element); try reflexivity; congruence.
Qed.

(** C7.  Along every run of a request, the loader calls back on a
    redirect exactly when the descriptor has the stop-on-redirect flag; and
    when it does, with the headers of the redirect response, the request is
    PENDING, the handler returns, the response record holds the URL of the
    redirect target and the headers of the redirect response, the status is
    CANCELED, the error is ABORTED, and the loader is gone, so that no
    callback of the transport is possible any more: the redirect is not
    followed. *)
Theorem C7_stop_on_redirect `{Platform}
    (s : Setup) (es : list Event) (w : World.t)
    (redirect_info : RedirectInfo.t) (response_head : URLResponseHead.t) :
  setup_ok s → run es (started s) = Some w →
  (∀ loader, Context.loader_ (World.ctx w) = Some loader →
     SimpleURLLoader.on_redirect_callback loader
     = has_flag (CefRequestImpl.GetFlags (s_request s)) UR_FLAG_STOP_ON_REDIRECT)
  ∧ (enabled (EvRedirect redirect_info response_head) w = true →
     status w = UR_IO_PENDING
     ∧ ∀ headers,
         URLResponseHead.headers response_head = Some headers →
         ∃ w',
           handle (EvRedirect redirect_info response_head) w = Ok w'
           ∧ CefResponseImpl.url_ (response w')
             = RedirectInfo.new_url redirect_info
           ∧ CefResponseImpl.header_map_ (response w')
             = HttpResponseHeaders.lines headers
           ∧ CefResponseImpl.status_code_ (response w')
             = HttpResponseHeaders.response_code headers
           ∧ status w' = UR_CANCELED
           ∧ CefResponseImpl.error_code_ (response w') = ERR_ABORTED
           ∧ Context.loader_ (World.ctx w') = None
           ∧ ∀ e, is_transport_event e = true → enabled e w' = false).
Proof.
  intros Hs Hrun. pose proof (reach_inv s es w Hs Hrun) as Hinv.
  pose proof (reach_cfg s es w Hs Hrun) as Hcfg. split.
  - intros loader Hld.
    destruct (cfg_after s w Hcfg loader Hld) as (_ & rf & id & ->).
    unfold configured_loader, configure, descriptor. destruct (s_request s).
    simpl. apply orb_false_r.
  - intros Hen.
    pose proof Hen as Hen'. simpl in Hen'.
    apply loader_has_Some in Hen' as (l & Hld & _).
    pose proof (inv_loader_live_facts w l Hinv Hld) as Hl.
    split; [apply (inv_pending w Hinv Hl)|].
    intros headers Hhd.
    assert (Hp : pointee (URLResponseHead.headers response_head) = headers)
      by (by rewrite Hhd).
    assert (Hnf : null_free (EvRedirect redirect_info response_head) = true)
      by (apply bool_decide_eq_true; by rewrite Hhd).
    destruct (handle_inv _ w Hinv Hen Hnf) as [Hh Hinv'].
    eexists. split; [exact Hh|].
    pose proof (obs_canceled (removed w)
                  (response_stored (RedirectInfo.new_url redirect_info)
                     headers w)) as Ho.
    rewrite <- Hp in Ho at 1.
    fold (redirected redirect_info response_head (removed w) w) in Ho.
    apply obs_fields in Ho as (Hst & Hr & _ & _).
    destruct (obs_fields _ _ _ _ _
                (obs_response_stored (RedirectInfo.new_url redirect_info)
                   headers w))
      as (_ & Hr' & _ & _).
    rewrite Hr' in Hr.
    destruct (aborted_response_fields
                (stored_response (RedirectInfo.new_url redirect_info)
                   headers (response w)))
      as (He & Hu & Hc & Hm).
    destruct (stored_response_fields (RedirectInfo.new_url redirect_info)
                headers (response w))
      as (Hu' & Hc' & Hm' & _).
    change (effect (EvRedirect redirect_info response_head) w)
      with (redirected redirect_info response_head (removed w) w) in *.
    split; [rewrite Hr, Hu; exact Hu'|].
    split; [rewrite Hr, Hm; exact Hm'|].
    split; [rewrite Hr, Hc; exact Hc'|].
    split; [exact Hst|].
    split; [rewrite Hr; exact He|].
    split.
    + unfold redirected, canceled, cleaned. open_world w. reflexivity.
    + intros e He'. apply dead_no_transport; [exact Hinv' | | exact He'].
      unfold redirected. apply live_canceled.
Qed.
(** C2, and where the code departs from it.  Along every run of a request
    the completion callback has been called once if the request is torn
    down and not at all if it is live.  Every possible event that brings no
    null pointer is handled without a crash; on a live request each
    terminal path (cancel, completion or headers from the transport,
    stopped redirect, continuation without a loader factory) tears the
    request down and leaves exactly one completion call, and every other
    event leaves it live.  A possible callback that brings a null header
    pointer finds the request live, without a completion call, and its
    handler stops at the pointer: the client is not called.  That is the
    way of a headers-only fetch without headers, whose loader has no other
    completion callback.  Once torn down, no event calls the client or
    touches the registry any more, and [Cancel] returns the world as it
    found it. *)
Theorem C2_completion_called_exactly_once `{Platform}
    (s : Setup) (es : list Event) (w : World.t) :
  setup_ok s → run es (started s) = Some w →
  count_calls is_complete w = (if live w then 0%nat else 1%nat)
  ∧ (∀ e, enabled e w = true → null_free e = true →
       ∃ w', handle e w = Ok w'
         ∧ (live w = true → ends_request e w = true →
            live w' = false ∧ count_calls is_complete w' = 1%nat)
         ∧ (live w = true → ends_request e w = false →
            live w' = true ∧ count_calls is_complete w' = 0%nat)
         ∧ (live w = false →
            live w' = false
            ∧ World.client_calls w' = World.client_calls w
            ∧ World.g_manager w' = World.g_manager w))
  ∧ (∀ e, enabled e w = true → null_free e = false →
       live w = true
       ∧ count_calls is_complete w = 0%nat
       ∧ handle e w = Crashed)
  ∧ (∀ headers result,
       enabled (EvHeadersOnly headers result) w = true →
       ∀ success result',
         enabled (EvComplete success result') w = false)
  ∧ (live w = false → Cancel w = Ok w).
Proof.
  intros Hs Hrun. pose proof (reach_inv s es w Hs Hrun) as Hinv.
  split; [apply (inv_complete w Hinv)|].
  split; [|split; [|split; [|apply Cancel_done]]].
  2: { intros e Hen Hnf.
       assert (Hl : live w = true).
       { destruct (live w) eqn:Hl; [done|].
         rewrite (dead_no_transport e w Hinv Hl) in Hen; [discriminate|].
         by destruct e. }
       split; [exact Hl|]. split; [|by apply handle_null].
       pose proof (inv_complete w Hinv) as Hc. by rewrite Hl in Hc. }
  2: { intros headers result Hen success result'. simpl in *.
       unfold loader_has, downloads in *.
       destruct (Context.loader_ (World.ctx w)) as [l|]; [|done].
       by destruct (SimpleURLLoader.download l) as [[]|]. }
  intros e Hen Hnf. destruct (handle_inv e w Hinv Hen Hnf) as [Hh Hinv'].
  exists (effect e w). split; [exact Hh|].
  pose proof (inv_complete _ Hinv') as Hcount.
  assert (Hlive : live w = true →
            live (effect e w) = negb (ends_request e w)).
  { intros Hl. destruct e; cbn [effect ends_request]; cbv zeta.
    - rewrite Hl. apply live_canceled.
    - destruct (World.ui_tasks w) as [|task rest]; [done|].
      unfold GetURLLoaderFactoryGetterOnUIThread, MakeRequestID, live in *.
      destruct (ui_frame task), rfh; revert Hl; open_world w; norm; done.
    - destruct (World.originating_tasks w) as [|task rest]; [done|].
      destruct (obs_set_originating rest w) as [_ ->]. rewrite Hl.
      destruct (ct_loader_factory_getter task); simpl.
      + unfold continued, live in *. revert Hl. open_world w. norm. done.
      + apply live_canceled.
    - simpl in Hen. apply loader_has_Some in Hen as (l & Hld & _).
      rewrite loader_with_result, Hld. simpl. apply live_completed.
    - apply live_canceled.
    - destruct (same_core_response_started final_url response_head w)
        as (Hu & _). unfold live in *. by rewrite Hu.
    - destruct (same_core_uploaded position total w) as (Hu & _).
      unfold live in *. by rewrite Hu.
    - destruct (same_core_progressed current w) as (Hu & _).
      unfold live in *. by rewrite Hu.
    - destruct (same_core_received string_piece w) as (Hu & _).
      unfold live in *. by rewrite Hu.
    - simpl in Hen. apply loader_has_Some in Hen as (l & Hld & _).
      rewrite loader_with_result, Hld. simpl. apply live_completed.
    - destruct (same_core_retried w) as (Hu & _).
      unfold live in *. by rewrite Hu. }
  split; [|split].
  - intros Hl He. rewrite (Hlive Hl), He in *. simpl in *. done.
  - intros Hl He. rewrite (Hlive Hl), He in *. simpl in *. done.
  - intros Hl. destruct (effect_done e w Hinv Hl Hen) as (_ & Hc & Hm & Hd).
    done.
Qed.

(** C6.  Along every run of a request, headers can arrive through the
    headers-only callback only if the descriptor has the no-download-data
    flag or the method is HEAD; and when they do, carrying a status code,
    the handler returns, the status is SUCCESS, the client has received no
    download data and exactly one completion call, which is the last call.
    Unless the method is HEAD the call before it is the only
    download-progress call, with current 0 and the content length of the
    headers as total; for HEAD there is no download-progress call.  Nothing
    is called afterwards. *)
Theorem C6_headers_only_fetch `{Platform}
    (s : Setup) (es : list Event) (w : World.t)
    (headers : HttpResponseHeaders.t) (result : TransportResult.t) :
  setup_ok s → run es (started s) = Some w →
  enabled (EvHeadersOnly (Some headers) result) w = true →
  HttpResponseHeaders.response_code headers ≠ 0 →
  headers_only (CefRequestImpl.GetFlags (s_request s)) (effective_method s)
    = true
  ∧ ∃ w',
      handle (EvHeadersOnly (Some headers) result) w = Ok w'
      ∧ status w' = UR_SUCCESS
      ∧ count_calls is_download_data w' = 0%nat
      ∧ count_calls is_complete w' = 1%nat
      ∧ (∃ earlier,
           World.client_calls w'
           = earlier
             ++ (if String.eqb (effective_method s) "HEAD" then []
                 else [CallOnDownloadProgress (Some (s_url_request s)) 0
                         (HttpResponseHeaders.content_length headers)])
             ++ [CallOnRequestComplete (Some (s_url_request s))]
           ∧ List.filter is_download_progress earlier = [])
      ∧ (∀ es' w'', run es' w' = Some w'' →
           World.client_calls w'' = World.client_calls w').
Proof.
  intros Hs Hrun Hen Hcode.
  pose proof (reach_inv s es w Hs Hrun) as Hinv.
  pose proof (reach_cfg s es w Hs Hrun) as Hcfg.
  destruct (handle_inv _ w Hinv Hen eq_refl) as [Hh Hinv'].
  pose proof Hen as Hen'. simpl in Hen'.
  apply loader_has_Some in Hen' as (l & Hld & Hmode).
  pose proof (inv_loader_live_facts w l Hinv Hld) as Hl.
  assert (Honly : headers_only (CefRequestImpl.GetFlags (s_request s))
                    (effective_method s) = true).
  { destruct (cfg_after s w Hcfg l Hld) as (_ & rf & id & ->).
    destruct (configured_download rf id s) as (Hd & _).
    unfold downloads in Hmode. rewrite Hd in Hmode.
    by destruct (headers_only _ _). }
  split; [exact Honly|].
  destruct (headers_only_quiet s es w Hs Honly Hrun) as [Hdd Hdp].
  specialize (Hdp Hl).
  assert (Hdead : live (effect (EvHeadersOnly (Some headers) result) w) = false).
  { cbn [effect pointee]. cbv zeta. rewrite loader_with_result, Hld.
    change (_ <$> Some l) with (Some (SimpleURLLoader.set_result result l)).
    cbv beta iota. unfold headers_completed. apply live_completed. }
  exists (effect (EvHeadersOnly (Some headers) result) w).
  split; [exact Hh|]. split; [|split; [|split; [|split]]].
  - cbn [effect pointee]. cbv zeta. rewrite loader_with_result, Hld.
    change (_ <$> Some l) with (Some (SimpleURLLoader.set_result result l)).
    cbv beta iota. unfold headers_completed.
    by destruct (obs_fields _ _ _ _ _
                   (obs_completed true (SimpleURLLoader.set_result result l)
                      (removed (with_result result w))
                      (headers_stored headers (with_result result w))))
      as (-> & _).
  - rewrite (count_effect _ _ w Hinv Hen), Hdd. cbn [emitted pointee]. cbv zeta.
    rewrite !List.filter_app, !length_app. unfold upload_notice.
    destruct (negb _ && (_ >? 0)), (negb _ && negb _); reflexivity.
  - pose proof (inv_complete _ Hinv') as Hc. by rewrite Hdead in Hc.
  - exists (World.client_calls w ++ upload_notice w).
    rewrite (calls_effect _ w Hinv Hen). cbn [emitted pointee]. cbv zeta.
    rewrite (cfg_method s w l Hcfg Hld), (cfg_handle s w Hcfg Hl).
    assert (Hnz : (HttpResponseHeaders.response_code headers =? 0) = false)
      by (by apply Z.eqb_neq).
    rewrite Hnz, andb_true_r. split.
    + rewrite <- app_assoc. by destruct (String.eqb _ "HEAD").
    + rewrite List.filter_app. unfold count_calls in Hdp.
      apply length_zero_iff_nil in Hdp. rewrite Hdp. unfold upload_notice.
      by destruct (negb _ && (_ >? 0)).
  - intros es' w'' Hrun'.
    by destruct (run_dead es' _ w'' Hinv' Hdead Hrun') as (_ & _ & -> & _).
Qed.

(** C3.  After any history of calls on the registry in which no assertion
    failed, an identifier at or below the boundary is found, with its
    entry, exactly when that entry was added and the identifier was not
    removed since; an identifier above the boundary is never found and its
    removal returns the table unchanged, whatever the table holds. *)
Theorem C3_registry_lookup
    (ops : list RequestManager.Op) (map_ : gmap Z RequestInfo) :
  RequestManager.run_ops ops ∅ = Ok map_ →
  (∀ id info, id <= kInitialRequestID →
     RequestManager.Get id map_ = Some info
     ↔ RequestManager.added_not_removed id info ops)
  ∧ (∀ id (any : gmap Z RequestInfo), kInitialRequestID < id →
       RequestManager.Get id any = None
       ∧ RequestManager.Remove id any = Ok any).
Proof.
  intros Hrun. split.
  - intros id info Hle. rewrite RegistryFacts.Get_low by exact Hle.
    by apply RegistryFacts.run_ops_lookup.
  - intros id any Hlt.
    split; [by apply RegistryFacts.Get_high | by apply RegistryFacts.Remove_high].
Qed.

(** C8.  When the URL of the descriptor is not valid, [Start] returns
    false and leaves the world as it was: the status is PENDING, no task is
    posted and the client has not been called.  From there no posted task
    can run and the transport cannot call back: the one thing possible is
    a call of the caller, who is to discard the handle.  So every run in
    which the caller makes no such call is empty: the status stays PENDING
    and no callback fires, ever. *)
Theorem C8_invalid_url_starts_nothing `{Platform} (s : Setup) :
  gurl_is_valid (CefRequestImpl.GetURL (s_request s)) = false →
  Start (initial s) = (false, initial s)
  ∧ status (initial s) = UR_IO_PENDING
  ∧ World.ui_tasks (initial s) = []
  ∧ World.originating_tasks (initial s) = []
  ∧ World.client_calls (initial s) = []
  ∧ (∀ e, e ≠ EvCancel → enabled e (started s) = false)
  ∧ (∀ es w, EvCancel ∉ es → run es (started s) = Some w →
       es = [] ∧ w = initial s).
Proof.
  intros Hurl.
  assert (Hstart : Start (initial s) = (false, initial s)).
  { apply Start_invalid. simpl. unfold CefRequestImpl.GetURL in *.
    by destruct (s_request s). }
  assert (Hstarted : started s = initial s) by (unfold started; by rewrite Hstart).
  assert (Hdis : ∀ e, e ≠ EvCancel → enabled e (started s) = false).
  { intros e He. rewrite Hstarted. by destruct e. }
  do 6 (split; [done|]).
  intros es w Hnone Hrun. destruct es as [|e es]; simpl in Hrun.
  - rewrite Hstarted in Hrun. by injection Hrun as <-.
  - rewrite Hdis in Hrun; [discriminate|].
    intros ->. apply Hnone. by left.
Qed.

(** C10.  Along every run, a request that is live and has no loader yet
    has its identifier field at 0, its initial value, which lies above the
    boundary; the removal of 0 returns any table unchanged, without
    reaching the assertion; and both ways of tearing such a request down,
    [Cancel] and the continuation that finds no loader factory, return,
    leave the registry as it was and the request torn down. *)
Theorem C10_teardown_before_registration `{Platform}
    (s : Setup) (es : list Event) (w : World.t) :
  setup_ok s → run es (started s) = Some w →
  live w = true → Context.loader_ (World.ctx w) = None →
  Context.request_id_ (World.ctx w) = 0
  ∧ kInitialRequestID < 0
  ∧ (∀ any : gmap Z RequestInfo, RequestManager.Remove 0 any = Ok any)
  ∧ (∃ w', Cancel w = Ok w'
           ∧ World.g_manager w' = World.g_manager w ∧ live w' = false)
  ∧ (∀ render_frame_id request_id,
       ∃ w', ContinueOnOriginatingThread render_frame_id request_id None w
             = Ok w'
             ∧ World.g_manager w' = World.g_manager w ∧ live w' = false).
Proof.
  intros Hs Hrun Hl Hld. pose proof (reach_inv s es w Hs Hrun) as Hinv.
  pose proof (inv_unregistered w Hinv Hl Hld) as Hid.
  assert (Hcancel : ∃ w', Cancel w = Ok w'
            ∧ World.g_manager w' = World.g_manager w ∧ live w' = false).
  { destruct (step_Cancel w Hinv) as [Hc _]. simpl in Hc. rewrite Hl in Hc.
    exists (canceled (removed w) w). split; [exact Hc|].
    split; [|apply live_canceled].
    unfold removed. rewrite Hid. unfold canceled, cleaned.
    open_world w. reflexivity. }
  split; [exact Hid|]. split; [reflexivity|].
  split; [intros any; by apply RegistryFacts.Remove_high|].
  split; [exact Hcancel|].
  intros rf id. by rewrite Continue_no_getter.
Qed.

(** C4, refuted as stated: for an empty byte buffer the expected upload
    size is 0, the guard [upload_data_size_ > 0] of
    [NotifyUploadProgressIfNecessary] fails, and the request completes
    without any upload-progress call. *)
Lemma C4_empty_body_is_not_notified : ¬ upload_always_notified.
Proof.
  intros Hclaim.
  set (es := [EvUiTask None; EvContinue;
              EvComplete true (example_result "http://example.test/")]).
  assert (Hrun : ∃ w, run (H := example_platform) es
                        (started (H := example_platform) empty_post) = Some w
                      ∧ status w = UR_SUCCESS
                      ∧ count_calls is_upload_progress w = 0%nat).
  { eexists. split; [vm_compute; reflexivity|]. split; reflexivity. }
  destruct Hrun as (w & Hrun & Hs & Hc).
  assert (Hone : count_calls is_upload_progress w = 1%nat).
  { apply (Hclaim example_platform empty_post (bytes_element "") es w);
      try reflexivity; try assumption.
    - apply example_setup_ok.
    - simpl. lia.
    - repeat constructor. }
  rewrite Hc in Hone. discriminate Hone.
Qed.


(** * The claims at work on the examples *)

(** C2, at work.  The GET that asked for the headers only is live and
    nothing has completed.  A cancel tears it down with one completion
    call.  When the fetch fails instead and the loader runs its one
    callback without headers, the handler stops: the run ends there and
    the client has not been told. *)
Lemma C2_completion_called_exactly_once_witness :
  setup_ok headers_only_get
  ∧ run (H := example_platform) [EvUiTask None; EvContinue]
      (started (H := example_platform) headers_only_get)
    = Some (loading headers_only_get)
  ∧ count_calls is_complete (loading headers_only_get) = 0%nat
  ∧ (∃ w', handle (H := example_platform) EvCancel (loading headers_only_get)
           = Ok w'
           ∧ live w' = false ∧ count_calls is_complete w' = 1%nat)
  ∧ enabled (EvHeadersOnly None failed_result) (loading headers_only_get)
    = true
  ∧ handle (H := example_platform) (EvHeadersOnly None failed_result)
      (loading headers_only_get)
    = Crashed
  ∧ (∀ success result,
       enabled (EvComplete success result) (loading headers_only_get)
       = false)
  ∧ run (H := example_platform)
      [EvUiTask None; EvContinue; EvHeadersOnly None failed_result]
      (started (H := example_platform) headers_only_get)
    = None.
Proof.
  split; [apply example_setup_ok|]. split; [vm_compute; reflexivity|].
  destruct (C2_completion_called_exactly_once (H := example_platform)
              headers_only_get [EvUiTask None; EvContinue]
              (loading headers_only_get)
              (example_setup_ok _) ltac:(vm_compute; reflexivity))
    as (Hcount & Hstep & Hnull & Honly & _).
  split; [exact Hcount|]. split.
  - destruct (Hstep EvCancel ltac:(reflexivity) ltac:(reflexivity))
      as (w' & Hh & Hend & _ & _).
    exists w'. split; [exact Hh|].
    apply Hend; vm_compute; reflexivity.
  - split; [vm_compute; reflexivity|]. split.
    + apply (Hnull (EvHeadersOnly None failed_result));
        vm_compute; reflexivity.
    + split; [|vm_compute; reflexivity].
      apply (Honly None failed_result). vm_compute; reflexivity.
Defined.

(** C3, at work: after two additions and the removal of the first, the
    second entry is found, and an identifier above the boundary is not. *)
Lemma C3_registry_lookup_witness :
  RequestManager.run_ops example_history ∅ = Ok example_registry
  ∧ (RequestManager.Get (-4) example_registry = Some (Some 3%nat, Some 4%nat)
     ↔ RequestManager.added_not_removed (-4) (Some 3%nat, Some 4%nat)
         example_history)
  ∧ RequestManager.Get 7 example_registry = None.
Proof.
  assert (Hrun : RequestManager.run_ops example_history ∅
                 = Ok example_registry) by (vm_compute; reflexivity).
  destruct (C3_registry_lookup example_history example_registry Hrun)
    as [Hlow Hhigh].
  split; [exact Hrun|]. split.
  - apply Hlow. unfold kInitialRequestID. lia.
  - apply (Hhigh 7 example_registry). unfold kInitialRequestID. lia.
Defined.

(** C5, at work: the GET with a form leaves the continuation as a POST
    with the form attached as "application/x-www-form-urlencoded". *)
Lemma C5_get_with_bytes_body_becomes_post_witness :
  ∃ w' loader,
    ContinueOnOriginatingThread (H := example_platform) MSG_ROUTING_NONE (-3)
      (Some {| URLLoaderFactoryGetter.render_frame_host := None |})
      (resolved get_with_form)
    = Ok w'
    ∧ Context.loader_ (World.ctx w') = Some loader
    ∧ ResourceRequest.method (SimpleURLLoader.resource_request loader)
      = "POST"%string
    ∧ SimpleURLLoader.upload loader
      = Some (StringForUpload "a=1" "application/x-www-form-urlencoded").
Proof.
  destruct (C5_get_with_bytes_body_becomes_post (H := example_platform)
              MSG_ROUTING_NONE (-3)
              {| URLLoaderFactoryGetter.render_frame_host := None |}
              (resolved get_with_form) (bytes_element "a=1")
              ltac:(vm_compute; reflexivity) ltac:(vm_compute; reflexivity)
              ltac:(vm_compute; discriminate) ltac:(vm_compute; reflexivity)
              ltac:(vm_compute; reflexivity) ltac:(reflexivity)
              ltac:(vm_compute; reflexivity))
    as (w' & loader & content_type & Hc & Hld & Hm & _ & Hup & Hct).
  exists w', loader. split; [exact Hc|]. split; [exact Hld|].
  split; [exact Hm|].
  rewrite Hup, (Hct ltac:(vm_compute; reflexivity)). reflexivity.
Defined.

(** C6, at work: the GET that asked for the headers only receives them. *)
Lemma C6_headers_only_fetch_witness :
  setup_ok headers_only_get
  ∧ run (H := example_platform) [EvUiTask None; EvContinue]
      (started (H := example_platform) headers_only_get)
    = Some (loading headers_only_get)
  ∧ ∃ w',
      handle (H := example_platform)
        (EvHeadersOnly (Some (example_headers 200 42))
           (example_result "http://example.test/"))
        (loading headers_only_get)
      = Ok w'
      ∧ status w' = UR_SUCCESS
      ∧ count_calls is_download_data w' = 0%nat
      ∧ count_calls is_complete w' = 1%nat.
Proof.
  split; [apply example_setup_ok|]. split; [vm_compute; reflexivity|].
  destruct (C6_headers_only_fetch (H := example_platform) headers_only_get
              [EvUiTask None; EvContinue] (loading headers_only_get)
              (example_headers 200 42) (example_result "http://example.test/")
              (example_setup_ok _) ltac:(vm_compute; reflexivity)
              ltac:(vm_compute; reflexivity) ltac:(simpl; lia))
    as (_ & w' & Hh & Hs & Hdata & Hdone & _).
  exists w'. done.
Defined.

(** C7, at work: the GET that stops on a redirect is redirected. *)
Lemma C7_stop_on_redirect_witness :
  setup_ok stop_on_redirect_get
  ∧ run (H := example_platform) [EvUiTask None; EvContinue]
      (started (H := example_platform) stop_on_redirect_get)
    = Some (loading stop_on_redirect_get)
  ∧ ∃ w',
      handle (H := example_platform)
        (EvRedirect example_redirect (example_head 302 0))
        (loading stop_on_redirect_get)
      = Ok w'
      ∧ CefResponseImpl.url_ (response w') = "https://example.test/other"%string
      ∧ status w' = UR_CANCELED
      ∧ CefResponseImpl.error_code_ (response w') = ERR_ABORTED.
Proof.
  split; [apply example_setup_ok|]. split; [vm_compute; reflexivity|].
  destruct (C7_stop_on_redirect (H := example_platform) stop_on_redirect_get
              [EvUiTask None; EvContinue] (loading stop_on_redirect_get)
              example_redirect (example_head 302 0)
              (example_setup_ok _) ltac:(vm_compute; reflexivity))
    as (_ & Hredirect).
  destruct (Hredirect ltac:(vm_compute; reflexivity)) as (_ & Hheaders).
  destruct (Hheaders (example_headers 302 0) ltac:(reflexivity))
    as (w' & Hh & Hurl & _ & _ & Hs & Herr & _).
  exists w'. done.
Defined.

(** C8, at work: "not a url" is refused. *)
Lemma C8_invalid_url_starts_nothing_witness :
  gurl_is_valid (Platform := example_platform)
    (CefRequestImpl.GetURL (s_request not_a_url)) = false
  ∧ Start (H := example_platform) (initial not_a_url)
    = (false, initial not_a_url)
  ∧ status (initial not_a_url) = UR_IO_PENDING
  ∧ World.client_calls (initial not_a_url) = [].
Proof.
  split; [vm_compute; reflexivity|].
  destruct (C8_invalid_url_starts_nothing (H := example_platform) not_a_url
              ltac:(vm_compute; reflexivity))
    as (Hstart & Hs & _ & _ & Hcalls & _).
  done.
Defined.

(** C9, at work: the HEAD with two byte buffers leaves the continuation
    as a POST without body. *)
Lemma C9_method_fixed_whatever_the_body_witness :
  ∃ w' loader,
    ContinueOnOriginatingThread (H := example_platform) MSG_ROUTING_NONE (-3)
      (Some {| URLLoaderFactoryGetter.render_frame_host := None |})
      (resolved head_with_two_parts)
    = Ok w'
    ∧ Context.loader_ (World.ctx w') = Some loader
    ∧ ResourceRequest.method (SimpleURLLoader.resource_request loader)
      = "POST"%string
    ∧ CefRequestImpl.GetMethod (Context.request_ (World.ctx w')) = "POST"%string
    ∧ SimpleURLLoader.upload loader = None.
Proof.
  destruct (C9_method_fixed_whatever_the_body (H := example_platform)
              MSG_ROUTING_NONE (-3)
              {| URLLoaderFactoryGetter.render_frame_host := None |}
              (resolved head_with_two_parts)
              [bytes_element "a=1"; bytes_element "b=2"]
              ltac:(vm_compute; reflexivity) ltac:(vm_compute; reflexivity)
              ltac:(vm_compute; discriminate) ltac:(vm_compute; reflexivity)
              ltac:(vm_compute; reflexivity)
              ltac:(right; vm_compute; reflexivity))
    as (w' & loader & Hc & Hld & Hm & Hm' & _ & _ & Hup).
  exists w', loader. do 4 (split; [done|]).
  apply Hup. intros element Hone. discriminate Hone.
Defined.

(** C10, at work: the GET is canceled right after [Start]. *)
Lemma C10_teardown_before_registration_witness :
  setup_ok plain_get
  ∧ live (started (H := example_platform) plain_get) = true
  ∧ Context.loader_ (World.ctx (started (H := example_platform) plain_get))
    = None
  ∧ Context.request_id_
      (World.ctx (started (H := example_platform) plain_get)) = 0
  ∧ ∃ w', Cancel (started (H := example_platform) plain_get) = Ok w'
          ∧ World.g_manager w'
            = World.g_manager (started (H := example_platform) plain_get)
          ∧ live w' = false.
Proof.
  split; [apply example_setup_ok|]. split; [vm_compute; reflexivity|].
  split; [vm_compute; reflexivity|].
  destruct (C10_teardown_before_registration (H := example_platform)
              plain_get [] (started (H := example_platform) plain_get)
              (example_setup_ok _) ltac:(reflexivity)
              ltac:(vm_compute; reflexivity) ltac:(vm_compute; reflexivity))
    as (Hid & _ & _ & Hcancel & _).
  split; [exact Hid | exact Hcancel].
Defined.

(** * Further properties *)

(** ** Identifiers and the registry *)

Lemma MakeRequestIDs_spec (n : nat) (counter : Z) :
  counter <= kInitialRequestID →
  - 2 ^ 31 <= counter - Z.of_nat n →
  MakeRequestIDs n counter
  = (List.map (fun k => counter - 1 - Z.of_nat k) (seq 0 n),
     counter - Z.of_nat n).
Proof.
  revert counter. induction n as [|n IH]; intros counter Hc Hn.
  - simpl. f_equal. lia.
  - cbn [MakeRequestIDs]. unfold MakeRequestID, kInitialRequestID in *.
    rewrite to_int32_small by lia.
    rewrite IH by lia. cbn [seq List.map]. f_equal.
    + f_equal; [lia|]. rewrite <- seq_shift, List.map_map.
      apply List.map_ext. intros k. lia.
    + lia.
Qed.

(** X1.  As long as the static of [MakeRequestID] does not run out of
    [int32_t], [n] successive calls return [counter - 1], [counter - 2],
    ..., [counter - n]: identifiers all below the boundary, hence accepted
    by the registry, strictly decreasing and pairwise different. *)
Theorem X1_request_ids_are_fresh (n : nat) (counter : Z) :
  counter <= kInitialRequestID →
  - 2 ^ 31 <= counter - Z.of_nat n →
  let ids := fst (MakeRequestIDs n counter) in
  snd (MakeRequestIDs n counter) = counter - Z.of_nat n
  ∧ (∀ k, (k < n)%nat → ids !! k = Some (counter - 1 - Z.of_nat k))
  ∧ (∀ id, id ∈ ids → counter - Z.of_nat n <= id < kInitialRequestID)
  ∧ NoDup ids.
Proof.
  intros Hc Hn ids. unfold ids. rewrite MakeRequestIDs_spec by assumption.
  cbn [fst snd]. split; [reflexivity|]. split; [|split].
  - intros k Hk. rewrite list_lookup_fmap.
    rewrite lookup_seq_lt by exact Hk. reflexivity.
  - intros id Hid. apply list_elem_of_fmap in Hid as (k & -> & Hk).
    apply elem_of_seq in Hk. lia.
  - apply NoDup_fmap_2; [|apply NoDup_seq]. intros a b. lia.
Qed.

(** X1, at work: the first three identifiers of a process. *)
Lemma X1_request_ids_are_fresh_witness :
  fst (MakeRequestIDs 3 kInitialRequestID) !! 2%nat = Some (-5)
  ∧ NoDup (fst (MakeRequestIDs 3 kInitialRequestID)).
Proof.
  destruct (X1_request_ids_are_fresh 3 kInitialRequestID
              ltac:(reflexivity) ltac:(vm_compute; discriminate))
    as (_ & Hk & _ & Hnd).
  split; [apply (Hk 2%nat); lia | exact Hnd].
Defined.

(** X2.  An entry added under a fresh identifier at or below the boundary
    is found under that identifier, the other identifiers are found as
    before, and its removal gives back the table as it was. *)
Theorem X2_registry_add_get_remove
    (id : Z) (request client : CefRefPtr ObjId) (map_ : gmap Z RequestInfo) :
  id <= kInitialRequestID → map_ !! id = None →
  ∃ map', RequestManager.Add id request client map_ = Ok map'
    ∧ RequestManager.Get id map' = Some (request, client)
    ∧ (∀ id', id' ≠ id →
         RequestManager.Get id' map' = RequestManager.Get id' map_)
    ∧ RequestManager.Remove id map' = Ok map_.
Proof.
  intros Hle Hfresh. exists (<[id := (request, client)]> map_).
  split; [by apply Add_fresh|]. split; [|split].
  - rewrite RegistryFacts.Get_low by exact Hle. apply lookup_insert_eq.
  - intros id' Hne. unfold RequestManager.Get.
    destruct (id' >? kInitialRequestID); [reflexivity|].
    by rewrite lookup_insert_ne.
  - rewrite Remove_registered; [|exact Hle|by rewrite lookup_insert_eq].
    by rewrite delete_insert_id.
Qed.

(** X2, at work on the table of the examples. *)
Lemma X2_registry_add_get_remove_witness :
  ∃ map', RequestManager.Add (-3) (Some 1%nat) (Some 2%nat) example_registry
          = Ok map'
    ∧ RequestManager.Get (-3) map' = Some (Some 1%nat, Some 2%nat)
    ∧ RequestManager.Remove (-3) map' = Ok example_registry.
Proof.
  destruct (X2_registry_add_get_remove (-3) (Some 1%nat) (Some 2%nat)
              example_registry ltac:(vm_compute; discriminate)
              ltac:(vm_compute; reflexivity))
    as (map' & Hadd & Hget & _ & Hrem).
  exists map'. done.
Defined.

(** X3.  After a removal that returns, the identifier is no longer found
    and every other identifier is found as before; this also holds above
    the boundary, where nothing is ever found. *)
Theorem X3_registry_remove_then_get
    (id : Z) (map_ map' : gmap Z RequestInfo) :
  RequestManager.Remove id map_ = Ok map' →
  RequestManager.Get id map' = None
  ∧ ∀ id', id' ≠ id →
      RequestManager.Get id' map' = RequestManager.Get id' map_.
Proof.
  intros Hrem.
  apply RegistryFacts.Remove_ok in Hrem as [[Hhigh ->] | (Hle & _ & ->)].
  - split; [by apply RegistryFacts.Get_high | done].
  - split.
    + rewrite RegistryFacts.Get_low by exact Hle. apply lookup_delete_eq.
    + intros id' Hne. unfold RequestManager.Get.
      destruct (id' >? kInitialRequestID); [reflexivity|].
      by rewrite lookup_delete_ne.
Qed.

(** X3, at work on the table of the examples. *)
Lemma X3_registry_remove_then_get_witness :
  RequestManager.Remove (-4) example_registry = Ok ∅
  ∧ RequestManager.Get (-4) (∅ : gmap Z RequestInfo) = None.
Proof.
  assert (Hrem : RequestManager.Remove (-4) example_registry = Ok ∅)
    by (vm_compute; reflexivity).
  split; [exact Hrem|].
  apply (X3_registry_remove_then_get (-4) example_registry ∅ Hrem).
Defined.

(** X4.  After a history of calls on the registry in which no assertion
    failed, the assertion of the destructor holds exactly when every entry
    that was added has been removed. *)
Theorem X4_registry_destructor
    (ops : list RequestManager.Op) (map_ : gmap Z RequestInfo) :
  RequestManager.run_ops ops ∅ = Ok map_ →
  RequestManager.Destructor map_ = Ok tt
  ↔ ∀ id info, ¬ RequestManager.added_not_removed id info ops.
Proof.
  intros Hrun. pose proof (RegistryFacts.run_ops_lookup ops map_ Hrun) as Hl.
  unfold RequestManager.Destructor, DCHECK. split.
  - intros Hd id info Hadd. apply Hl in Hadd.
    destruct (bool_decide (map_ = ∅)) eqn:E; [|discriminate].
    apply bool_decide_eq_true in E. subst. by rewrite lookup_empty in Hadd.
  - intros Hnone. rewrite bool_decide_eq_true_2; [reflexivity|].
    apply map_eq. intros id. rewrite lookup_empty.
    destruct (map_ !! id) as [info|] eqn:E; [|reflexivity].
    apply Hl in E. by apply Hnone in E.
Qed.

(** X4, at work: once both requests of the example are removed, nothing is
    left of them and the destructor's assertion holds. *)
Lemma X4_registry_destructor_witness :
  RequestManager.run_ops balanced_history ∅ = Ok ∅
  ∧ ∀ id info, ¬ RequestManager.added_not_removed id info balanced_history.
Proof.
  assert (Hrun : RequestManager.run_ops balanced_history ∅ = Ok ∅)
    by (vm_compute; reflexivity).
  split; [exact Hrun|].
  apply (X4_registry_destructor balanced_history ∅ Hrun). reflexivity.
Defined.

(** ** What the continuation configures *)

Section ConfigurationFacts.
Context `{Platform}.

(** X5.  A request whose body is a single file element: the continuation
    returns and the file is attached for upload under its path.  The
    content type is the Content-Type header of the descriptor when it has
    one that is not empty; otherwise the MIME type of the file's
    extension, taken without its leading period, when the path has an
    extension and the platform knows it; otherwise it is empty.  The
    expected upload size is not set, whatever the flags. *)
Theorem X5_file_body_is_attached
    (render_frame_id request_id : Z) (getter : URLLoaderFactoryGetter.t)
    (w : World.t) (element : DataElement.t) :
  live w = true → status w = UR_IO_PENDING →
  request_id <= kInitialRequestID → World.g_manager w !! request_id = None →
  CefRequestImpl.postdata_ (Context.request_ (World.ctx w)) = Some [element] →
  DataElement.type element = kFile →
  let header :=
    default EmptyString
      (GetHeader kContentType
         (CefRequestImpl.headermap_ (Context.request_ (World.ctx w)))) in
  let extension := path_extension (DataElement.path element) in
  ∃ w' loader,
    ContinueOnOriginatingThread render_frame_id request_id (Some getter) w
      = Ok w'
    ∧ Context.loader_ (World.ctx w') = Some loader
    ∧ SimpleURLLoader.upload loader
      = Some (FileForUpload (DataElement.path element)
                (if string_empty header then
                   if string_empty extension then EmptyString
                   else default EmptyString
                          (mime_type_from_extension (substr1 extension))
                 else header))
    ∧ Context.upload_data_size_ (World.ctx w')
      = Context.upload_data_size_ (World.ctx w).
Proof.
  intros Hl Hs Hid Hfresh Hbody Htype header extension.
  exists (continued render_frame_id request_id getter w),
    (configured_loader render_frame_id request_id
       (Context.request_ (World.ctx w))).
  split; [by apply Continue_main|].
  unfold header, extension, continued, configured_loader, configure,
    attach_upload, body_upload, body_upload_size, file_content_type,
    header_content_type.
  open_world w. destruct request_. simpl in Hbody. subst. norm.
  rewrite Htype. simpl. split; [reflexivity|]. split; [|reflexivity].
  destruct (GetHeader kContentType headermap_) as [ct|]; simpl.
  - destruct (string_empty ct) eqn:E; [|reflexivity].
    destruct ct; [|discriminate].
    by destruct (string_empty (path_extension (DataElement.path element))).
  - by destruct (string_empty (path_extension (DataElement.path element))).
Qed.

(** X6.  Along every run, a loader that exists was started to download
    the headers only exactly when the descriptor has the no-download-data
    flag or its method is HEAD and it has no body; otherwise it streams
    the body and has the response-started and download-progress
    callbacks.  A HEAD that carries a body is sent as a POST, and streams. *)
Theorem X6_download_mode
    (s : Setup) (es : list Event) (w : World.t) (loader : SimpleURLLoader.t) :
  setup_ok s → run es (started s) = Some w →
  Context.loader_ (World.ctx w) = Some loader →
  let only :=
    has_flag (CefRequestImpl.GetFlags (s_request s)) UR_FLAG_NO_DOWNLOAD_DATA
    || (String.eqb (CefRequestImpl.GetMethod (s_request s)) "HEAD"
        && negb (non_null (CefRequestImpl.postdata_ (s_request s)))) in
  SimpleURLLoader.download loader
    = Some (if only then HeadersOnly else AsStream)
  ∧ SimpleURLLoader.on_response_started_callback loader = negb only
  ∧ SimpleURLLoader.on_download_progress_callback loader = negb only.
Proof.
  intros Hs Hrun Hld only.
  destruct (cfg_after s w (reach_cfg s es w Hs Hrun) loader Hld)
    as (_ & rf & id & ->).
  destruct (configured_download rf id s) as (Hd & Hp & Hr & _).
  assert (Honly : headers_only (CefRequestImpl.GetFlags (s_request s))
                    (effective_method s) = only).
  { unfold only, headers_only, effective_method, fixed_method,
      CefRequestImpl.GetMethod.
    destruct (s_request s) as [url method headers body flags ro]. simpl.
    destruct (has_flag flags UR_FLAG_NO_DOWNLOAD_DATA); [reflexivity|].
    destruct body; simpl; [|by rewrite andb_true_r].
    rewrite andb_false_r.
    destruct (String.eqb method "GET") eqn:Eg; simpl; [reflexivity|].
    destruct (String.eqb method "HEAD") eqn:Eh; simpl; [reflexivity|].
    exact Eh. }
  rewrite Honly in *. done.
Qed.

(** X8.  Along every run, the transport request of a loader that exists
    is a sub-resource load initiated by the origin of the descriptor's
    URL, without a body of its own; SameSite cookies are included (the
    site is ignored for cookies and the site for cookies is the
    initiator) exactly when the descriptor allows stored credentials. *)
Theorem X8_transport_request
    (s : Setup) (es : list Event) (w : World.t) (loader : SimpleURLLoader.t) :
  setup_ok s → run es (started s) = Some w →
  Context.loader_ (World.ctx w) = Some loader →
  let rr := SimpleURLLoader.resource_request loader in
  let url := CefRequestImpl.GetURL (s_request s) in
  let credentials :=
    has_flag (CefRequestImpl.GetFlags (s_request s))
      UR_FLAG_ALLOW_STORED_CREDENTIALS in
  ResourceRequest.resource_type rr = kSubResource
  ∧ ResourceRequest.request_initiator rr = Some url
  ∧ ResourceRequest.request_body rr = None
  ∧ ResourceRequest.force_ignore_site_for_cookies rr = credentials
  ∧ ResourceRequest.site_for_cookies rr
    = (if credentials then Some url else None).
Proof.
  intros Hs Hrun Hld rr url credentials.
  destruct (cfg_after s w (reach_cfg s es w Hs Hrun) loader Hld)
    as (_ & rf & id & Hloader).
  unfold rr, url, credentials. rewrite Hloader.
  unfold configured_loader, configure, transport_request, descriptor.
  destruct (s_request s). simpl.
  destruct (has_flag flags_ UR_FLAG_ALLOW_STORED_CREDENTIALS); done.
Qed.

End ConfigurationFacts.

(** ** What each effect does to the registry, the deferred deletions and
       the members the streaming callbacks leave alone *)

Section KeptFacts.
Context `{Platform}.
Implicit Types w : World.t.

Ltac kept_tac w :=
  unfold kept, deferred_by_cleanup, getter_after_cleanup; open_world w; norm;
  repeat match goal with
         | |- context [if ?b then _ else _] => destruct b
         | |- context [match ?b with Some _ => _ | None => _ end] =>
             destruct b
         end;
  norm; rewrite ?app_nil_r; reflexivity.

Lemma kept_fields w m d id rq c rc g now :
  kept w = (m, d, id, rq, c, rc, g, now) →
  World.g_manager w = m ∧ World.deferred w = d
  ∧ Context.request_id_ (World.ctx w) = id
  ∧ Context.request_ (World.ctx w) = rq
  ∧ Context.client_ (World.ctx w) = c
  ∧ Context.request_context_ (World.ctx w) = rc
  ∧ Context.loader_factory_getter_ (World.ctx w) = g
  ∧ Context.cleanup_immediately_ (World.ctx w) = now.
Proof. unfold kept. intros [= -> -> -> -> -> -> -> ->]. done. Qed.

Lemma kept_progressed current w : kept (progressed current w) = kept w.
Proof. unfold progressed, notified, upload_notice. kept_tac w. Qed.

Lemma kept_uploaded position total w : kept (uploaded position total w) = kept w.
Proof. unfold uploaded. kept_tac w. Qed.

Lemma kept_received string_piece w : kept (received string_piece w) = kept w.
Proof. unfold received. kept_tac w. Qed.

Lemma kept_retried w : kept (retried w) = kept w.
Proof. unfold retried. kept_tac w. Qed.

Lemma kept_response_stored url headers w :
  kept (response_stored url headers w) = kept w.
Proof. unfold response_stored. kept_tac w. Qed.

Lemma kept_response_started final_url response_head w :
  kept (response_started final_url response_head w) = kept w.
Proof. unfold response_started, response_stored. kept_tac w. Qed.

Lemma kept_with_result result w : kept (with_result result w) = kept w.
Proof. unfold with_result. kept_tac w. Qed.

Lemma kept_set_originating rest w :
  kept (World.set_originating_tasks rest w) = kept w
  ∧ World.ctx (World.set_originating_tasks rest w) = World.ctx w.
Proof. unfold kept. open_world w. split; reflexivity. Qed.

Lemma kept_ui_task rfh w :
  kept (effect (EvUiTask rfh) w) = kept w
  ∧ World.ctx (effect (EvUiTask rfh) w) = World.ctx w
  ∧ World.client_calls (effect (EvUiTask rfh) w) = World.client_calls w.
Proof.
  cbn [effect]. destruct (World.ui_tasks w) as [|task rest]; [done|].
  unfold GetURLLoaderFactoryGetterOnUIThread, MakeRequestID, kept.
  destruct (ui_frame task), rfh; open_world w; repeat split; reflexivity.
Qed.

Lemma kept_continued rf id g w :
  kept (continued rf id g w)
  = (<[id := (Context.url_request_ (World.ctx w),
              Context.client_ (World.ctx w))]> (World.g_manager w),
     World.deferred w, id,
     fixed_descriptor
       (CefRequestImpl.postdata_ (Context.request_ (World.ctx w)))
       (CefRequestImpl.method_ (Context.request_ (World.ctx w)))
       (Context.request_ (World.ctx w)),
     Context.client_ (World.ctx w), Context.request_context_ (World.ctx w),
     Some g, Context.cleanup_immediately_ (World.ctx w)).
Proof. unfold continued, kept. open_world w. reflexivity. Qed.

Lemma kept_canceled map_ w :
  kept (canceled map_ w)
  = (map_, World.deferred w, Context.request_id_ (World.ctx w),
     Context.request_ (World.ctx w), None, None, getter_after_cleanup w,
     true).
Proof. unfold canceled, cleaned. kept_tac w. Qed.

Lemma kept_completed success loader map_ w :
  kept (completed success loader map_ w)
  = (map_, World.deferred w ++ deferred_by_cleanup w,
     Context.request_id_ (World.ctx w), Context.request_ (World.ctx w),
     None, None, getter_after_cleanup w,
     Context.cleanup_immediately_ (World.ctx w)).
Proof.
  unfold completed, finalized, notified, upload_notice, cleaned.
  destruct success; kept_tac w.
Qed.

Lemma kept_headers_stored headers w :
  kept (headers_stored headers w)
  = (World.g_manager w, World.deferred w, Context.request_id_ (World.ctx w),
     Context.request_ (World.ctx w), Context.client_ (World.ctx w),
     Context.request_context_ (World.ctx w),
     Context.loader_factory_getter_ (World.ctx w), true)
  ∧ Context.loader_ (World.ctx (headers_stored headers w))
    = Context.loader_ (World.ctx w).
Proof.
  unfold headers_stored, progressed, notified, upload_notice, kept.
  open_world w. destruct request_. norm.
  repeat match goal with
         | |- context [if ?b then _ else _] => destruct b
         end; split; reflexivity.
Qed.

Lemma loader_response_stored url headers w :
  Context.loader_ (World.ctx (response_stored url headers w))
  = Context.loader_ (World.ctx w).
Proof. by destruct (same_core_response_stored url headers w) as (_ & _ & _ & -> & _). Qed.

Lemma kept_same w w' :
  kept w' = kept w →
  World.g_manager w' = World.g_manager w
  ∧ World.deferred w' = World.deferred w
  ∧ Context.request_id_ (World.ctx w') = Context.request_id_ (World.ctx w)
  ∧ Context.request_ (World.ctx w') = Context.request_ (World.ctx w)
  ∧ Context.client_ (World.ctx w') = Context.client_ (World.ctx w)
  ∧ Context.request_context_ (World.ctx w')
    = Context.request_context_ (World.ctx w)
  ∧ Context.loader_factory_getter_ (World.ctx w')
    = Context.loader_factory_getter_ (World.ctx w)
  ∧ Context.cleanup_immediately_ (World.ctx w')
    = Context.cleanup_immediately_ (World.ctx w).
Proof. intros E. by apply kept_fields in E. Qed.

Lemma removed_kept w w' : kept w' = kept w → removed w' = removed w.
Proof.
  intros E. apply kept_same in E as (Hm & _ & Hid & _).
  unfold removed. by rewrite Hm, Hid.
Qed.

Lemma getter_after_cleanup_same w w' :
  Context.loader_factory_getter_ (World.ctx w')
    = Context.loader_factory_getter_ (World.ctx w) →
  non_null (Context.loader_ (World.ctx w'))
    = non_null (Context.loader_ (World.ctx w)) →
  getter_after_cleanup w' = getter_after_cleanup w.
Proof.
  unfold getter_after_cleanup. intros -> Hld.
  destruct (Context.loader_ (World.ctx w')), (Context.loader_ (World.ctx w));
    done.
Qed.

Lemma deferred_by_cleanup_now w :
  Context.cleanup_immediately_ (World.ctx w) = true →
  deferred_by_cleanup w = [].
Proof.
  unfold deferred_by_cleanup. intros ->.
  by destruct (Context.loader_ (World.ctx w)).
Qed.

(** When an event leaves a live request live. *)
Lemma live_effect e w :
  inv w → live w = true → enabled e w = true →
  live (effect e w) = negb (ends_request e w).
Proof.
  intros Hinv Hl Hen. destruct e; cbn [effect ends_request]; cbv zeta.
  - rewrite Hl. apply live_canceled.
  - destruct (kept_ui_task rfh w) as (_ & E & _). unfold live in *.
    cbn [effect] in E. by rewrite E.
  - destruct (World.originating_tasks w) as [|task rest]; [done|].
    destruct (obs_set_originating rest w) as [_ ->]. rewrite Hl.
    destruct (ct_loader_factory_getter task); simpl.
    + unfold continued, live in *. revert Hl. open_world w. norm. done.
    + apply live_canceled.
  - simpl in Hen. apply loader_has_Some in Hen as (l & Hld & _).
    rewrite loader_with_result, Hld. simpl. apply live_completed.
  - apply live_canceled.
  - destruct (same_core_response_started final_url response_head w)
      as (Hu & _). unfold live in *. by rewrite Hu.
  - destruct (same_core_uploaded position total w) as (Hu & _).
    unfold live in *. by rewrite Hu.
  - destruct (same_core_progressed current w) as (Hu & _).
    unfold live in *. by rewrite Hu.
  - destruct (same_core_received string_piece w) as (Hu & _).
    unfold live in *. by rewrite Hu.
  - simpl in Hen. apply loader_has_Some in Hen as (l & Hld & _).
    rewrite loader_with_result, Hld. simpl. apply live_completed.
  - destruct (same_core_retried w) as (Hu & _).
    unfold live in *. by rewrite Hu.
Qed.

(** Once torn down, a request keeps everything but the task queues. *)
Lemma kept_dead e w :
  inv w → live w = false → enabled e w = true →
  kept (effect e w) = kept w
  ∧ World.ctx (effect e w) = World.ctx w
  ∧ World.transport_calls (effect e w) = World.transport_calls w.
Proof.
  intros Hinv Hl Hen.
  pose proof (dead_no_loader w Hinv Hl) as Hld.
  destruct e; simpl in Hen; unfold loader_has in Hen; rewrite ?Hld in Hen;
    try discriminate; cbn [effect]; cbv zeta.
  - rewrite Hl. done.
  - destruct (World.ui_tasks w) as [|task rest]; [done|].
    unfold GetURLLoaderFactoryGetterOnUIThread, MakeRequestID, kept.
    destruct (ui_frame task), rfh; open_world w; repeat split; reflexivity.
  - destruct (World.originating_tasks w) as [|task rest]; [done|].
    destruct (obs_set_originating rest w) as [_ ->]. rewrite Hl.
    unfold kept. open_world w. repeat split; reflexivity.
Qed.

(** A streaming callback leaves the core of the request and what is kept
    as they are. *)
Lemma streaming_effect e w :
  is_streaming_event e = true →
  same_core w (effect e w) ∧ kept (effect e w) = kept w.
Proof.
  intros He. destruct e; try discriminate; cbn [effect].
  - split; [apply same_core_response_started | apply kept_response_started].
  - split; [apply same_core_uploaded | apply kept_uploaded].
  - split; [apply same_core_progressed | apply kept_progressed].
  - split; [apply same_core_received | apply kept_received].
  - split; [apply same_core_retried | apply kept_retried].
Qed.

(** The teardown of a live request, whatever event causes it. *)
Lemma teardown_effect e w :
  inv w → live w = true → enabled e w = true → ends_request e w = true →
  live (effect e w) = false
  ∧ kept (effect e w)
    = (removed w, World.deferred w ++ deferred_by e w,
       Context.request_id_ (World.ctx w), Context.request_ (World.ctx w),
       None, None, getter_after_cleanup w, immediately_after e w).
Proof.
  intros Hinv Hl Hen Hend.
  split; [by rewrite (live_effect e w Hinv Hl Hen), Hend|].
  destruct e; try discriminate; cbn [effect deferred_by immediately_after];
    cbv zeta.
  - rewrite Hl, kept_canceled, app_nil_r. reflexivity.
  - cbn [ends_request] in Hend.
    destruct (World.originating_tasks w) as [|task rest]; [discriminate|].
    destruct (kept_set_originating rest w) as [Ek Ec].
    destruct (obs_set_originating rest w) as [_ ->]. rewrite Hl.
    destruct (ct_loader_factory_getter task); [discriminate|].
    rewrite kept_canceled, app_nil_r, (removed_kept _ _ Ek).
    apply kept_same in Ek as (_ & -> & -> & -> & _).
    unfold getter_after_cleanup. rewrite Ec. reflexivity.
  - simpl in Hen. apply loader_has_Some in Hen as (l & Hld & _).
    rewrite loader_with_result, Hld. simpl.
    unfold headers_completed. rewrite kept_completed.
    set (w1 := with_result result w).
    destruct (kept_headers_stored (pointee headers) w1) as [Ek El].
    apply kept_fields in Ek as (_ & Ed & Eid & Erq & _ & _ & Eg & Enow).
    destruct (kept_same w w1 (kept_with_result result w))
      as (_ & Ed' & Eid' & Erq' & _ & _ & Eg' & _).
    rewrite (deferred_by_cleanup_now _ Enow), Enow, Ed, Eid, Erq, Ed', Eid',
      Erq'.
    unfold w1 at 1. rewrite removed_with_result.
    rewrite (getter_after_cleanup_same w (headers_stored (pointee headers) w1));
      [reflexivity | congruence |].
    rewrite El. unfold w1. by rewrite loader_with_result, Hld.
  - unfold redirected. rewrite kept_canceled, app_nil_r.
    set (w1 := response_stored _ _ w).
    destruct (kept_same w w1 (kept_response_stored _ _ w))
      as (_ & Ed & Eid & Erq & _ & _ & Eg & _).
    rewrite Ed, Eid, Erq.
    rewrite (getter_after_cleanup_same w w1);
      [reflexivity | exact Eg |].
    unfold w1. by rewrite loader_response_stored.
  - simpl in Hen. apply loader_has_Some in Hen as (l & Hld & _).
    rewrite loader_with_result, Hld. simpl. rewrite kept_completed.
    set (w1 := with_result result w).
    destruct (kept_same w w1 (kept_with_result result w))
      as (_ & Ed & Eid & Erq & _ & _ & Eg & Enow).
    rewrite Ed, Eid, Erq, Enow. unfold w1 at 1.
    rewrite removed_with_result.
    rewrite (getter_after_cleanup_same w w1); [reflexivity | exact Eg |].
    unfold w1. by rewrite loader_with_result, Hld.
Qed.

End KeptFacts.

(** ** The registry along a run *)

Section RegistryRun.
Context `{Platform}.
Implicit Types w : World.t.

Lemma loader_continued rf id g w :
  Context.loader_ (World.ctx (continued rf id g w))
  = Some (configured_loader rf id (Context.request_ (World.ctx w))).
Proof. unfold continued. open_world w. reflexivity. Qed.

Lemma request_id_configured rf id rq :
  SimpleURLLoader.request_id (configured_loader rf id rq) = Some id.
Proof. unfold configured_loader, configure. destruct rq. reflexivity. Qed.

(** The events that do not end a live request. *)
Lemma not_ending e w :
  enabled e w = true → ends_request e w = false →
  (∃ rfh, e = EvUiTask rfh)
  ∨ is_streaming_event e = true
  ∨ (e = EvContinue
     ∧ ∃ task rest getter,
         World.originating_tasks w = task :: rest
         ∧ ct_loader_factory_getter task = Some getter).
Proof.
  intros Hen Hend. destruct e; try discriminate; eauto.
  right; right. split; [reflexivity|]. cbn [ends_request enabled] in *.
  destruct (World.originating_tasks w) as [|task rest]; [discriminate|].
  destruct (ct_loader_factory_getter task) as [getter|] eqn:Hg;
    [|discriminate].
  eauto.
Qed.

(** The start of the loader by the continuation. *)
Lemma continue_effect s w task rest getter :
  inv w → inv_cfg s w → live w = true →
  World.originating_tasks w = task :: rest →
  ct_loader_factory_getter task = Some getter →
  let w0 := World.set_originating_tasks rest w in
  effect EvContinue w
    = continued (ct_render_frame_id task) (ct_request_id task) getter w0
  ∧ World.ctx w0 = World.ctx w ∧ kept w0 = kept w
  ∧ Context.loader_ (World.ctx w) = None
  ∧ rest = []
  ∧ ct_request_id task <= kInitialRequestID
  ∧ World.g_manager w !! ct_request_id task = None.
Proof.
  intros Hinv Hcfg Hl Hor Hg w0.
  destruct (kept_set_originating rest w) as [Ek Ec].
  assert (Hl0 : live w0 = true) by (unfold live, w0; by rewrite Ec).
  pose proof (inv_tasks_done w Hinv) as Htd. rewrite Hor in Htd.
  assert (Hld : Context.loader_ (World.ctx w) = None).
  { destruct (Context.loader_ (World.ctx w)); [|done].
    destruct Htd as [_ Habs]; [done | discriminate]. }
  pose proof (inv_tasks w Hinv) as Ht. unfold tasks_ok in Ht.
  rewrite Hor in Ht. unfold tasks_fresh in Ht.
  destruct (World.ui_tasks w) as [|u [|u' us]], rest; try done.
  destruct Ht as [Hid Hfresh].
  split; [|done].
  cbn [effect]. rewrite Hor. cbv zeta. fold w0. by rewrite Hl0, Hg.
Qed.

Lemma registry_tracks_step s e w :
  inv w → inv_cfg s w → registry_tracks s w → enabled e w = true →
  registry_tracks s (effect e w).
Proof.
  intros Hinv Hcfg (Hclient & Hid & Hreg) Hen.
  pose proof (effect_inv e w Hinv Hen) as Hinv'.
  destruct (live w) eqn:Hl.
  2: { destruct (kept_dead e w Hinv Hl Hen) as (Ek & Ec & _).
       apply kept_same in Ek as (Hm & _).
       unfold registry_tracks, live. rewrite Ec, Hm.
       split; [|done]. unfold live in Hl. congruence. }
  specialize (Hclient eq_refl).
  destruct (ends_request e w) eqn:Hend.
  - destruct (teardown_effect e w Hinv Hl Hen Hend) as [Hd Ek].
    apply kept_fields in Ek as (Hm & _ & Eid & _).
    pose proof (dead_no_loader _ Hinv' Hd) as Hld'.
    unfold registry_tracks. rewrite Hd, Hld', Hm, Eid.
    split; [discriminate|]. split; [exact Hid|].
    unfold removed.
    destruct (Context.loader_ (World.ctx w)) as [l|] eqn:Hld.
    + destruct Hreg as (_ & Hle & ->).
      destruct (Context.request_id_ (World.ctx w) >? kInitialRequestID)
        eqn:E; [lia|].
      destruct Hid as [Hz | [_ Hfresh]];
        [rewrite Hz in Hle; unfold kInitialRequestID in Hle; lia|].
      by rewrite delete_insert_id.
    + rewrite (inv_unregistered w Hinv Hl Hld). simpl. exact Hreg.
  - destruct (not_ending e w Hen Hend)
      as [[rfh ->] | [Hstream | (-> & task & rest & getter & Hor & Hg)]].
    + destruct (kept_ui_task rfh w) as (Ek & Ec & _).
      apply kept_same in Ek as (Hm & _).
      unfold registry_tracks, live. rewrite Ec, Hm. done.
    + destruct (streaming_effect e w Hstream) as [Hc Ek].
      destruct Hc as (Hu & _ & Hcl & Hld & Hrid & Hm & _).
      unfold registry_tracks, live. rewrite Hu, Hcl, Hld, Hrid, Hm.
      done.
    + destruct (continue_effect s w task rest getter Hinv Hcfg Hl Hor Hg)
        as (-> & Ec & Ek & Hld & _ & Hle & Hfresh).
      rewrite Hld in Hreg.
      pose proof (kept_continued (ct_render_frame_id task)
                    (ct_request_id task) getter
                    (World.set_originating_tasks rest w)) as Ek'.
      apply kept_fields in Ek' as (Hm' & _ & Hid' & _ & Hcl' & _).
      unfold registry_tracks, live.
      rewrite loader_continued, request_id_configured, Hm', Hid', Hcl', Ec.
      rewrite Hreg in Hfresh.
      split; [done|].
      split; [right; done|].
      split; [reflexivity|]. split; [exact Hle|].
      apply kept_same in Ek as (-> & _). rewrite Hreg.
      rewrite (cfg_handle s w Hcfg Hl), Hclient. reflexivity.
Qed.

Lemma registry_tracks_started s : registry_tracks s (started s).
Proof.
  unfold started, Start. destruct (gurl_is_valid _); simpl.
  all: unfold registry_tracks; simpl; split; [done|]; split; [by left|done].
Qed.

Lemma reach_registry s es w :
  setup_ok s → run es (started s) = Some w → registry_tracks s w.
Proof.
  intros Hs.
  apply (run_invariant s (registry_tracks s));
    [| by apply inv_started | apply inv_cfg_started
     | apply registry_tracks_started].
  intros e w0. apply registry_tracks_step.
Qed.

(** X9.  Along every run, the registry holds the entries of the other
    requests as they were when this request was created, and the entry of
    this request, its handle and its client, exactly while its loader
    exists, under the identifier given to the loader, which was not used
    before.  A lookup from the browser process finds that entry then, and
    nothing once the loader is gone. *)
Theorem X9_registry_entry_while_loading
    (s : Setup) (es : list Event) (w : World.t) :
  setup_ok s → run es (started s) = Some w →
  let id := Context.request_id_ (World.ctx w) in
  match Context.loader_ (World.ctx w) with
  | Some loader =>
      SimpleURLLoader.request_id loader = Some id
      ∧ s_registry s !! id = None
      ∧ World.g_manager w = <[id := registered s]> (s_registry s)
      ∧ CefBrowserURLRequest.FromGlobalRequestID
          {| GlobalRequestID.child_id := kBrowserProcessId;
             GlobalRequestID.request_id := id |} w
        = Some (registered s)
  | None =>
      World.g_manager w = s_registry s
      ∧ CefBrowserURLRequest.FromRequestID id w = None
  end.
Proof.
  intros Hs Hrun id.
  destruct (reach_registry s es w Hs Hrun) as (_ & Hid & Hreg).
  fold id in Hid, Hreg.
  unfold CefBrowserURLRequest.FromGlobalRequestID,
    CefBrowserURLRequest.FromRequestID.
  destruct (Context.loader_ (World.ctx w)) as [loader|].
  - destruct Hreg as (Hl & Hle & Hm).
    assert (Hfresh : s_registry s !! id = None).
    { destruct Hid as [Hz | [_ Hf]]; [|exact Hf].
      rewrite Hz in Hle. unfold kInitialRequestID in Hle. lia. }
    rewrite Hm. simpl.
    rewrite RegistryFacts.Get_low by exact Hle.
    by rewrite lookup_insert_eq.
  - split; [exact Hreg|]. rewrite Hreg.
    destruct Hid as [Hz | [Hle Hf]].
    + rewrite Hz. by apply RegistryFacts.Get_high.
    + by rewrite RegistryFacts.Get_low.
Qed.

End RegistryRun.

(** ** Teardown: what is released, what is deferred, what stays *)

Section TeardownFacts.
Context `{Platform}.
Implicit Types w : World.t.

Lemma kept_run_dead es w w' :
  inv w → live w = false → run es w = Some w' →
  kept w' = kept w ∧ World.ctx w' = World.ctx w.
Proof.
  revert w. induction es as [|e es IH]; intros w Hinv Hl Hrun; simpl in Hrun.
  - by injection Hrun as <-.
  - destruct (run_cons e es w w' Hinv Hrun)
      as (Hen & Hnf & Hh & Hinv1 & Hrun1).
    clear Hrun. rename Hrun1 into Hrun.
    destruct (kept_dead e w Hinv Hl Hen) as (Ek & Ec & _).
    destruct (effect_done e w Hinv Hl Hen) as (_ & _ & _ & Hd).
    destruct (IH _ Hinv1 Hd Hrun) as [Ek' Ec']. split; congruence.
Qed.

Lemma live_ctx w w' : World.ctx w' = World.ctx w → live w' = live w.
Proof. unfold live. by intros ->. Qed.

Lemma live_same_core w w' : same_core w w' → live w' = live w.
Proof. intros (Hu & _). unfold live. by rewrite Hu. Qed.

Lemma nothing_deferred_step s e w :
  inv w → inv_cfg s w → nothing_deferred w → enabled e w = true →
  nothing_deferred (effect e w).
Proof.
  intros Hinv Hcfg HP Hen Hl'.
  destruct (live w) eqn:Hl.
  2: { destruct (effect_done e w Hinv Hl Hen) as (_ & _ & _ & Hd).
       congruence. }
  destruct (HP Hl) as (Hnow & Hdef & Hget).
  destruct (ends_request e w) eqn:Hend.
  { rewrite (live_effect e w Hinv Hl Hen), Hend in Hl'. discriminate. }
  destruct (not_ending e w Hen Hend)
    as [[rfh ->] | [Hstream | (-> & task & rest & getter & Hor & Hg)]].
  - destruct (kept_ui_task rfh w) as (Ek & Ec & _).
    apply kept_same in Ek as (_ & -> & _ & _ & _ & _ & _ & ->).
    rewrite Ec. done.
  - destruct (streaming_effect e w Hstream) as [Hc Ek].
    apply kept_same in Ek as (_ & -> & _ & _ & _ & _ & -> & ->).
    destruct Hc as (_ & _ & _ & -> & _). done.
  - destruct (continue_effect s w task rest getter Hinv Hcfg Hl Hor Hg)
      as (-> & Ec & Ek & Hld & _).
    pose proof (kept_continued (ct_render_frame_id task)
                  (ct_request_id task) getter
                  (World.set_originating_tasks rest w)) as Ek'.
    apply kept_fields in Ek' as (_ & -> & _ & _ & _ & _ & -> & ->).
    rewrite loader_continued.
    apply kept_same in Ek as (_ & -> & _ & _ & _ & _ & _ & ->). done.
Qed.

Lemma nothing_deferred_started s : nothing_deferred (started s).
Proof.
  unfold started, Start. by destruct (gurl_is_valid _).
Qed.

Lemma reach_nothing_deferred s es w :
  setup_ok s → run es (started s) = Some w → nothing_deferred w.
Proof.
  intros Hs.
  apply (run_invariant s nothing_deferred);
    [| by apply inv_started | apply inv_cfg_started
     | apply nothing_deferred_started].
  intros e w0. apply nothing_deferred_step.
Qed.

(** X7.  Along every run, a loader that exists delivers the bodies of
    HTTP error responses, retries twice on a 5xx response or a network
    change unless the descriptor has the no-retry flag, in which case no
    retry is configured; it calls back on upload progress exactly when
    the descriptor asks for it, and it carries the identifier under which
    the request is registered. *)
Theorem X7_loader_policy
    (s : Setup) (es : list Event) (w : World.t) (loader : SimpleURLLoader.t) :
  setup_ok s → run es (started s) = Some w →
  Context.loader_ (World.ctx w) = Some loader →
  let flags := CefRequestImpl.GetFlags (s_request s) in
  SimpleURLLoader.allow_http_error_results loader = true
  ∧ SimpleURLLoader.retry_options loader
    = (if has_flag flags UR_FLAG_NO_RETRY_ON_5XX then None
       else Some (2, Z.lor RETRY_ON_5XX RETRY_ON_NETWORK_CHANGE))
  ∧ SimpleURLLoader.on_upload_progress_callback loader
    = has_flag flags UR_FLAG_REPORT_UPLOAD_PROGRESS
  ∧ (∃ id, SimpleURLLoader.request_id loader = Some id
           ∧ id <= kInitialRequestID
           ∧ World.g_manager w !! id = Some (registered s)).
Proof.
  intros Hs Hrun Hld flags.
  destruct (reach_registry s es w Hs Hrun) as (_ & _ & Hreg).
  rewrite Hld in Hreg. destruct Hreg as (Hid & Hle & Hm).
  split; [|split; [|split]].
  4: { eexists. split; [exact Hid|]. split; [exact Hle|].
       rewrite Hm. apply lookup_insert_eq. }
  all: destruct (cfg_after s w (reach_cfg s es w Hs Hrun) loader Hld)
         as (_ & rf & id & ->).
  all: unfold configured_loader, configure, descriptor, flags.
  all: destruct (s_request s); simpl; rewrite ?orb_false_r; reflexivity.
Qed.

(** X10.  Along every run, nothing is queued for later deletion while the
    request is live, nor when it is torn down by a cancel, a stopped
    redirect, a headers-only completion or a continuation without loader
    factory: those delete the loader at once.  When the stream consumer's
    completion callback tears the request down, exactly two deletions are
    queued, the loader first and then its factory getter, and the loader
    is the one that reported the result. *)
Theorem X10_deferred_deletion
    (s : Setup) (es : list Event) (w : World.t) :
  setup_ok s → run es (started s) = Some w →
  (live w = true → World.deferred w = [])
  ∧ (Forall (fun e => is_stream_completion e = false) es →
     World.deferred w = [])
  ∧ (∀ success result, EvComplete success result ∈ es →
     ∃ loader getter,
       World.deferred w = [DeleteSoon loader; ReleaseSoon (Some getter)]
       ∧ SimpleURLLoader.result loader = result).
Proof.
  intros Hs Hrun. split; [|split].
  - intros Hl. by destruct (reach_nothing_deferred s es w Hs Hrun Hl) as (_ & ? & _).
  - intros Hq. revert Hrun.
    apply (run_invariant_on s (fun e => is_stream_completion e = false)
             (fun w => nothing_deferred w ∧ World.deferred w = []));
      [| exact Hq | by apply inv_started | apply inv_cfg_started
       | split; [apply nothing_deferred_started|] ].
    2: { unfold started, Start. by destruct (gurl_is_valid _). }
    clear es w Hq. intros e w He Hinv Hcfg [HP Hdef] Hen.
    split; [by apply (nothing_deferred_step s)|].
    destruct (live w) eqn:Hl.
    2: { destruct (kept_dead e w Hinv Hl Hen) as (Ek & _).
         apply kept_same in Ek as (_ & -> & _). exact Hdef. }
    destruct (ends_request e w) eqn:Hend.
    + destruct (teardown_effect e w Hinv Hl Hen Hend) as [_ Ek].
      apply kept_fields in Ek as (_ & -> & _). rewrite Hdef.
      by destruct e.
    + pose proof (nothing_deferred_step s e w Hinv Hcfg HP Hen) as HP'.
      unfold nothing_deferred in HP'.
      rewrite (live_effect e w Hinv Hl Hen), Hend in HP'.
      by destruct (HP' eq_refl) as (_ & ? & _).
  - intros success result Hin.
    apply list_elem_of_split in Hin as (es1 & es2 & ->).
    rewrite run_app in Hrun.
    destruct (run es1 (started s)) as [w1|] eqn:Hrun1; [|discriminate].
    change (run (EvComplete success result :: es2) w1 = Some w) in Hrun.
    cbn [run] in Hrun.
    destruct (enabled (EvComplete success result) w1) eqn:Hen;
      [|discriminate].
    pose proof (reach_inv s es1 w1 Hs Hrun1) as Hinv1.
    destruct (handle_inv _ w1 Hinv1 Hen eq_refl) as [Hh Hinv2].
    rewrite Hh in Hrun.
    pose proof Hen as Hen'. simpl in Hen'.
    apply loader_has_Some in Hen' as (l & Hld & _).
    pose proof (inv_loader_live_facts w1 l Hinv1 Hld) as Hl1.
    destruct (reach_nothing_deferred s es1 w1 Hs Hrun1 Hl1)
      as (Hnow & Hdef & Hget).
    destruct (teardown_effect _ w1 Hinv1 Hl1 Hen eq_refl) as [Hd Ek].
    apply kept_fields in Ek as (_ & Ed & _).
    destruct (kept_run_dead es2 _ w Hinv2 Hd Hrun) as [Ek2 _].
    apply kept_same in Ek2 as (_ & -> & _). rewrite Ed, Hdef.
    cbn [deferred_by]. unfold deferred_by_cleanup.
    rewrite loader_with_result, Hld.
    destruct (kept_same w1 _ (kept_with_result result w1))
      as (_ & _ & _ & _ & _ & _ & -> & ->).
    rewrite Hnow. simpl. rewrite Hld in Hget. simpl in Hget.
    destruct (Context.loader_factory_getter_ (World.ctx w1)) as [g|];
      [|discriminate].
    eexists _, g. split; [reflexivity|]. apply result_set_result.
Qed.

End TeardownFacts.

(** ** What the public getters return along a run *)

Section GetterFacts.
Context `{Platform}.
Implicit Types w : World.t.

Lemma descriptor_fields s :
  CefRequestImpl.postdata_ (descriptor s)
    = CefRequestImpl.postdata_ (s_request s)
  ∧ CefRequestImpl.method_ (descriptor s)
    = CefRequestImpl.method_ (s_request s).
Proof. unfold descriptor. by destruct (s_request s). Qed.

Lemma descriptor_kept_step s e w :
  inv w → inv_cfg s w → descriptor_kept s w → enabled e w = true →
  descriptor_kept s (effect e w).
Proof.
  intros Hinv Hcfg HP Hen. unfold descriptor_kept in *.
  destruct (live w) eqn:Hl.
  2: { destruct (kept_dead e w Hinv Hl Hen) as (_ & -> & _). exact HP. }
  destruct (ends_request e w) eqn:Hend.
  { destruct (teardown_effect e w Hinv Hl Hen Hend) as [_ Ek].
    apply kept_fields in Ek as (_ & _ & _ & -> & _). exact HP. }
  destruct (not_ending e w Hen Hend)
    as [[rfh ->] | [Hstream | (-> & task & rest & getter & Hor & Hg)]].
  - destruct (kept_ui_task rfh w) as (_ & -> & _). exact HP.
  - destruct (streaming_effect e w Hstream) as [_ Ek].
    apply kept_same in Ek as (_ & _ & _ & -> & _). exact HP.
  - destruct (continue_effect s w task rest getter Hinv Hcfg Hl Hor Hg)
      as (-> & Ec & _ & Hld & _).
    pose proof (kept_continued (ct_render_frame_id task)
                  (ct_request_id task) getter
                  (World.set_originating_tasks rest w)) as Ek'.
    apply kept_fields in Ek' as (_ & _ & _ & -> & _).
    rewrite Ec. destruct (cfg_before s w Hcfg Hl Hld) as (-> & _).
    destruct (descriptor_fields s) as [-> ->]. by right.
Qed.

Lemma reach_descriptor s es w :
  setup_ok s → run es (started s) = Some w → descriptor_kept s w.
Proof.
  intros Hs.
  apply (run_invariant s (descriptor_kept s));
    [| by apply inv_started | apply inv_cfg_started |].
  - intros e w0. apply descriptor_kept_step.
  - left. unfold started, Start. by destruct (gurl_is_valid _).
Qed.

(** X11.  Along every run, on the owning thread, [GetRequest] returns the
    descriptor the request was created with: same URL, headers, body and
    flags, and read-only.  Its method is the original one, or POST when
    the descriptor has a body and its method was GET or HEAD; once the
    loader exists it is the method of the transport request. *)
Theorem X11_descriptor_is_kept
    (s : Setup) (es : list Event) (w : World.t) :
  setup_ok s → run es (started s) = Some w →
  ∃ rq, CefBrowserURLRequest.GetRequest true w = Ok (Some rq)
    ∧ CefRequestImpl.url_ rq = CefRequestImpl.url_ (s_request s)
    ∧ CefRequestImpl.headermap_ rq = CefRequestImpl.headermap_ (s_request s)
    ∧ CefRequestImpl.postdata_ rq = CefRequestImpl.postdata_ (s_request s)
    ∧ CefRequestImpl.flags_ rq = CefRequestImpl.flags_ (s_request s)
    ∧ CefRequestImpl.read_only_ rq = true
    ∧ (CefRequestImpl.method_ rq = CefRequestImpl.method_ (s_request s)
       ∨ (CefRequestImpl.method_ rq = "POST"%string
          ∧ is_Some (CefRequestImpl.postdata_ (s_request s))
          ∧ (CefRequestImpl.method_ (s_request s) = "GET"%string
             ∨ CefRequestImpl.method_ (s_request s) = "HEAD"%string)))
    ∧ (∀ loader, Context.loader_ (World.ctx w) = Some loader →
         CefRequestImpl.method_ rq
         = ResourceRequest.method (SimpleURLLoader.resource_request loader)).
Proof.
  intros Hs Hrun. exists (Context.request_ (World.ctx w)).
  split; [reflexivity|].
  pose proof (reach_cfg s es w Hs Hrun) as Hcfg.
  assert (Hm : ∀ loader, Context.loader_ (World.ctx w) = Some loader →
            CefRequestImpl.method_ (Context.request_ (World.ctx w))
            = ResourceRequest.method
                (SimpleURLLoader.resource_request loader)).
  { intros loader Hld.
    destruct (cfg_after s w Hcfg loader Hld) as (-> & rf & id & ->).
    unfold fixed_descriptor, configured_loader, configure, transport_request,
      fixed_method, descriptor.
    destruct (s_request s) as [url method headers body flags ro]. simpl.
    destruct (has_flag flags UR_FLAG_ALLOW_STORED_CREDENTIALS); simpl.
    all: destruct body; [|reflexivity].
    all: destruct (String.eqb method "GET" || String.eqb method "HEAD");
      reflexivity. }
  destruct (reach_descriptor s es w Hs Hrun) as [E | E]; rewrite E in *.
  - unfold descriptor in *. destruct (s_request s). simpl in *.
    repeat split; try reflexivity; [by left | exact Hm].
  - unfold fixed_descriptor, descriptor in *.
    destruct (s_request s) as [url method headers body flags ro].
    simpl in *. destruct body as [elements|].
    + destruct (String.eqb method "GET") eqn:Eg; simpl in *.
      * apply String.eqb_eq in Eg. repeat split; try reflexivity; [|exact Hm].
        right. split; [reflexivity|]. split; [eauto | by left].
      * destruct (String.eqb method "HEAD") eqn:Eh; simpl in *.
        -- apply String.eqb_eq in Eh.
           repeat split; try reflexivity; [|exact Hm].
           right. split; [reflexivity|]. split; [eauto | by right].
        -- repeat split; try reflexivity; [by left | exact Hm].
    + repeat split; try reflexivity; [by left | exact Hm].
Qed.

Lemma error_follows_obs w w' :
  status w' = status w →
  CefResponseImpl.GetError (response w')
    = CefResponseImpl.GetError (response w) →
  response_was_cached w' = response_was_cached w →
  error_follows_status w → error_follows_status w'.
Proof. unfold error_follows_status. by intros -> -> ->. Qed.

Lemma error_follows_same w w' :
  obs w' = obs w → error_follows_status w → error_follows_status w'.
Proof.
  intros E. apply obs_fields in E as (Hs & Hr & Hc & _).
  apply error_follows_obs; congruence.
Qed.

Lemma error_follows_step e w :
  inv w → error_follows_status w → enabled e w = true →
  error_follows_status (effect e w).
Proof.
  intros Hinv HP Hen.
  pose proof (effect_inv e w Hinv Hen) as Hinv'.
  destruct (live w) eqn:Hl.
  2: { destruct (effect_done e w Hinv Hl Hen) as (Ho & _).
       by apply (error_follows_same w). }
  pose proof (inv_pending w Hinv Hl) as Hs.
  assert (HP0 : CefResponseImpl.GetError (response w) = ERR_NONE
                ∧ response_was_cached w = false)
    by (unfold error_follows_status in HP; by rewrite Hs in HP).
  destruct (ends_request e w) eqn:Hend.
  - assert (Hd : live (effect e w) = false)
      by (by rewrite (live_effect e w Hinv Hl Hen), Hend).
    unfold error_follows_status.
    destruct (effect_pending e w Hinv Hs Hen)
      as [[Ho _] | [(url & headers & _ & _ & Ho)
       | [(success & result & r & _ & Ho) | (r & _ & _ & _ & Ho)]]];
      apply obs_fields in Ho as (Hs' & Hr' & Hc' & _).
    + destruct (inv_terminal _ Hinv' Hd) as [Ht | [Ht | Ht]]; congruence.
    + destruct (inv_terminal _ Hinv' Hd) as [Ht | [Ht | Ht]]; congruence.
    + rewrite Hs'. by destruct success.
    + rewrite Hs', Hr', Hc'.
      destruct (aborted_response_fields r) as (He & _).
      unfold CefResponseImpl.GetError. by destruct HP0.
  - destruct (not_ending e w Hen Hend)
      as [[rfh ->] | [Hstream | (-> & task & rest & getter & Hor & Hg)]].
    + apply (error_follows_same w); [apply obs_ui_task | exact HP].
    + destruct e; try discriminate; cbn [effect].
      * apply (error_follows_obs w); [| | |exact HP];
          pose proof (obs_response_started final_url response_head w) as Ho;
          apply obs_fields in Ho as (Hs' & Hr' & Hc' & _); try done.
      * apply (error_follows_same w); [apply obs_uploaded | exact HP].
      * apply (error_follows_same w); [apply obs_progressed | exact HP].
      * apply (error_follows_same w); [apply obs_received | exact HP].
      * apply (error_follows_same w); [apply obs_retried | exact HP].
    + cbn [effect]. rewrite Hor. cbv zeta.
      destruct (obs_set_originating rest w) as [Eo ->]. rewrite Hl, Hg.
      apply (error_follows_same w); [|exact HP]. by rewrite obs_continued.
Qed.

Lemma reach_error_follows s es w :
  setup_ok s → run es (started s) = Some w → error_follows_status w.
Proof.
  intros Hs.
  apply (run_invariant s error_follows_status);
    [| by apply inv_started | apply inv_cfg_started |].
  - intros e w0 Hinv _. by apply error_follows_step.
  - unfold started, Start. by destruct (gurl_is_valid _).
Qed.

(** X12.  Along every run, on the owning thread, [GetRequestStatus] never
    returns UNKNOWN.  While it returns PENDING, [GetRequestError] returns
    no error and [ResponseWasCached] false; when it returns CANCELED,
    [GetRequestError] returns ABORTED and [ResponseWasCached] false. *)
Theorem X12_error_follows_status
    (s : Setup) (es : list Event) (w : World.t) :
  setup_ok s → run es (started s) = Some w →
  ∃ st error cached,
    CefBrowserURLRequest.GetRequestStatus true w = Ok st
    ∧ CefBrowserURLRequest.GetRequestError true w = Ok error
    ∧ CefBrowserURLRequest.ResponseWasCached true w = Ok cached
    ∧ st ≠ UR_UNKNOWN
    ∧ (st = UR_IO_PENDING → error = ERR_NONE ∧ cached = false)
    ∧ (st = UR_CANCELED → error = ERR_ABORTED ∧ cached = false).
Proof.
  intros Hs Hrun.
  exists (status w), (CefResponseImpl.GetError (response w)),
    (response_was_cached w).
  do 3 (split; [reflexivity|]).
  pose proof (reach_inv s es w Hs Hrun) as Hinv.
  pose proof (reach_error_follows s es w Hs Hrun) as HP.
  unfold error_follows_status in HP. split; [|split].
  - destruct (live w) eqn:Hl.
    + by rewrite (inv_pending w Hinv Hl).
    + destruct (inv_terminal w Hinv Hl) as [Ht | [Ht | Ht]]; by rewrite Ht.
  - intros E. by rewrite E in HP.
  - intros E. by rewrite E in HP.
Qed.

Lemma references_step s e w :
  inv w → inv_cfg s w →
  nothing_deferred w ∧ references_held s w → enabled e w = true →
  nothing_deferred (effect e w) ∧ references_held s (effect e w).
Proof.
  intros Hinv Hcfg [HD HP] Hen.
  split; [by apply (nothing_deferred_step s)|].
  pose proof (effect_inv e w Hinv Hen) as Hinv'.
  unfold references_held in *.
  destruct (live w) eqn:Hl.
  2: { destruct (kept_dead e w Hinv Hl Hen) as (_ & Ec & _).
       rewrite (live_ctx _ _ Ec), Hl, Ec. exact HP. }
  destruct HP as [Hc Hrc]. destruct (HD Hl) as (_ & _ & Hget).
  destruct (ends_request e w) eqn:Hend.
  { destruct (teardown_effect e w Hinv Hl Hen Hend) as [Hd Ek].
    apply kept_fields in Ek as (_ & _ & _ & _ & Ec & Erc & Eg & _).
    rewrite Hd, Ec, Erc, Eg, (dead_no_loader _ Hinv' Hd).
    repeat split. unfold getter_after_cleanup.
    destruct (Context.loader_ (World.ctx w)); [reflexivity|].
    by destruct (Context.loader_factory_getter_ (World.ctx w)). }
  rewrite (live_effect e w Hinv Hl Hen), Hend. simpl.
  destruct (not_ending e w Hen Hend)
    as [[rfh ->] | [Hstream | (-> & task & rest & getter & Hor & Hg)]].
  - destruct (kept_ui_task rfh w) as (_ & -> & _). done.
  - destruct (streaming_effect e w Hstream) as [_ Ek].
    apply kept_same in Ek as (_ & _ & _ & _ & -> & -> & _). done.
  - destruct (continue_effect s w task rest getter Hinv Hcfg Hl Hor Hg)
      as (-> & Ec & _).
    pose proof (kept_continued (ct_render_frame_id task)
                  (ct_request_id task) getter
                  (World.set_originating_tasks rest w)) as Ek'.
    apply kept_fields in Ek' as (_ & _ & _ & _ & -> & -> & _).
    rewrite Ec. done.
Qed.

Lemma reach_references s es w :
  setup_ok s → run es (started s) = Some w → references_held s w.
Proof.
  intros Hs Hrun.
  apply (run_invariant s
           (fun w => nothing_deferred w ∧ references_held s w) es
           (started s) w);
    [| by apply inv_started | apply inv_cfg_started | | exact Hrun].
  - intros e w0. apply references_step.
  - split; [apply nothing_deferred_started|].
    unfold started, Start. by destruct (gurl_is_valid _).
Qed.

(** X13.  Along every run, on the owning thread, [GetClient] returns the
    client the request was created with while the request is live, and
    null once it is torn down: teardown releases the client, the request
    context, the loader and the factory getter. *)
Theorem X13_references_released
    (s : Setup) (es : list Event) (w : World.t) :
  setup_ok s → run es (started s) = Some w →
  CefBrowserURLRequest.GetClient true w
    = Ok (if live w then Some (s_client s) else None)
  ∧ (live w = true →
     Context.request_context_ (World.ctx w) = s_request_context s)
  ∧ (live w = false →
     Context.request_context_ (World.ctx w) = None
     ∧ Context.loader_ (World.ctx w) = None
     ∧ Context.loader_factory_getter_ (World.ctx w) = None).
Proof.
  intros Hs Hrun. pose proof (reach_references s es w Hs Hrun) as HP.
  unfold references_held, CefBrowserURLRequest.GetClient in *. simpl.
  destruct (live w).
  - destruct HP as [-> ->]. split; [reflexivity|]. split; [done|discriminate].
  - destruct HP as (-> & -> & -> & ->). done.
Qed.

End GetterFacts.

(** ** The calls made along a run *)

Section CallFacts.
Context `{Platform}.
Implicit Types w : World.t.

(** Induction along a run, with the events handled so far; each of them
    brought no null pointer. *)
Lemma run_history_set s (P : list Event → World.t → Prop) :
  (∀ es e w, inv w → inv_cfg s w → P es w → enabled e w = true →
             null_free e = true → P (es ++ [e]) (effect e w)) →
  ∀ es es0 w w',
    inv w → inv_cfg s w → P es0 w → run es w = Some w' → P (es0 ++ es) w'.
Proof.
  intros Hstep es.
  induction es as [|e es IH]; intros es0 w w' Hinv Hcfg HP Hrun.
  - simpl in Hrun. injection Hrun as <-. by rewrite app_nil_r.
  - destruct (run_cons e es w w' Hinv Hrun)
      as (Hen & Hnf & Hh & Hinv1 & Hrun1).
    replace (es0 ++ e :: es) with ((es0 ++ [e]) ++ es)
      by (by rewrite <- app_assoc).
    apply (IH _ (effect e w)); auto using effect_cfg.
Qed.

Lemma run_history s (P : list Event → World.t → Prop) :
  (∀ es e w, inv w → inv_cfg s w → P es w → enabled e w = true →
             P (es ++ [e]) (effect e w)) →
  ∀ es es0 w w',
    inv w → inv_cfg s w → P es0 w → run es w = Some w' → P (es0 ++ es) w'.
Proof. intros Hstep. apply run_history_set. auto. Qed.

Lemma reach_history_set s (P : list Event → World.t → Prop) es w :
  (∀ es e w, inv w → inv_cfg s w → P es w → enabled e w = true →
             null_free e = true → P (es ++ [e]) (effect e w)) →
  P [] (started s) →
  setup_ok s → run es (started s) = Some w → P es w.
Proof.
  intros Hstep H0 Hs Hrun.
  apply (run_history_set s P Hstep es [] (started s) w);
    [by apply inv_started | apply inv_cfg_started | exact H0 | exact Hrun].
Qed.

Lemma reach_history s (P : list Event → World.t → Prop) es w :
  (∀ es e w, inv w → inv_cfg s w → P es w → enabled e w = true →
             P (es ++ [e]) (effect e w)) →
  P [] (started s) →
  setup_ok s → run es (started s) = Some w → P es w.
Proof. intros Hstep. apply reach_history_set. auto. Qed.

Lemma chunks_app es es' : chunks (es ++ es') = chunks es ++ chunks es'.
Proof.
  induction es as [|e es IH]; [done|]. destruct e; simpl; by rewrite ?IH.
Qed.

Lemma uploads_app es es' : uploads (es ++ es') = uploads es ++ uploads es'.
Proof.
  induction es as [|e es IH]; [done|]. destruct e; simpl; by rewrite ?IH.
Qed.

Lemma closures_app es es' : closures (es ++ es') = closures es ++ closures es'.
Proof. unfold closures. apply flat_map_app. Qed.

Lemma filter_notice w :
  List.filter is_upload_progress (upload_notice w) = upload_notice w.
Proof. unfold upload_notice. by destruct (negb _ && _). Qed.

Lemma data_notice w : List.filter is_download_data (upload_notice w) = [].
Proof. unfold upload_notice. by destruct (negb _ && _). Qed.

(** The request whose calls are emitted is the handle. *)
Lemma loader_handle s p w :
  inv w → inv_cfg s w → loader_has p w = true →
  live w = true
  ∧ Context.url_request_ (World.ctx w) = Some (s_url_request s).
Proof.
  intros Hinv Hcfg Hen. apply loader_has_Some in Hen as (l & Hld & _).
  pose proof (inv_loader_live_facts w l Hinv Hld) as Hl.
  split; [exact Hl | by apply (cfg_handle s w Hcfg)].
Qed.

Lemma data_emitted s e w :
  inv w → inv_cfg s w → enabled e w = true →
  List.filter is_download_data (emitted e w)
  = List.map (CallOnDownloadData (Some (s_url_request s))) (chunks [e]).
Proof.
  intros Hinv Hcfg Hen. destruct e; cbn [emitted chunks]; cbv zeta;
    rewrite ?List.filter_app, ?data_notice; try reflexivity.
  - by destruct (live w).
  - destruct (World.originating_tasks w); [done|]. by destruct (_ && _).
  - by destruct (_ && _).
  - by destruct (live w).
  - destruct (_ =? 0); [done|]. by rewrite List.filter_app, data_notice.
  - destruct (loader_handle s _ w Hinv Hcfg Hen) as [_ ->]. reflexivity.
  - destruct success; by rewrite ?data_notice.
Qed.

Ltac field_tac w :=
  open_world w; norm;
  repeat match goal with
         | |- context [if ?b then _ else _] => destruct b
         | |- context [match ?b with Some _ => _ | None => _ end] =>
             destruct b
         end;
  norm; rewrite ?app_nil_r; reflexivity.

Lemma transport_calls_canceled map_ w :
  World.transport_calls (canceled map_ w) = World.transport_calls w.
Proof. unfold canceled, cleaned. field_tac w. Qed.

Lemma transport_calls_completed success loader map_ w :
  World.transport_calls (completed success loader map_ w)
  = World.transport_calls w.
Proof.
  unfold completed, finalized, notified, upload_notice, cleaned.
  destruct success; field_tac w.
Qed.

Lemma transport_calls_headers_stored headers w :
  World.transport_calls (headers_stored headers w) = World.transport_calls w.
Proof.
  unfold headers_stored, progressed, notified, upload_notice.
  open_world w. destruct request_. norm.
  repeat match goal with
         | |- context [if ?b then _ else _] => destruct b
         end; reflexivity.
Qed.

Lemma transport_calls_effect e w :
  inv w → enabled e w = true →
  World.transport_calls (effect e w) = World.transport_calls w ++ closures [e].
Proof.
  intros Hinv Hen.
  destruct (live w) eqn:Hl.
  2: { destruct (kept_dead e w Hinv Hl Hen) as (_ & _ & ->).
       pose proof (dead_no_loader w Hinv Hl) as Hld.
       destruct e; simpl in Hen; unfold loader_has in Hen;
         rewrite ?Hld in Hen; try discriminate; by rewrite app_nil_r. }
  destruct e; cbn [effect closures flat_map]; cbv zeta;
    rewrite ?app_nil_r.
  - rewrite Hl. apply transport_calls_canceled.
  - destruct (World.ui_tasks w) as [|task rest]; [done|].
    unfold GetURLLoaderFactoryGetterOnUIThread, MakeRequestID.
    destruct (ui_frame task), rfh; open_world w; reflexivity.
  - destruct (World.originating_tasks w) as [|task rest]; [done|].
    destruct (obs_set_originating rest w) as [_ ->]. rewrite Hl.
    destruct (ct_loader_factory_getter task).
    + unfold continued. open_world w. reflexivity.
    + rewrite transport_calls_canceled. open_world w. reflexivity.
  - simpl in Hen. apply loader_has_Some in Hen as (l & Hld & _).
    rewrite loader_with_result, Hld. cbn [fmap option_fmap option_map].
    unfold headers_completed.
    rewrite transport_calls_completed, transport_calls_headers_stored.
    unfold with_result. open_world w. reflexivity.
  - unfold redirected. rewrite transport_calls_canceled.
    unfold response_stored. field_tac w.
  - unfold response_started, response_stored. field_tac w.
  - unfold uploaded. field_tac w.
  - unfold progressed, notified, upload_notice. field_tac w.
  - unfold received. open_world w. reflexivity.
  - simpl in Hen. apply loader_has_Some in Hen as (l & Hld & _).
    rewrite loader_with_result, Hld. cbn [fmap option_fmap option_map].
    rewrite transport_calls_completed.
    unfold with_result. open_world w. reflexivity.
  - unfold retried. open_world w. reflexivity.
Qed.

(** X14.  Along every run, the client receives as download data exactly
    the pieces the transport delivered, each once and in the order of
    their delivery, with the handle of the request; and the request has
    run the closures of the transport in the order it was given them:
    the resume closure once for each piece, the retry closure once for
    each retry. *)
Theorem X14_download_data_in_order
    (s : Setup) (es : list Event) (w : World.t) :
  setup_ok s → run es (started s) = Some w →
  List.filter is_download_data (World.client_calls w)
  = List.map (CallOnDownloadData (Some (s_url_request s))) (chunks es)
  ∧ World.transport_calls w = closures es.
Proof.
  intros Hs Hrun.
  apply (reach_history s (data_forwarded s) es w); [| |exact Hs|exact Hrun].
  - clear. intros es e w Hinv Hcfg [Hd Ht] Hen. split.
    + rewrite (calls_effect e w Hinv Hen), List.filter_app, Hd,
        (data_emitted s e w Hinv Hcfg Hen), chunks_app, List.map_app.
      reflexivity.
    + rewrite (transport_calls_effect e w Hinv Hen), Ht, closures_app.
      reflexivity.
  - unfold data_forwarded, started, Start. by destruct (gurl_is_valid _).
Qed.

End CallFacts.

(** ** Upload progress along a run *)

Section UploadFacts.
Context `{Platform}.
Implicit Types w : World.t.

Lemma got_track w calls request got size :
  track w = (calls, request, got, size) → got_upload_complete w = got.
Proof.
  intros E. unfold got_upload_complete.
  by apply track_fields in E as (_ & _ & -> & _).
Qed.

Lemma got_same w w' :
  track w' = track w → got_upload_complete w' = got_upload_complete w.
Proof. apply got_track. Qed.

Lemma notice_spent w :
  upload_notice w = []
  ∨ (got_upload_complete w = false
     ∧ 0 < Context.upload_data_size_ (World.ctx w)
     ∧ upload_notice w
       = [CallOnUploadProgress (Context.url_request_ (World.ctx w))
            (Context.upload_data_size_ (World.ctx w))
            (Context.upload_data_size_ (World.ctx w))]).
Proof.
  unfold upload_notice, got_upload_complete.
  destruct (Context.got_upload_progress_complete_ (World.ctx w));
    [by left|].
  destruct (Context.upload_data_size_ (World.ctx w) >? 0) eqn:E;
    [|by left].
  right. simpl. split; [done|]. split; [lia | done].
Qed.

(** What an event other than a report of the transport adds to the
    upload-progress calls: nothing, or the synthesized notification. *)
Lemma upload_effect e w :
  inv w → enabled e w = true → is_upload_event e = false →
  (List.filter is_upload_progress (emitted e w) = []
   ∧ got_upload_complete (effect e w) = got_upload_complete w)
  ∨ (live w = true
     ∧ List.filter is_upload_progress (emitted e w) = upload_notice w
     ∧ got_upload_complete (effect e w)
       = got_upload_complete w
         || (Context.upload_data_size_ (World.ctx w) >? 0)).
Proof.
  intros Hinv Hen He.
  destruct (live w) eqn:Hl.
  2: { left. destruct (kept_dead e w Hinv Hl Hen) as (_ & Ec & _).
       destruct (effect_done e w Hinv Hl Hen) as (_ & Hc & _).
       rewrite (calls_effect e w Hinv Hen) in Hc.
       rewrite <- (app_nil_r (World.client_calls w)) in Hc at 2.
       apply app_inv_head in Hc. rewrite Hc.
       unfold got_upload_complete. by rewrite Ec. }
  destruct e; try discriminate; cbn [effect emitted]; cbv zeta;
    rewrite ?Hl.
  - left. split; [reflexivity|]. apply (got_track _ _ _ _ _ (track_canceled _ w)).
  - left. split; [reflexivity|].
    destruct (track_ui_task rfh w) as (Et & _). by apply got_same.
  - left. destruct (World.originating_tasks w) as [|task rest]; [done|].
    destruct (obs_set_originating rest w) as [_ ->]. rewrite Hl.
    assert (Eg : got_upload_complete (World.set_originating_tasks rest w)
                 = got_upload_complete w)
      by (unfold got_upload_complete; open_world w; reflexivity).
    destruct (ct_loader_factory_getter task); simpl.
    + split; [reflexivity|].
      by rewrite (got_track _ _ _ _ _ (track_continued _ _ _ _)).
    + split; [reflexivity|].
      by rewrite (got_track _ _ _ _ _ (track_canceled _ _)).
  - right. split; [reflexivity|].
    simpl in Hen. apply loader_has_Some in Hen as (l & Hld & _).
    rewrite loader_with_result, Hld. cbn [fmap option_fmap option_map].
    split.
    + rewrite !List.filter_app, filter_notice.
      destruct (_ && _); simpl; by rewrite app_nil_r.
    + unfold headers_completed.
      rewrite (got_track _ _ _ _ _ (track_completed _ _ _ _)).
      unfold got_upload_complete.
      pose proof (track_headers_stored (pointee headers) (with_result result w)) as Eh.
      pose proof (track_with_result result w) as Ew.
      apply track_fields in Ew as (_ & _ & Eg & Es).
      destruct (_ && _).
      * apply track_fields in Eh as (_ & _ & -> & ->). rewrite Eg, Es.
        by destruct (Context.got_upload_progress_complete_ _), (_ >? 0).
      * apply track_fields in Eh as (_ & _ & -> & ->). by rewrite Eg, Es.
  - left. split; [reflexivity|]. unfold redirected.
    rewrite (got_track _ _ _ _ _ (track_canceled _ _)).
    exact (got_same _ _
             (track_response_stored (RedirectInfo.new_url redirect_info)
                (pointee (URLResponseHead.headers response_head)) w)).
  - left. split; [reflexivity|]. 
    exact (got_same _ _ (track_response_started final_url response_head w)).
  - pose proof (track_progressed current w) as Et.
    destruct (CefResponseImpl.GetStatus _ =? 0).
    + left. split; [reflexivity|]. by apply got_same.
    + right. split; [reflexivity|]. split.
      * rewrite List.filter_app, filter_notice. simpl. apply app_nil_r.
      * unfold got_upload_complete.
        by apply track_fields in Et as (_ & _ & -> & _).
  - left. split; [reflexivity|].
    apply (got_track _ _ _ _ _ (track_received _ w)).
  - simpl in Hen. apply loader_has_Some in Hen as (l & Hld & _).
    rewrite loader_with_result, Hld. cbn [fmap option_fmap option_map].
    rewrite (got_track _ _ _ _ _ (track_completed _ _ _ _)).
    pose proof (track_with_result result w) as Ew.
    apply track_fields in Ew as (_ & _ & Eg & Es). rewrite Eg, Es.
    destruct success.
    + right. split; [reflexivity|]. split; [|reflexivity].
      rewrite List.filter_app, filter_notice. simpl. apply app_nil_r.
    + left. split; reflexivity.
  - left. split; [reflexivity|]. exact (got_same _ _ (track_retried w)).
Qed.

Lemma uploads_other es e :
  is_upload_event e = false → uploads (es ++ [e]) = uploads es.
Proof. intros He. rewrite uploads_app. destruct e; try done; apply app_nil_r. Qed.

Lemma uploads_forwarded_step s es e w :
  inv w → inv_cfg s w → uploads_forwarded s es w → enabled e w = true →
  uploads_forwarded s (es ++ [e]) (effect e w).
Proof.
  intros Hinv Hcfg (before & synth & after & Hups & Hcalls & Hphase) Hen.
  unfold uploads_forwarded.
  rewrite (calls_effect e w Hinv Hen), List.filter_app, Hcalls.
  destruct (is_upload_event e) eqn:He.
  - destruct e; try discriminate. clear He.
    destruct (loader_handle s _ w Hinv Hcfg Hen) as [Hl Hu].
    pose proof (got_track _ _ _ _ _ (track_uploaded position total w)) as Eg.
    cbn [effect emitted]. rewrite Eg, Hu, uploads_app, Hups.
    cbn [uploads List.filter is_upload_progress].
    destruct Hphase as [(-> & -> & Hinc) | (n & Hn & -> & Hinc & Hgot)].
    + exists (before ++ [(position, total)]), [], [].
      rewrite !app_nil_r, List.map_app. split; [reflexivity|].
      split; [reflexivity|]. left. split; [done|]. split; [done|].
      intros Hfalse. apply orb_false_iff in Hfalse as [Hne Hgot].
      apply Forall_app. split; [by apply Hinc|].
      constructor; [|constructor]. simpl. by apply Z.eqb_neq.
    + exists before, [CallOnUploadProgress (Some (s_url_request s)) n n],
        (after ++ [(position, total)]).
      rewrite List.map_app, !app_assoc. split; [reflexivity|].
      split; [reflexivity|]. right. exists n.
      unfold got_upload_complete in Hgot. rewrite Hgot, orb_true_r. done.
  - rewrite (uploads_other es e He), Hups.
    destruct (upload_effect e w Hinv Hen He)
      as [[-> ->] | (Hl & -> & ->)].
    + rewrite app_nil_r. exists before, synth, after. done.
    + pose proof (cfg_handle s w Hcfg Hl) as Hu.
      destruct (notice_spent w) as [-> | (Hgot & Hpos & ->)].
      * rewrite app_nil_r. exists before, synth, after.
        split; [reflexivity|]. split; [reflexivity|].
        destruct Hphase as [(-> & -> & Hinc) | (n & Hn & -> & Hinc & Hgot)].
        -- left. split; [done|]. split; [done|].
           intros Hfalse. apply orb_false_iff in Hfalse as [Hg _].
           by apply Hinc.
        -- right. exists n. by rewrite Hgot.
      * destruct Hphase as [(-> & -> & Hinc) | (n & Hn & -> & _ & Hgot')];
          [|congruence].
        exists before,
          [CallOnUploadProgress (Some (s_url_request s))
             (Context.upload_data_size_ (World.ctx w))
             (Context.upload_data_size_ (World.ctx w))], [].
        rewrite Hu, !app_nil_r. split; [reflexivity|].
        split; [reflexivity|]. right.
        exists (Context.upload_data_size_ (World.ctx w)).
        split; [exact Hpos|]. split; [reflexivity|].
        split; [by apply Hinc|].
        rewrite Hgot. simpl. by apply Z.gtb_lt.
Qed.

(** X15.  Along every run, the upload-progress calls the client has
    received are the reports of the transport, each forwarded once, in
    order and with its own position and total, and at most one
    synthesized call.  The synthesized call has sent = total > 0, and it
    is never made after the transport has reported a complete upload:
    every report forwarded before it has position ≠ total. *)
Theorem X15_upload_progress_forwarded
    (s : Setup) (es : list Event) (w : World.t) :
  setup_ok s → run es (started s) = Some w →
  let request := Some (s_url_request s) in
  ∃ before synthesized after,
    uploads es = before ++ after
    ∧ List.filter is_upload_progress (World.client_calls w)
      = List.map (forwarded_upload request) before ++ synthesized
        ++ List.map (forwarded_upload request) after
    ∧ (synthesized = []
       ∨ ∃ n, 0 < n ∧ synthesized = [CallOnUploadProgress request n n]
              ∧ Forall (fun report => fst report ≠ snd report) before).
Proof.
  intros Hs Hrun request.
  assert (HP : uploads_forwarded s es w).
  { apply (reach_history s (uploads_forwarded s) es w);
      [| |exact Hs|exact Hrun].
    - intros es0 e w0. apply uploads_forwarded_step.
    - exists [], [], []. split; [reflexivity|]. split.
      + unfold started, Start. by destruct (gurl_is_valid _).
      + left. done. }
  destruct HP as (before & synth & after & Hups & Hcalls & Hphase).
  exists before, synth, after. split; [exact Hups|]. split; [exact Hcalls|].
  destruct Hphase as [(-> & _) | (n & Hn & -> & Hinc & _)];
    [by left | right; eauto].
Qed.

End UploadFacts.

(** ** Download progress along a run *)

Section DownloadFacts.
Context `{Platform}.
Implicit Types w : World.t.

Ltac size_tac w :=
  open_world w; norm;
  repeat match goal with
         | |- context [if ?b then _ else _] => destruct b
         end;
  reflexivity.

Lemma size_uploaded position total w :
  Context.download_data_size_ (World.ctx (uploaded position total w))
  = Context.download_data_size_ (World.ctx w).
Proof. unfold uploaded. size_tac w. Qed.

Lemma size_progressed current w :
  Context.download_data_size_ (World.ctx (progressed current w))
  = Context.download_data_size_ (World.ctx w).
Proof. unfold progressed, notified, upload_notice. size_tac w. Qed.

Lemma size_received string_piece w :
  Context.download_data_size_ (World.ctx (received string_piece w))
  = Context.download_data_size_ (World.ctx w).
Proof. unfold received. size_tac w. Qed.

Lemma size_retried w :
  Context.download_data_size_ (World.ctx (retried w))
  = Context.download_data_size_ (World.ctx w).
Proof. unfold retried. size_tac w. Qed.

Lemma size_response_started final_url response_head w :
  Context.download_data_size_
    (World.ctx (response_started final_url response_head w))
  = URLResponseHead.content_length response_head.
Proof. unfold response_started, response_stored. size_tac w. Qed.

Lemma size_continued rf id g w :
  Context.download_data_size_ (World.ctx (continued rf id g w))
  = Context.download_data_size_ (World.ctx w).
Proof. unfold continued. open_world w. reflexivity. Qed.

Lemma response_same w w' : obs w' = obs w → response w' = response w.
Proof. intros E. by apply obs_fields in E as (_ & -> & _). Qed.

Lemma last_response_snoc es e :
  last_response (es ++ [e])
  = match e with
    | EvResponseStarted _ response_head => Some response_head
    | _ => last_response es
    end.
Proof. unfold last_response. by rewrite fold_left_app. Qed.

Lemma response_tracked_step s es e w :
  inv w → inv_cfg s w → response_tracked es w → enabled e w = true →
  null_free e = true →
  response_tracked (es ++ [e]) (effect e w).
Proof.
  intros Hinv Hcfg HP Hen Hnf Hl'.
  destruct (live w) eqn:Hl.
  2: { destruct (effect_done e w Hinv Hl Hen) as (_ & _ & _ & Hd).
       congruence. }
  unfold response_tracked in HP. specialize (HP Hl).
  destruct (ends_request e w) eqn:Hend.
  { rewrite (live_effect e w Hinv Hl Hen), Hend in Hl'. discriminate. }
  rewrite last_response_snoc.
  destruct (not_ending e w Hen Hend)
    as [[rfh ->] | [Hstream | (-> & task & rest & getter & Hor & Hg)]].
  - destruct (kept_ui_task rfh w) as (_ & Ec & _).
    unfold response. by rewrite Ec.
  - destruct e; try discriminate; cbn [effect].
    + pose proof (obs_response_started final_url response_head w) as Ho.
      apply obs_fields in Ho as (_ & -> & _).
      rewrite size_response_started.
      split; [by apply bool_decide_eq_true in Hnf|].
      split; [|reflexivity].
      unfold CefResponseImpl.GetStatus.
      by destruct (stored_response_fields final_url
                     (pointee (URLResponseHead.headers response_head))
                     (response w))
        as (_ & -> & _).
    + by rewrite (response_same _ _ (obs_uploaded position total w)),
        size_uploaded.
    + by rewrite (response_same _ _ (obs_progressed current w)),
        size_progressed.
    + by rewrite (response_same _ _ (obs_received string_piece w)),
        size_received.
    + by rewrite (response_same _ _ (obs_retried w)), size_retried.
  - destruct (continue_effect s w task rest getter Hinv Hcfg Hl Hor Hg)
      as (-> & Ec & _).
    rewrite (response_same _ _ (obs_continued _ _ _ _)), size_continued.
    unfold response. by rewrite Ec.
Qed.

(** X16.  Along every run, a download-progress callback of the transport
    is handled without a crash.  Before the transport has announced a
    response, or when the response announced has status code 0, it is
    dropped: the client is not called at all.  Otherwise the client
    receives the upload notification if it is due, and then one
    download-progress call whose total is the content length of the last
    response announced.  The last response announced brought its headers
    (the request would not be running otherwise), and the status code is
    the one they carry. *)
Theorem X16_download_progress_total
    (s : Setup) (es : list Event) (w : World.t) (current : Z) :
  setup_ok s → run es (started s) = Some w →
  enabled (EvDownloadProgress current) w = true →
  ∃ w', handle (EvDownloadProgress current) w = Ok w'
    ∧ World.client_calls w'
      = World.client_calls w
        ++ match last_response es with
           | Some response_head =>
               if HttpResponseHeaders.response_code
                    (pointee (URLResponseHead.headers response_head)) =? 0
               then []
               else upload_notice w
                    ++ [CallOnDownloadProgress (Some (s_url_request s))
                          (to_int64 current)
                          (URLResponseHead.content_length response_head)]
           | None => []
           end
    ∧ ∀ response_head,
        last_response es = Some response_head →
        is_Some (URLResponseHead.headers response_head).
Proof.
  intros Hs Hrun Hen.
  pose proof (reach_inv s es w Hs Hrun) as Hinv.
  pose proof (reach_cfg s es w Hs Hrun) as Hcfg.
  destruct (handle_inv _ w Hinv Hen eq_refl) as [Hh _].
  exists (effect (EvDownloadProgress current) w). split; [exact Hh|].
  destruct (loader_handle s _ w Hinv Hcfg Hen) as [Hl Hu].
  assert (HP : response_tracked es w).
  { apply (reach_history_set s response_tracked es w);
      [| |exact Hs|exact Hrun].
    - intros es0 e w0. apply response_tracked_step.
    - intros _. unfold started, Start. by destruct (gurl_is_valid _). }
  specialize (HP Hl). unfold response in HP.
  split.
  - rewrite (calls_effect _ w Hinv Hen). f_equal. cbn [emitted]. cbv zeta.
    destruct (last_response es) as [response_head|].
    + destruct HP as (_ & -> & ->). by rewrite Hu.
    + by rewrite HP.
  - intros response_head E. rewrite E in HP. apply HP.
Qed.

End DownloadFacts.

(** ** From [Start] to the loader *)

Section FlowFacts.
Context `{Platform}.
Implicit Types w : World.t.

Lemma started_valid s :
  gurl_is_valid (CefRequestImpl.GetURL (s_request s)) = true →
  started s
  = World.set_ui_tasks
      [{| ui_frame := s_frame s;
          ui_request_context := s_request_context s |}] (initial s).
Proof.
  intros Hv. unfold started, Start. simpl.
  unfold CefRequestImpl.GetURL in Hv. by rewrite Hv.
Qed.

Lemma ui_task_started s rfh :
  setup_ok s →
  gurl_is_valid (CefRequestImpl.GetURL (s_request s)) = true →
  enabled (EvUiTask rfh) (started s) = true
  ∧ effect (EvUiTask rfh) (started s) = resolved_world s rfh.
Proof.
  intros [Hc _] Hv. rewrite (started_valid s Hv). split; [reflexivity|].
  cbn [effect]. simpl.
  unfold GetURLLoaderFactoryGetterOnUIThread, MakeRequestID, resolved_world,
    resolved_frame.
  simpl. rewrite to_int32_small by (unfold kInitialRequestID in Hc; lia).
  by destruct (s_frame s), rfh.
Qed.

Lemma run_two s e1 e2 w1 :
  setup_ok s →
  enabled e1 (started s) = true → effect e1 (started s) = w1 →
  enabled e2 w1 = true →
  null_free e1 = true → null_free e2 = true →
  run [e1; e2] (started s) = Some (effect e2 w1)
  ∧ inv w1 ∧ inv_cfg s w1.
Proof.
  intros Hs Hen1 <- Hen2 Hnf1 Hnf2.
  pose proof (inv_started s Hs) as Hinv.
  destruct (handle_inv e1 _ Hinv Hen1 Hnf1) as [Hh1 Hinv1].
  destruct (handle_inv e2 _ Hinv1 Hen2 Hnf2) as [Hh2 _].
  split; [|split; [exact Hinv1|]].
  - cbn [run]. by rewrite Hen1, Hh1, Hen2, Hh2.
  - apply effect_cfg; [exact Hinv | apply inv_cfg_started | exact Hen1].
Qed.

(** X17.  A request made for a frame whose render frame host is gone
    when the UI-thread step runs: the step still uses up an identifier,
    the continuation finds no loader factory and cancels.  The status is
    CANCELED, the error ABORTED, the client has received the completion
    call and nothing else, no loader was created and the registry is as
    it was. *)
Theorem X17_frame_without_host_is_canceled (s : Setup) (frame : ObjId) :
  setup_ok s →
  gurl_is_valid (CefRequestImpl.GetURL (s_request s)) = true →
  s_frame s = Some frame →
  ∃ w, run [EvUiTask None; EvContinue] (started s) = Some w
    ∧ status w = UR_CANCELED
    ∧ CefResponseImpl.GetError (response w) = ERR_ABORTED
    ∧ World.client_calls w = [CallOnRequestComplete (Some (s_url_request s))]
    ∧ Context.loader_ (World.ctx w) = None
    ∧ World.g_manager w = s_registry s
    ∧ World.request_id w = s_counter s - 1.
Proof.
  intros Hs Hv Hf.
  destruct (ui_task_started s None Hs Hv) as [Hen1 He1].
  destruct (run_two s (EvUiTask None) EvContinue _ Hs Hen1 He1 eq_refl
              eq_refl eq_refl)
    as (Hrun & Hinv1 & Hcfg1).
  eexists. split; [exact Hrun|].
  unfold resolved_world, resolved_frame. rewrite Hf. cbn [effect]. simpl.
  unfold canceled, cleaned, removed, status, response. simpl.
  repeat split; reflexivity.
Qed.

(** X18.  A request made without a frame, or for a frame whose render
    frame host exists: after the UI-thread step and the continuation the
    loader exists, the request is PENDING and the client has not been
    called.  The transport request is routed to the frame tree node of
    the host, or to no frame when the request has none; the loader has
    the next identifier below the static of [MakeRequestID], and the
    request is registered under it. *)
Theorem X18_request_routing (s : Setup) (rfh : option RenderFrameHost.t) :
  setup_ok s →
  gurl_is_valid (CefRequestImpl.GetURL (s_request s)) = true →
  (s_frame s = None ∨ is_Some rfh) →
  ∃ w loader,
    run [EvUiTask rfh; EvContinue] (started s) = Some w
    ∧ Context.loader_ (World.ctx w) = Some loader
    ∧ status w = UR_IO_PENDING
    ∧ World.client_calls w = []
    ∧ ResourceRequest.render_frame_id
        (SimpleURLLoader.resource_request loader)
      = match s_frame s, rfh with
        | Some _, Some host => RenderFrameHost.frame_tree_node_id host
        | _, _ => MSG_ROUTING_NONE
        end
    ∧ SimpleURLLoader.request_id loader = Some (s_counter s - 1)
    ∧ World.g_manager w
      = <[s_counter s - 1 := registered s]> (s_registry s).
Proof.
  intros Hs Hv Hframe.
  destruct (ui_task_started s rfh Hs Hv) as [Hen1 He1].
  destruct (run_two s (EvUiTask rfh) EvContinue _ Hs Hen1 He1 eq_refl
              eq_refl eq_refl)
    as (Hrun & Hinv1 & Hcfg1).
  assert (Hg : ∃ getter, snd (resolved_frame (s_frame s) rfh) = Some getter).
  { unfold resolved_frame.
    destruct Hframe as [-> | [host ->]]; [eauto|].
    destruct (s_frame s); eauto. }
  destruct Hg as [getter Hg].
  destruct (continue_effect s (resolved_world s rfh)
              {| ct_render_frame_id := fst (resolved_frame (s_frame s) rfh);
                 ct_request_id := s_counter s - 1;
                 ct_loader_factory_getter :=
                   snd (resolved_frame (s_frame s) rfh) |}
              [] getter Hinv1 Hcfg1 eq_refl eq_refl Hg)
    as (He2 & Ec & Ek & _).
  rewrite He2 in Hrun.
  eexists _, _. split; [exact Hrun|]. cbn [ct_render_frame_id ct_request_id].
  split; [apply loader_continued|].
  split; [by rewrite (proj1 (obs_fields _ _ _ _ _
                               (obs_continued _ _ _ _)))|].
  split; [by rewrite (proj1 (track_fields _ _ _ _ _
                               (track_continued _ _ _ _)))|].
  split; [|split; [apply request_id_configured|]].
  - unfold configured_loader, configure, transport_request, resolved_frame.
    simpl.
    destruct (has_flag (CefRequestImpl.flags_ (s_request s))
                UR_FLAG_ALLOW_STORED_CREDENTIALS);
      simpl; by destruct (s_frame s), rfh.
  - pose proof (kept_continued (fst (resolved_frame (s_frame s) rfh))
                  (s_counter s - 1) getter
                  (World.set_originating_tasks [] (resolved_world s rfh)))
      as Ek'.
    by apply kept_fields in Ek' as (-> & _).
Qed.

End FlowFacts.

(** ** The assertion of [OnRedirect] *)

Section RedirectFacts.
Context `{Platform}.

(** X19.  The assertion of [OnRedirect] that stopping on redirects was
    asked for tests [flags | UR_FLAG_STOP_ON_REDIRECT], which is not zero
    whatever the flags: it never fails.  [OnRedirect] on a live, pending
    request returns and cancels the request also when the descriptor does
    not have the flag; what can stop it is the header pointer of the
    response head, which it reads without a test. *)
Theorem X19_redirect_assertion_never_fails
    (redirect_info : RedirectInfo.t) (response_head : URLResponseHead.t)
    (map_ : gmap Z RequestInfo) (w : World.t) :
  live w = true → status w = UR_IO_PENDING →
  non_null (Context.client_ (World.ctx w)) = true →
  RequestManager.Remove (Context.request_id_ (World.ctx w)) (World.g_manager w)
    = Ok map_ →
  (∀ flags, Z.lor flags UR_FLAG_STOP_ON_REDIRECT ≠ 0)
  ∧ (is_Some (URLResponseHead.headers response_head) →
     ∃ w', OnRedirect redirect_info response_head w = Ok w'
           ∧ status w' = UR_CANCELED
           ∧ live w' = false
           ∧ World.g_manager w' = map_)
  ∧ (URLResponseHead.headers response_head = None →
     OnRedirect redirect_info response_head w = Crashed).
Proof.
  intros Hl Hs Hc Hr. split; [|split; [|apply OnRedirect_null]].
  - intros flags Hz. apply Z.lor_eq_0_iff in Hz as [_ Hz]. discriminate Hz.
  - intros Hp. exists (redirected redirect_info response_head map_ w).
    split; [by apply OnRedirect_eq|]. unfold redirected.
    split; [apply status_canceled|]. split; [apply live_canceled|].
    by destruct (kept_fields _ _ _ _ _ _ _ _ _
                   (kept_canceled map_
                      (response_stored (RedirectInfo.new_url redirect_info)
                         (pointee (URLResponseHead.headers response_head)) w)))
      as (-> & _).
Qed.

End RedirectFacts.

(** ** Requests that do not ask for upload progress *)

Section NoUploadProgress.
Context `{Platform}.
Implicit Types w : World.t.

Lemma size_track w calls request got size :
  track w = (calls, request, got, size) →
  Context.upload_data_size_ (World.ctx w) = size.
Proof. intros E. by apply track_fields in E as (_ & _ & _ & ->). Qed.

Lemma body_upload_size_no_flag flags body old :
  has_flag flags UR_FLAG_REPORT_UPLOAD_PROGRESS = false →
  body_upload_size flags body old = old.
Proof.
  intros Hf. unfold body_upload_size. rewrite Hf.
  destruct body as [[|element [|]]|]; try reflexivity.
  by destruct (DataElement.type element).
Qed.

(** An event other than a report of the transport leaves the expected
    upload size as it is, but for the continuation, which sets it from
    the body of the descriptor. *)
Lemma upload_size_cases s e w :
  inv w → inv_cfg s w → enabled e w = true → is_upload_event e = false →
  Context.upload_data_size_ (World.ctx (effect e w))
  = Context.upload_data_size_ (World.ctx w)
  ∨ Context.upload_data_size_ (World.ctx (effect e w))
    = body_upload_size (CefRequestImpl.GetFlags (descriptor s))
        (CefRequestImpl.postdata_ (descriptor s))
        (Context.upload_data_size_ (World.ctx w)).
Proof.
  intros Hinv Hcfg Hen He.
  destruct (live w) eqn:Hl.
  2: { left. destruct (kept_dead e w Hinv Hl Hen) as (_ & Ec & _).
       by rewrite Ec. }
  destruct e; try discriminate; cbn [effect]; cbv zeta; rewrite ?Hl.
  - left. apply (size_track _ _ _ _ _ (track_canceled _ w)).
  - left. destruct (track_ui_task rfh w) as (Et & _).
    cbn [effect] in Et. by apply track_fields in Et as (_ & _ & _ & ->).
  - destruct (World.originating_tasks w) as [|task rest] eqn:Hor;
      [by left|].
    destruct (ct_loader_factory_getter task) as [getter|] eqn:Hg.
    + right.
      destruct (continue_effect s w task rest getter Hinv Hcfg Hl Hor Hg)
        as (_ & Ec & _ & Hld & _).
      rewrite (live_ctx _ _ Ec), Hl.
      rewrite (size_track _ _ _ _ _ (track_continued _ _ _ _)), Ec.
      by destruct (cfg_before s w Hcfg Hl Hld) as (-> & _).
    + left. destruct (kept_set_originating rest w) as [_ Ec].
      rewrite (live_ctx _ _ Ec), Hl.
      rewrite (size_track _ _ _ _ _ (track_canceled _ _)). by rewrite Ec.
  - left. simpl in Hen. apply loader_has_Some in Hen as (l & Hld & _).
    rewrite loader_with_result, Hld. cbn [fmap option_fmap option_map].
    unfold headers_completed.
    rewrite (size_track _ _ _ _ _ (track_completed _ _ _ _)).
    pose proof (track_headers_stored (pointee headers)
                  (with_result result w)) as Eh.
    pose proof (track_with_result result w) as Ew.
    apply track_fields in Ew as (_ & _ & _ & Es).
    destruct (_ && _); apply track_fields in Eh as (_ & _ & _ & ->);
      exact Es.
  - left. unfold redirected.
    rewrite (size_track _ _ _ _ _ (track_canceled _ _)).
    pose proof (track_response_stored (RedirectInfo.new_url redirect_info)
                  (pointee (URLResponseHead.headers response_head)) w) as Et.
    by apply track_fields in Et as (_ & _ & _ & ->).
  - left.
    pose proof (track_response_started final_url response_head w) as Et.
    by apply track_fields in Et as (_ & _ & _ & ->).
  - left. pose proof (track_progressed current w) as Et.
    destruct (CefResponseImpl.GetStatus _ =? 0);
      by apply track_fields in Et as (_ & _ & _ & ->).
  - left. apply (size_track _ _ _ _ _ (track_received _ w)).
  - left. simpl in Hen. apply loader_has_Some in Hen as (l & Hld & _).
    rewrite loader_with_result, Hld. cbn [fmap option_fmap option_map].
    rewrite (size_track _ _ _ _ _ (track_completed _ _ _ _)).
    pose proof (track_with_result result w) as Ew.
    by apply track_fields in Ew as (_ & _ & _ & ->).
  - left. pose proof (track_retried w) as Et.
    by apply track_fields in Et as (_ & _ & _ & ->).
Qed.

(** Without the flag, only a report of the transport would set the
    expected upload size. *)
Lemma upload_size_effect s e w :
  inv w → inv_cfg s w →
  has_flag (CefRequestImpl.GetFlags (s_request s))
    UR_FLAG_REPORT_UPLOAD_PROGRESS = false →
  enabled e w = true → is_upload_event e = false →
  Context.upload_data_size_ (World.ctx (effect e w))
  = Context.upload_data_size_ (World.ctx w).
Proof.
  intros Hinv Hcfg Hflag Hen He.
  destruct (upload_size_cases s e w Hinv Hcfg Hen He) as [E | E];
    [exact E|].
  rewrite E. apply body_upload_size_no_flag.
  unfold descriptor. by destruct (s_request s).
Qed.

Lemma no_upload_progress_step s es e w :
  has_flag (CefRequestImpl.GetFlags (s_request s))
    UR_FLAG_REPORT_UPLOAD_PROGRESS = false →
  inv w → inv_cfg s w → no_upload_progress es w → enabled e w = true →
  no_upload_progress (es ++ [e]) (effect e w).
Proof.
  intros Hflag Hinv Hcfg (Hups & Hsize & Hcalls) Hen.
  destruct (is_upload_event e) eqn:He.
  - destruct e; try discriminate. simpl in Hen.
    apply loader_has_Some in Hen as (l & Hld & Hcb).
    destruct (cfg_after s w Hcfg l Hld) as (_ & rf & id & ->).
    destruct (configured_download rf id s) as (_ & _ & _ & Hup).
    congruence.
  - unfold no_upload_progress.
    rewrite (uploads_other es e He),
      (upload_size_effect s e w Hinv Hcfg Hflag Hen He),
      (calls_effect e w Hinv Hen), List.filter_app, Hcalls.
    split; [exact Hups|]. split; [exact Hsize|].
    destruct (upload_effect e w Hinv Hen He) as [[-> _] | (_ & -> & _)];
      [reflexivity|].
    unfold upload_notice. rewrite Hsize. simpl. by rewrite andb_false_r.
Qed.

(** X20.  Along every run of a request whose descriptor does not ask for
    upload progress, the transport has no way of reporting it, the
    expected upload size stays 0 whatever the body, and the client never
    receives an upload-progress call, synthesized or not. *)
Theorem X20_no_upload_progress_without_flag
    (s : Setup) (es : list Event) (w : World.t) :
  setup_ok s →
  has_flag (CefRequestImpl.GetFlags (s_request s))
    UR_FLAG_REPORT_UPLOAD_PROGRESS = false →
  run es (started s) = Some w →
  uploads es = []
  ∧ Context.upload_data_size_ (World.ctx w) = 0
  ∧ count_calls is_upload_progress w = 0%nat.
Proof.
  intros Hs Hflag Hrun.
  assert (HP : no_upload_progress es w).
  { apply (reach_history s no_upload_progress es w);
      [| |exact Hs|exact Hrun].
    - intros es0 e w0. by apply no_upload_progress_step.
    - unfold no_upload_progress, started, Start.
      by destruct (gurl_is_valid _). }
  destruct HP as (Hups & Hsize & Hcalls).
  unfold count_calls. by rewrite Hcalls.
Qed.

End NoUploadProgress.

(** ** The further properties at work on the examples *)

(** X5, at work: the file is attached with the content type of the
    descriptor. *)
Lemma X5_file_body_is_attached_witness :
  ∃ w' loader,
    ContinueOnOriginatingThread (H := example_platform) MSG_ROUTING_NONE (-3)
      (Some {| URLLoaderFactoryGetter.render_frame_host := None |})
      (resolved file_post)
    = Ok w'
    ∧ Context.loader_ (World.ctx w') = Some loader
    ∧ SimpleURLLoader.upload loader
      = Some (FileForUpload "/tmp/notes.txt" "text/plain")
    ∧ Context.upload_data_size_ (World.ctx w') = 0.
Proof.
  destruct (X5_file_body_is_attached (H := example_platform)
              MSG_ROUTING_NONE (-3)
              {| URLLoaderFactoryGetter.render_frame_host := None |}
              (resolved file_post) (file_element "/tmp/notes.txt")
              ltac:(vm_compute; reflexivity) ltac:(vm_compute; reflexivity)
              ltac:(vm_compute; discriminate) ltac:(vm_compute; reflexivity)
              ltac:(vm_compute; reflexivity) ltac:(reflexivity))
    as (w' & loader & Hc & Hld & Hup & Hsize).
  exists w', loader. done.
Defined.

(** X6, at work: the GET that asks for the headers only. *)
Lemma X6_download_mode_witness :
  setup_ok headers_only_get
  ∧ Context.loader_ (World.ctx (loading headers_only_get))
    = Some (loader_of (loading headers_only_get))
  ∧ SimpleURLLoader.download (loader_of (loading headers_only_get))
    = Some HeadersOnly.
Proof.
  split; [apply example_setup_ok|]. split; [vm_compute; reflexivity|].
  apply (X6_download_mode (H := example_platform) headers_only_get
           [EvUiTask None; EvContinue] (loading headers_only_get)
           (loader_of (loading headers_only_get)) (example_setup_ok _)
           ltac:(vm_compute; reflexivity) ltac:(vm_compute; reflexivity)).
Defined.

(** X7, at work: the plain GET retries and is registered under -3. *)
Lemma X7_loader_policy_witness :
  setup_ok plain_get
  ∧ SimpleURLLoader.retry_options (loader_of plain_get_streaming)
    = Some (2, 3)
  ∧ SimpleURLLoader.allow_http_error_results (loader_of plain_get_streaming)
    = true.
Proof.
  split; [apply example_setup_ok|].
  destruct (X7_loader_policy (H := example_platform) plain_get
              [EvUiTask None; EvContinue] plain_get_streaming
              (loader_of plain_get_streaming) (example_setup_ok _)
              ltac:(vm_compute; reflexivity) ltac:(vm_compute; reflexivity))
    as (Hallow & Hretry & _).
  split; [exact Hretry | exact Hallow].
Defined.

(** X8, at work: the transport request of the plain GET. *)
Lemma X8_transport_request_witness :
  setup_ok plain_get
  ∧ ResourceRequest.request_initiator
      (SimpleURLLoader.resource_request (loader_of plain_get_streaming))
    = Some "http://example.test/"%string
  ∧ ResourceRequest.resource_type
      (SimpleURLLoader.resource_request (loader_of plain_get_streaming))
    = kSubResource.
Proof.
  split; [apply example_setup_ok|].
  destruct (X8_transport_request (H := example_platform) plain_get
              [EvUiTask None; EvContinue] plain_get_streaming
              (loader_of plain_get_streaming) (example_setup_ok _)
              ltac:(vm_compute; reflexivity) ltac:(vm_compute; reflexivity))
    as (Htype & Hinit & _).
  split; [exact Hinit | exact Htype].
Defined.

(** X9, at work: the plain GET is registered while it streams. *)
Lemma X9_registry_entry_while_loading_witness :
  setup_ok plain_get
  ∧ World.g_manager plain_get_streaming = {[ -3 := registered plain_get ]}
  ∧ CefBrowserURLRequest.FromGlobalRequestID
      {| GlobalRequestID.child_id := kBrowserProcessId;
         GlobalRequestID.request_id := -3 |} plain_get_streaming
    = Some (registered plain_get).
Proof.
  split; [apply example_setup_ok|].
  pose proof (X9_registry_entry_while_loading (H := example_platform)
                plain_get [EvUiTask None; EvContinue] plain_get_streaming
                (example_setup_ok _) ltac:(vm_compute; reflexivity)) as Hx.
  cbv zeta in Hx.
  assert (Hld : Context.loader_ (World.ctx plain_get_streaming)
                = Some (loader_of plain_get_streaming))
    by (vm_compute; reflexivity).
  assert (Hid : Context.request_id_ (World.ctx plain_get_streaming) = -3)
    by (vm_compute; reflexivity).
  rewrite Hld, Hid in Hx. destruct Hx as (_ & _ & Hm & Hfind).
  split; [|exact Hfind]. rewrite Hm. reflexivity.
Defined.

(** X10, at work: the posted form completes through the stream consumer. *)
Lemma X10_deferred_deletion_witness :
  setup_ok form_post
  ∧ run (H := example_platform) form_post_events
      (started (H := example_platform) form_post)
    = Some form_post_done
  ∧ ∃ loader getter,
      World.deferred form_post_done
      = [DeleteSoon loader; ReleaseSoon (Some getter)]
      ∧ SimpleURLLoader.result loader = example_result "http://example.test/".
Proof.
  split; [apply example_setup_ok|]. split; [vm_compute; reflexivity|].
  destruct (X10_deferred_deletion (H := example_platform) form_post
              form_post_events form_post_done (example_setup_ok _)
              ltac:(vm_compute; reflexivity))
    as (_ & _ & Hdone).
  apply (Hdone true (example_result "http://example.test/")).
  apply list_elem_of_In. simpl. do 5 right. left. reflexivity.
Defined.

(** X11, at work: the GET with a form is handed back as a POST. *)
Lemma X11_descriptor_is_kept_witness :
  setup_ok get_with_form
  ∧ ∃ rq,
      CefBrowserURLRequest.GetRequest true (loading get_with_form)
      = Ok (Some rq)
      ∧ CefRequestImpl.url_ rq = "http://example.test/"%string
      ∧ CefRequestImpl.read_only_ rq = true.
Proof.
  split; [apply example_setup_ok|].
  destruct (X11_descriptor_is_kept (H := example_platform) get_with_form
              [EvUiTask None; EvContinue] (loading get_with_form)
              (example_setup_ok _) ltac:(vm_compute; reflexivity))
    as (rq & Hget & Hurl & _ & _ & _ & Hro & _).
  exists rq. done.
Defined.

(** X12, at work: the plain GET canceled right after [Start]. *)
Lemma X12_error_follows_status_witness :
  setup_ok plain_get
  ∧ CefBrowserURLRequest.GetRequestStatus true canceled_at_once
    = Ok UR_CANCELED
  ∧ CefBrowserURLRequest.GetRequestError true canceled_at_once
    = Ok ERR_ABORTED.
Proof.
  split; [apply example_setup_ok|]. split; [vm_compute; reflexivity|].
  destruct (X12_error_follows_status (H := example_platform) plain_get
              [EvCancel] canceled_at_once (example_setup_ok _)
              ltac:(vm_compute; reflexivity))
    as (st & error & cached & Hst & Herr & _ & _ & _ & Hc).
  assert (E : st = UR_CANCELED).
  { vm_compute in Hst. by injection Hst as <-. }
  destruct (Hc E) as [-> _]. exact Herr.
Defined.

(** X13, at work: the same request no longer has a client. *)
Lemma X13_references_released_witness :
  setup_ok plain_get
  ∧ CefBrowserURLRequest.GetClient true canceled_at_once = Ok None
  ∧ CefBrowserURLRequest.GetClient true plain_get_streaming = Ok (Some 2%nat).
Proof.
  split; [apply example_setup_ok|]. split.
  - apply (X13_references_released (H := example_platform) plain_get
             [EvCancel] canceled_at_once (example_setup_ok _)
             ltac:(vm_compute; reflexivity)).
  - reflexivity.
Defined.

(** X14, at work: the five bytes of the answer to the posted form. *)
Lemma X14_download_data_in_order_witness :
  setup_ok form_post
  ∧ List.filter is_download_data (World.client_calls form_post_done)
    = [CallOnDownloadData (Some 1%nat) "hello"]
  ∧ World.transport_calls form_post_done = [RunResume].
Proof.
  split; [apply example_setup_ok|].
  apply (X14_download_data_in_order (H := example_platform) form_post
           form_post_events form_post_done (example_setup_ok _)
           ltac:(vm_compute; reflexivity)).
Defined.

(** X15, at work: the transport reports no upload progress for the posted
    form, and one notification is synthesized. *)
Lemma X15_upload_progress_forwarded_witness :
  setup_ok form_post
  ∧ ∃ synthesized,
      List.filter is_upload_progress (World.client_calls form_post_done)
      = synthesized
      ∧ (synthesized = []
         ∨ ∃ n, 0 < n
                ∧ synthesized = [CallOnUploadProgress (Some 1%nat) n n]).
Proof.
  split; [apply example_setup_ok|].
  destruct (X15_upload_progress_forwarded (H := example_platform) form_post
              form_post_events form_post_done (example_setup_ok _)
              ltac:(vm_compute; reflexivity))
    as (before & synthesized & after & Hups & Hcalls & Hsynth).
  destruct before; [|discriminate Hups]. destruct after; [|discriminate Hups].
  exists synthesized. split; [by rewrite Hcalls, app_nil_r|].
  destruct Hsynth as [-> | (n & Hn & -> & _)]; [by left | right; eauto].
Defined.

(** X16, at work: download progress after the response was announced. *)
Lemma X16_download_progress_total_witness :
  setup_ok form_post
  ∧ ∃ w',
      handle (H := example_platform) (EvDownloadProgress 3)
        form_post_responding = Ok w'
      ∧ World.client_calls w'
        = [CallOnUploadProgress (Some 1%nat) 3 3;
           CallOnDownloadProgress (Some 1%nat) 3 5].
Proof.
  split; [apply example_setup_ok|].
  destruct (X16_download_progress_total (H := example_platform) form_post
              [EvUiTask None; EvContinue;
               EvResponseStarted "http://example.test/" (example_head 200 5)]
              form_post_responding 3 (example_setup_ok _)
              ltac:(vm_compute; reflexivity) ltac:(vm_compute; reflexivity))
    as (w' & Hh & Hcalls & _).
  exists w'. split; [exact Hh|]. rewrite Hcalls. vm_compute. reflexivity.
Defined.

(** X17, at work: the frame of the request has no host any more. *)
Lemma X17_frame_without_host_is_canceled_witness :
  setup_ok framed_get
  ∧ ∃ w,
      run (H := example_platform) [EvUiTask None; EvContinue]
        (started (H := example_platform) framed_get) = Some w
      ∧ status w = UR_CANCELED
      ∧ World.g_manager w = example_registry
      ∧ World.request_id w = -5.
Proof.
  assert (Hs : setup_ok framed_get).
  { split; [vm_compute; split; [reflexivity | discriminate]|].
    intros k [info Hk]. unfold framed_get, example_registry in Hk.
    cbn [s_registry s_counter] in *.
    apply lookup_singleton_Some in Hk as [<- _]. reflexivity. }
  split; [exact Hs|].
  destruct (X17_frame_without_host_is_canceled (H := example_platform)
              framed_get 5%nat Hs ltac:(vm_compute; reflexivity)
              ltac:(reflexivity))
    as (w & Hrun & Hst & _ & _ & _ & Hm & Hid).
  exists w. done.
Defined.

(** X18, at work: the plain GET has no frame. *)
Lemma X18_request_routing_witness :
  setup_ok plain_get
  ∧ ∃ w loader,
      run (H := example_platform) [EvUiTask None; EvContinue]
        (started (H := example_platform) plain_get) = Some w
      ∧ Context.loader_ (World.ctx w) = Some loader
      ∧ ResourceRequest.render_frame_id
          (SimpleURLLoader.resource_request loader) = MSG_ROUTING_NONE
      ∧ SimpleURLLoader.request_id loader = Some (-3).
Proof.
  split; [apply example_setup_ok|].
  destruct (X18_request_routing (H := example_platform) plain_get None
              (example_setup_ok _) ltac:(vm_compute; reflexivity)
              ltac:(left; reflexivity))
    as (w & loader & Hrun & Hld & _ & _ & Hrf & Hid & _).
  exists w, loader. done.
Defined.

(** X19, at work: the plain GET did not ask to stop on redirects. *)
Lemma X19_redirect_assertion_never_fails_witness :
  has_flag (CefRequestImpl.GetFlags (s_request plain_get))
    UR_FLAG_STOP_ON_REDIRECT = false
  ∧ ∃ w', OnRedirect example_redirect (example_head 302 0) plain_get_streaming
          = Ok w'
          ∧ status w' = UR_CANCELED.
Proof.
  split; [vm_compute; reflexivity|].
  destruct (X19_redirect_assertion_never_fails
              example_redirect (example_head 302 0) ∅ plain_get_streaming
              ltac:(vm_compute; reflexivity) ltac:(vm_compute; reflexivity)
              ltac:(vm_compute; reflexivity) ltac:(vm_compute; reflexivity))
    as (_ & Hset & _).
  destruct (Hset ltac:(eexists; reflexivity)) as (w' & Hh & Hst & _).
  exists w'. done.
Defined.

(** X20, at work: the GET with a form does not ask for upload progress. *)
Lemma X20_no_upload_progress_without_flag_witness :
  setup_ok get_with_form
  ∧ count_calls is_upload_progress (loading get_with_form) = 0%nat.
Proof.
  split; [apply example_setup_ok|].
  apply (X20_no_upload_progress_without_flag (H := example_platform)
           get_with_form [EvUiTask None; EvContinue] (loading get_with_form)
           (example_setup_ok _) ltac:(vm_compute; reflexivity)
           ltac:(vm_compute; reflexivity)).
Defined.

(** * Upload progress of a single byte buffer *)

(** C4, as amended.  A request asks for upload progress, its body is a
    single byte buffer of [n] bytes, and the transport reports no upload
    progress itself.  If the buffer is not empty, then once the request has
    completed with success the client has received exactly one
    upload-progress call, with sent = total = [n]; before it there are only
    download-data calls; it is followed at once by the first
    download-progress call or, if there is none, by the completion call,
    which is the last call.  If the buffer is empty, the client has
    received no upload-progress call at all, wherever the run stands. *)
Theorem C4_upload_notified_once `{Platform}
    (s : Setup) (element : DataElement.t) (es : list Event) (w : World.t) :
  setup_ok s →
  CefRequestImpl.postdata_ (s_request s) = Some [element] →
  DataElement.type element = kBytes →
  has_flag (CefRequestImpl.GetFlags (s_request s))
    UR_FLAG_REPORT_UPLOAD_PROGRESS = true →
  0 <= DataElement.offset element <= DataElement.length element →
  DataElement.length element < 2 ^ 63 →
  Forall (fun e => is_upload_event e = false) es →
  run es (started s) = Some w →
  let n := DataElement.length element - DataElement.offset element in
  (DataElement.length element
     <= Z.of_nat (String.length (DataElement.bytes element)) →
   Z.of_nat (String.length (bytes_data element)) = n)
  ∧ (0 < n → status w = UR_SUCCESS →
     count_calls is_upload_progress w = 1%nat
     ∧ ∃ before request between request',
         World.client_calls w
         = before ++ [CallOnUploadProgress request n n] ++ between
           ++ [CallOnRequestComplete request']
         ∧ Forall (fun c => is_download_data c = true) before
         ∧ Forall
             (fun c => is_download_progress c || is_download_data c = true)
             between
         ∧ match between with
           | [] => True
           | c :: _ => is_download_progress c = true
           end)
  ∧ (n = 0 → count_calls is_upload_progress w = 0%nat).
Proof.
  intros Hs Hbody Htype Hflag Hoff Hlen Hq Hrun n.
  assert (Hsize : to_int64 (bytes_size element) = n).
  { unfold bytes_size. apply int64_of_size; lia. }
  pose proof (reach_inv s es w Hs Hrun) as Hinv.
  split; [|split].
  - intros Hbytes. unfold bytes_data, bytes_size, to_uint64.
    rewrite Z.mod_small by lia. rewrite length_substring; lia.
  - intros Hn Hstatus.
    assert (Hl : live w = false).
    { destruct (live w) eqn:E; [|done].
      rewrite (inv_pending w Hinv E) in Hstatus. discriminate. }
    destruct (upload_tracked_run s element n es w Hs Hbody Htype Hflag Hsize
                Hn Hq Hrun) as [_ Hdone].
    destruct (from_not_notified n _ (Hdone Hl Hstatus))
      as (before & r & between & r' & Hcalls & Hbefore & Hbetween & Hhead).
    split.
    + unfold count_calls. rewrite Hcalls, !List.filter_app.
      rewrite (count_filter_none is_upload_progress
                 (fun c => is_download_data c) before);
        [|intros c; by destruct c|exact Hbefore].
      rewrite (count_filter_none is_upload_progress
                 (fun c => is_download_progress c || is_download_data c)
                 between);
        [|intros c; by destruct c|exact Hbetween].
      reflexivity.
    + exists before, r, between, r'. done.
  - intros Hn. rewrite Hn in Hsize.
    assert (Hzero : body_upload_size
                      (CefRequestImpl.GetFlags (descriptor s))
                      (CefRequestImpl.postdata_ (descriptor s)) 0 = 0).
    { unfold descriptor, body_upload_size, CefRequestImpl.GetFlags in *.
      destruct (s_request s). simpl in *.
      by rewrite Hbody, Htype, Hflag, Hsize. }
    assert (HP : Context.upload_data_size_ (World.ctx w) = 0
                 ∧ List.filter is_upload_progress (World.client_calls w) = []).
    { apply (run_invariant_on s (fun e => is_upload_event e = false)
               (fun w => Context.upload_data_size_ (World.ctx w) = 0
                         ∧ List.filter is_upload_progress
                             (World.client_calls w) = [])
               es (started s) w);
        [|exact Hq|by apply inv_started|apply inv_cfg_started| |exact Hrun].
      - intros e w0 He Hinv0 Hcfg0 [Hsz Hcalls] Hen. split.
        + destruct (upload_size_cases s e w0 Hinv0 Hcfg0 Hen He) as [E | E];
            rewrite E; [exact Hsz | by rewrite Hsz].
        + rewrite (calls_effect e w0 Hinv0 Hen), List.filter_app, Hcalls.
          destruct (upload_effect e w0 Hinv0 Hen He)
            as [[-> _] | (_ & -> & _)]; [reflexivity|].
          unfold upload_notice. rewrite Hsz. simpl. by rewrite andb_false_r.
      - unfold started, Start. by destruct (gurl_is_valid _). }
    unfold count_calls. by rewrite (proj2 HP).
Qed.

(** C4, at work: a form of three bytes is posted, the transport reports
    no upload progress, answers and completes, and the client has received
    one upload-progress call; an empty form is posted and completes, and
    the client has received none. *)
Lemma C4_upload_notified_once_witness :
  setup_ok form_post
  ∧ run (H := example_platform) form_post_events
      (started (H := example_platform) form_post)
    = Some form_post_done
  ∧ status form_post_done = UR_SUCCESS
  ∧ count_calls is_upload_progress form_post_done = 1%nat
  ∧ setup_ok empty_post
  ∧ run (H := example_platform) empty_post_events
      (started (H := example_platform) empty_post)
    = Some empty_post_done
  ∧ status empty_post_done = UR_SUCCESS
  ∧ count_calls is_upload_progress empty_post_done = 0%nat.
Proof.
  split; [apply example_setup_ok|]. split; [vm_compute; reflexivity|].
  split; [vm_compute; reflexivity|]. split.
  - apply (C4_upload_notified_once (H := example_platform) form_post
             (bytes_element "a=1") form_post_events form_post_done).
    + apply example_setup_ok.
    + reflexivity.
    + reflexivity.
    + vm_compute; reflexivity.
    + vm_compute. split; discriminate.
    + vm_compute; reflexivity.
    + repeat constructor.
    + vm_compute; reflexivity.
    + vm_compute; reflexivity.
    + vm_compute; reflexivity.
  - split; [apply example_setup_ok|]. split; [vm_compute; reflexivity|].
    split; [vm_compute; reflexivity|].
    apply (C4_upload_notified_once (H := example_platform) empty_post
             (bytes_element "") empty_post_events empty_post_done).
    + apply example_setup_ok.
    + reflexivity.
    + reflexivity.
    + vm_compute; reflexivity.
    + vm_compute. split; discriminate.
    + vm_compute; reflexivity.
    + repeat constructor.
    + vm_compute; reflexivity.
    + vm_compute; reflexivity.
Defined.
